(** * Resume-Formatter: a shallow embedding of [app.py]

    The service is a single Flask script.  Its own logic is the sequencing of
    four library calls per uploaded file (document loader, language-model
    chain, JSON clean-up, HTML-to-PDF renderer) and the packaging of the
    produced PDFs in a zip archive.

    Conventions of the embedding:
    - a Python [str] is a [string]; each character stands for one code point
      below 256 (the Latin-1 fragment of Unicode), which is where
      [str.lower] and [str.strip] are spelled out;
    - [os.path] is [posixpath]: the separator is [/], there is no alternative
      separator and no drive;
    - the file system is a finite map from path strings to file contents,
      keyed by the path as the script passes it to the library.  On disk
      two strings can name one file ([x], [./x] and [a/../x]), so what is
      stated of a path being left unchanged is stated for file names
      without a separator and for plain paths ([plain]), where different
      strings are different files; links are not modelled;
    - third-party calls whose result the script cannot compute (the loaders,
      the model, [json.loads], the template engine, the PDF writer, whether a
      file can be opened for writing) are fields of a record [Externals];
      every theorem is proved for all of them;
    - effects are explicit: a computation takes a [World] (file system and
      the trace of external calls made so far) and returns a result or a
      raised exception together with the new [World]. *)

From Stdlib Require Import ZArith Ascii String List Bool Lia.
From stdpp Require Import gmap strings list fin_maps.

Local Open Scope Z_scope.

(* ===================================================================== *)
(** ** Python strings *)
(* ===================================================================== *)

Module PyStr.

(** [s[:n]] for [0 <= n]. *)
Fixpoint take (n : nat) (s : string) : string :=
  match n, s with
  | O, _ => EmptyString
  | S _, EmptyString => EmptyString
  | S k, String c s' => String c (take k s')
  end.

(** [s[n:]] for [0 <= n]. *)
Fixpoint drop (n : nat) (s : string) : string :=
  match n, s with
  | O, _ => s
  | S _, EmptyString => EmptyString
  | S k, String _ s' => drop k s'
  end.

(** [s.rfind(c)] for a one-character [c]: the highest index of [c], or
    [-1]. *)
Fixpoint rfind (c : ascii) (s : string) : Z :=
  match s with
  | EmptyString => -1
  | String a s' =>
      let r := rfind c s' in
      if 0 <=? r then r + 1 else if Ascii.eqb a c then 0 else -1
  end.

(** [s.startswith(c)] and [s.endswith(c)] for a one-character [c]. *)
Definition startswith (c : ascii) (s : string) : bool :=
  match s with
  | String a _ => Ascii.eqb a c
  | EmptyString => false
  end.

Fixpoint endswith (c : ascii) (s : string) : bool :=
  match s with
  | EmptyString => false
  | String a EmptyString => Ascii.eqb a c
  | String _ s' => endswith c s'
  end.

(** [c.lower()] on code points below 256: the ASCII capitals and the
    Latin-1 capitals U+00C0..U+00DE except the multiplication sign. *)
Definition lower_char (c : ascii) : ascii :=
  let n := nat_of_ascii c in
  if ((65 <=? n) && (n <=? 90))%nat
     || ((192 <=? n) && (n <=? 222) && negb (n =? 215))%nat
  then ascii_of_nat (n + 32)
  else c.

Fixpoint lower (s : string) : string :=
  match s with
  | EmptyString => EmptyString
  | String c s' => String (lower_char c) (lower s')
  end.

(** [c.isspace()] on code points below 256. *)
Definition is_space (c : ascii) : bool :=
  let n := nat_of_ascii c in
  (((9 <=? n) && (n <=? 13)) || ((28 <=? n) && (n <=? 32))
   || (n =? 133) || (n =? 160))%nat.

Fixpoint lstrip (s : string) : string :=
  match s with
  | EmptyString => EmptyString
  | String c s' => if is_space c then lstrip s' else s
  end.

Fixpoint rstrip (s : string) : string :=
  match s with
  | EmptyString => EmptyString
  | String c s' =>
      match rstrip s' with
      | EmptyString => if is_space c then EmptyString else String c EmptyString
      | r => String c r
      end
  end.

(** [s.strip()] *)
Definition strip (s : string) : string := rstrip (lstrip s).

(** [needle in hay] on two strings. *)
Fixpoint contains (needle hay : string) : bool :=
  match hay with
  | EmptyString => String.prefix needle EmptyString
  | String _ hay' => String.prefix needle hay || contains needle hay'
  end.

(** [sep.join(parts)] *)
Definition join (sep : string) (parts : list string) : string :=
  String.concat sep parts.

End PyStr.

(* ===================================================================== *)
(** ** [posixpath] *)
(* ===================================================================== *)

Module posixpath.

Definition sep : ascii := "/"%char.
Definition extsep : ascii := "."%char.

(** The [while] loop of [genericpath._splitext]: starting at
    [filenameIndex], look at [todo] characters; answer [true] as soon as
    one of them is not a dot (the function then returns the split), and
    [false] when the loop runs out. *)
Fixpoint skip_leading_dots (p : string) (filenameIndex todo : nat) : bool :=
  match todo with
  | O => false
  | S k =>
      if negb (String.eqb (String.substring filenameIndex 1 p)
                          (String extsep EmptyString))
      then true
      else skip_leading_dots p (S filenameIndex) k
  end.

(** [os.path.splitext(p)] *)
Definition splitext (p : string) : string * string :=
  let sepIndex := PyStr.rfind sep p in
  let dotIndex := PyStr.rfind extsep p in
  if (sepIndex <? dotIndex)
     && skip_leading_dots p (Z.to_nat (sepIndex + 1))
                          (Z.to_nat (dotIndex - (sepIndex + 1)))
  then (PyStr.take (Z.to_nat dotIndex) p, PyStr.drop (Z.to_nat dotIndex) p)
  else (p, EmptyString).

(** [os.path.join(a, b)] *)
Definition join (a b : string) : string :=
  if PyStr.startswith sep b then b
  else if String.eqb a EmptyString || PyStr.endswith sep a then a +:+ b
  else a +:+ String sep EmptyString +:+ b.

(** [os.path.basename(p)] *)
Definition basename (p : string) : string :=
  PyStr.drop (Z.to_nat (PyStr.rfind sep p + 1)) p.

End posixpath.


(* ===================================================================== *)
(** ** Values, exceptions and the world *)
(* ===================================================================== *)

#[local] Set Warnings "-register-all".

(** What [json.loads] returns: a Python [dict] (keys in document order),
    [list], [str], [int], [float] (kept as its literal), [bool] or [None]. *)
Inductive json : Type :=
| JNull
| JBool (b : bool)
| JInt (n : Z)
| JFloat (literal : string)
| JString (s : string)
| JArray (items : list json)
| JObject (members : list (string * json)).

Inductive exn : Type :=
| ValueError (msg : string)
| TypeError (msg : string)
| JSONDecodeError
| OSError (path : string)
| FileNotFoundError (path : string)
| LibraryError (what : string).

Inductive result (A : Type) : Type :=
| Ok (a : A)
| Raise (e : exn).
Arguments Ok {A} a.
Arguments Raise {A} e.

(** A langchain [Document]; only [page_content] is read by the script. *)
Record Document : Type := mkDocument { page_content : string }.

(** The calls that leave the script, in the order they are made. *)
Inductive Event : Type :=
| EvSave (path : string)
| EvInvoke (resume_text : string)
| EvJsonLoads (text : string)
| EvPrint (msg : string)
| EvRender (name contact : string) (data : json)
| EvWritePdf (path : string).

(** [trace] has the most recent call first. *)
Record World : Type := mkWorld {
  fs : gmap string string;
  trace : list Event
}.

(** The third-party functions.  The loaders, the model and the template
    engine read the outside world, so they take it as an argument. *)
Record Externals : Type := mkExternals {
  can_write : World -> string -> bool;
  PyPDFLoader_load : World -> string -> result (list Document);
  Docx2txtLoader_load : World -> string -> result (list Document);
  chain_invoke : World -> string -> result string;
  json_loads : string -> result json;
  template_render : World -> string -> string -> json -> result string;
  write_pdf_bytes : World -> string -> result string
}.

(** A werkzeug [FileStorage]: the client's file name and the bytes sent. *)
Record FileStorage : Type := mkFile { filename : string; stream : string }.

(** A Flask request: [request.files] and [request.form] are multi-dicts,
    kept as association lists in arrival order. *)
Record Request : Type := mkRequest {
  req_files : list (string * FileStorage);
  req_form : list (string * string)
}.

Inductive Response : Type :=
| JsonResponse (body : json) (status : nat)
| SendFile (zip : list (string * string)) (as_attachment : bool)
           (download_name mimetype : string).

(** Computations: state passing with exceptions; the world at the point of
    a [raise] is kept. *)
Definition M (A : Type) : Type := World -> result A * World.

Definition ret {A} (a : A) : M A := fun w => (Ok a, w).
Definition raise {A} (e : exn) : M A := fun w => (Raise e, w).
Definition bind {A B} (m : M A) (k : A -> M B) : M B :=
  fun w => match m w with
           | (Ok a, w') => k a w'
           | (Raise e, w') => (Raise e, w')
           end.
Definition lift {A} (r : result A) : M A := fun w => (r, w).
Definition emit (e : Event) : M unit :=
  fun w => (Ok tt, {| fs := fs w; trace := e :: trace w |}).

Declare Scope py_scope.
Delimit Scope py_scope with py.
Notation "'let*' x := m 'in' k" := (bind m (fun x => k))
  (at level 10, x name, m at level 100, k at level 200) : py_scope.
Notation "'do' m 'then' k" := (bind m (fun _ => k))
  (at level 10, m at level 100, k at level 200) : py_scope.
Local Open Scope py_scope.

(* ===================================================================== *)
(** ** Python built-ins used by the script *)
(* ===================================================================== *)

Definition NL : string := String (ascii_of_nat 10) EmptyString.

(** [re.sub(r"```(?:json)?|```", "", s)]: at each position not inside an
    earlier match, three backticks match, together with a following [json]
    when there is one; matched characters are dropped.  [skip] counts the
    characters of the current match still to drop. *)
Fixpoint re_sub_fences_from (skip : nat) (s : string) : string :=
  match s with
  | EmptyString => EmptyString
  | String c s' =>
      match skip with
      | S k => re_sub_fences_from k s'
      | O =>
          if String.prefix "```json" s then re_sub_fences_from 6 s'
          else if String.prefix "```" s then re_sub_fences_from 2 s'
          else String c (re_sub_fences_from 0 s')
      end
  end.

Definition re_sub_fences (s : string) : string := re_sub_fences_from 0 s.

Definition is_str (s : string) (v : json) : bool :=
  match v with
  | JString t => String.eqb t s
  | _ => false
  end.

(** [key in v] for a string [key]: key membership in a [dict], element
    membership in a [list], substring test in a [str]; the other values are
    not containers and the test raises [TypeError] (its message, which names
    the type, is shortened here). *)
Definition py_in (key : string) (v : json) : result bool :=
  match v with
  | JObject members => Ok (existsb (fun kv => String.eqb (fst kv) key) members)
  | JArray items => Ok (existsb (is_str key) items)
  | JString s => Ok (PyStr.contains key s)
  | JNull | JBool _ | JInt _ | JFloat _ =>
      Raise (TypeError "argument is not iterable")
  end.

(** [MultiDict.getlist(key)] and [MultiDict.get(key, default)]. *)
Definition getlist {V} (key : string) (md : list (string * V)) : list V :=
  map snd (List.filter (fun kv => String.eqb (fst kv) key) md).

Definition form_get (key default : string) (md : list (string * string)) : string :=
  match getlist key md with
  | v :: _ => v
  | [] => default
  end.

(* ===================================================================== *)
(** ** The script *)
(* ===================================================================== *)

Definition MODEL_NAME : string := "gemini-2.5-pro".
Definition UPLOAD_FOLDER : string := "uploads".
Definition OUTPUT_FOLDER : string := "output".

(** The two langchain loader classes, and a loader built on a path. *)
Inductive LoaderClass : Type := PyPDFLoader | Docx2txtLoader.

Record Loader : Type := mkLoader {
  loader_class : LoaderClass;
  loader_path : string
}.

Section App.

Variable X : Externals.

(** [open(path, "wb").write(data)], as done by [FileStorage.save] and by
    WeasyPrint's [write_pdf]. *)
Definition write_file (path data : string) (ev : Event) : M unit :=
  fun w =>
    if can_write X w path
    then (Ok tt, {| fs := <[path := data]> (fs w); trace := ev :: trace w |})
    else (Raise (OSError path), w).

(** [file.save(path)] *)
Definition file_save (file : FileStorage) (path : string) : M unit :=
  write_file path (stream file) (EvSave path).

(** [loader.load()]; for the DOCX loader the constructor's own check of the
    path is part of the same external call. *)
Definition loader_load (loader : Loader) : M (list Document) :=
  fun w =>
    match loader_class loader with
    | PyPDFLoader => (PyPDFLoader_load X w (loader_path loader), w)
    | Docx2txtLoader => (Docx2txtLoader_load X w (loader_path loader), w)
    end.

(** The [if]/[elif]/[else] of [load_resume] that picks the loader. *)
Definition select_loader (file_path : string) : result Loader :=
  let ext := PyStr.lower (snd (posixpath.splitext file_path)) in
  if String.eqb ext ".pdf" then Ok (mkLoader PyPDFLoader file_path)
  else if existsb (String.eqb ext) [".docx"; ".doc"]
  then Ok (mkLoader Docx2txtLoader file_path)
  else Raise (ValueError "Unsupported file type.").

Definition load_resume (file_path : string) : M string :=
  let* loader := lift (select_loader file_path) in
  let* docs := loader_load loader in
  let full_text := PyStr.join NL (map page_content docs) in
  ret full_text.

(** [chain.invoke({"resume_text": resume_text})]: prompt template, model and
    string parser are one external call. *)
Definition invoke_chain (resume_text : string) : M string :=
  fun w =>
    match chain_invoke X w resume_text with
    | Ok response =>
        (Ok response, {| fs := fs w; trace := EvInvoke resume_text :: trace w |})
    | Raise e => (Raise e, w)
    end.

Definition fallback (response : string) : json :=
  JObject [("error", JString "Invalid JSON from LLM"); ("raw", JString response)].

(** The printed warning starts with a warning sign (U+26A0 U+FE0F), which is
    outside the code points of the embedding and is left out of the
    message. *)
Definition convert_to_json (resume_text : string) : M json :=
  let* response := invoke_chain resume_text in
  let cleaned := PyStr.strip (re_sub_fences response) in
  do emit (EvJsonLoads cleaned) then
  match json_loads X cleaned with
  | Ok v => ret v
  | Raise JSONDecodeError =>
      do emit (EvPrint "Failed JSON parse. Returning fallback.") then
      ret (fallback response)
  | Raise e => raise e
  end.

(** [env.get_template(...)] and [template.render(...)] *)
Definition render (name contact : string) (data : json) : M string :=
  fun w =>
    match template_render X w name contact data with
    | Ok html =>
        (Ok html, {| fs := fs w; trace := EvRender name contact data :: trace w |})
    | Raise e => (Raise e, w)
    end.

(** [HTML(string=html_content).write_pdf(pdf_path)] *)
Definition write_pdf (html_content pdf_path : string) : M unit :=
  fun w =>
    match write_pdf_bytes X w html_content with
    | Ok data => write_file pdf_path data (EvWritePdf pdf_path) w
    | Raise e => (Raise e, w)
    end.

Definition pdf_path_of (filename : string) : string :=
  posixpath.join OUTPUT_FOLDER
    (fst (posixpath.splitext filename) +:+ "_formatted.pdf").

(** The keyword defaults of the Python function ([name="Candidate"],
    [contact="example@email.com"], [filename="resume"]) are never used:
    the only caller passes all four arguments. *)
Definition generate_company_resume
    (data_json : json) (name contact filename : string) : M string :=
  let* html_content := render name contact data_json in
  let pdf_path := pdf_path_of filename in
  do write_pdf html_content pdf_path then
  ret pdf_path.

(** The body of the [for file in files] loop; [None] is [continue],
    [Some pdf_path] is the path appended to [pdf_paths]. *)
Definition loop_body (name contact : string) (file : FileStorage)
    : M (option string) :=
  let path := posixpath.join UPLOAD_FOLDER (filename file) in
  do file_save file path then
  let* text := load_resume path in
  let* resume_json := convert_to_json text in
  let* has_error := lift (py_in "error" resume_json) in
  if has_error : bool then ret None
  else
    let* pdf_path := generate_company_resume resume_json name contact (filename file) in
    ret (Some pdf_path).

Fixpoint for_files (name contact : string) (files : list FileStorage)
    (pdf_paths : list string) : M (list string) :=
  match files with
  | [] => ret pdf_paths
  | file :: rest =>
      let* r := loop_body name contact file in
      match r with
      | None => for_files name contact rest pdf_paths
      | Some pdf_path => for_files name contact rest (pdf_paths ++ [pdf_path])
      end
  end.

(** [for pdf in pdf_paths: zipf.write(pdf, os.path.basename(pdf))].  The
    archive is the list of its entries (name, data) in the order written;
    [zipfile] keeps entries with equal names side by side.  [ZipFile.write]
    normalizes the archive name it is given; a base name that ends in
    [_formatted.pdf], as all names met here do, is left as it is. *)
Fixpoint zip_write_all (pdf_paths : list string) (zipf : list (string * string))
    : M (list (string * string)) :=
  match pdf_paths with
  | [] => ret zipf
  | pdf :: rest =>
      fun w =>
        match fs w !! pdf with
        | Some data =>
            zip_write_all rest (zipf ++ [(posixpath.basename pdf, data)]) w
        | None => (Raise (FileNotFoundError pdf), w)
        end
  end.

(** The block under [# Create ZIP] and the final [send_file]. *)
Definition create_zip (pdf_paths : list string) : M Response :=
  let* zip_buffer := zip_write_all pdf_paths [] in
  ret (SendFile zip_buffer true "Formatted_Resumes.zip" "application/zip").

Definition no_files_response : Response :=
  JsonResponse (JObject [("error", JString "No files uploaded")]) 400.

Definition upload_resume (request : Request) : M Response :=
  let files := getlist "resume" (req_files request) in
  let name := form_get "name" "Candidate" (req_form request) in
  let contact := form_get "contact" "example@email.com" (req_form request) in
  match files with
  | [] => ret no_files_response
  | _ :: _ =>
      let* pdf_paths := for_files name contact files [] in
      create_zip pdf_paths
  end.

End App.

(* ===================================================================== *)
(** ** A concrete instance of the externals *)
(* ===================================================================== *)

(** Used to run the script on concrete requests.  Every file can be
    written; both loaders return the saved file as one document; the model
    echoes the resume text, so the uploaded bytes are the model's response;
    the template shows the caller's name and contact and the record's
    [name]; the PDF writer prefixes the HTML with a PDF header. *)
Module Sample.

Definition dquote : ascii := ascii_of_nat 34.
Definition backslash : ascii := ascii_of_nat 92.
Definition DQ : string := String dquote EmptyString.

Definition is_json_ws (c : ascii) : bool :=
  let n := nat_of_ascii c in
  ((n =? 32) || (n =? 9) || (n =? 10) || (n =? 13))%nat.

Fixpoint skip_ws (s : string) : string :=
  match s with
  | String c s' => if is_json_ws c then skip_ws s' else s
  | EmptyString => EmptyString
  end.

Definition is_digit (c : ascii) : bool :=
  let n := nat_of_ascii c in ((48 <=? n) && (n <=? 57))%nat.

(** The characters of a string literal up to the closing quote; escapes and
    control characters are outside the fragment. *)
Fixpoint scan_string (s : string) : option (string * string) :=
  match s with
  | EmptyString => None
  | String c s' =>
      if Ascii.eqb c dquote then Some (EmptyString, s')
      else if Ascii.eqb c backslash || (nat_of_ascii c <? 32)%nat then None
      else match scan_string s' with
           | Some (body, rest) => Some (String c body, rest)
           | None => None
           end
  end.

Fixpoint scan_digits (s : string) (acc : Z) : Z * string :=
  match s with
  | String c s' =>
      if is_digit c
      then scan_digits s' (10 * acc + (Z.of_nat (nat_of_ascii c) - 48))
      else (acc, s)
  | EmptyString => (acc, EmptyString)
  end.

(** An integer literal: an optional minus, then [0] or a digit string
    without a leading zero; a fraction or an exponent is outside the
    fragment. *)
Definition scan_int (s : string) : option (Z * string) :=
  let '(neg, body) :=
    match s with
    | String "-"%char r => (true, r)
    | _ => (false, s)
    end in
  match body with
  | String c r =>
      if is_digit c then
        let '(n, rest) := scan_digits body 0 in
        if Ascii.eqb c "0"%char && negb (String.length body - String.length rest =? 1)%nat
        then None
        else match rest with
             | String "."%char _ | String "e"%char _ | String "E"%char _ => None
             | _ => Some (if neg then - n else n, rest)
             end
      else None
  | EmptyString => None
  end.

Fixpoint parse_value (fuel : nat) (s : string) : option (json * string) :=
  match fuel with
  | O => None
  | S fuel' =>
      match skip_ws s with
      | EmptyString => None
      | String c r =>
          if Ascii.eqb c "{"%char then
            match skip_ws r with
            | String "}"%char r' => Some (JObject [], r')
            | _ => parse_members fuel' r []
            end
          else if Ascii.eqb c "["%char then
            match skip_ws r with
            | String "]"%char r' => Some (JArray [], r')
            | _ => parse_items fuel' r []
            end
          else if Ascii.eqb c dquote then
            match scan_string r with
            | Some (body, r') => Some (JString body, r')
            | None => None
            end
          else if String.prefix "null" (String c r) then Some (JNull, PyStr.drop 3 r)
          else if String.prefix "true" (String c r) then Some (JBool true, PyStr.drop 3 r)
          else if String.prefix "false" (String c r) then Some (JBool false, PyStr.drop 4 r)
          else match scan_int (String c r) with
               | Some (n, r') => Some (JInt n, r')
               | None => None
               end
      end
  end
with parse_items (fuel : nat) (s : string) (acc : list json)
    : option (json * string) :=
  match fuel with
  | O => None
  | S fuel' =>
      match parse_value fuel' s with
      | Some (v, r) =>
          match skip_ws r with
          | String ","%char r' => parse_items fuel' r' (acc ++ [v])
          | String "]"%char r' => Some (JArray (acc ++ [v]), r')
          | _ => None
          end
      | None => None
      end
  end
with parse_members (fuel : nat) (s : string) (acc : list (string * json))
    : option (json * string) :=
  match fuel with
  | O => None
  | S fuel' =>
      match skip_ws s with
      | String c r =>
          if Ascii.eqb c dquote then
            match scan_string r with
            | Some (key, r1) =>
                match skip_ws r1 with
                | String ":"%char r2 =>
                    match parse_value fuel' r2 with
                    | Some (v, r3) =>
                        match skip_ws r3 with
                        | String ","%char r4 =>
                            parse_members fuel' r4 (acc ++ [(key, v)])
                        | String "}"%char r4 =>
                            Some (JObject (acc ++ [(key, v)]), r4)
                        | _ => None
                        end
                    | None => None
                    end
                | _ => None
                end
            | None => None
            end
          else None
      | EmptyString => None
      end
  end.

(** [json.loads] on the fragment: objects without repeated keys, arrays,
    strings without escapes, integers, [true], [false], [null].  Texts
    outside the fragment are reported as decode errors, so the instance
    agrees with [json.loads] only on texts of the fragment and on texts that
    are not JSON at all. *)
Definition loads (s : string) : result json :=
  match parse_value (S (String.length s)) s with
  | Some (v, rest) =>
      match skip_ws rest with
      | EmptyString => Ok v
      | _ => Raise JSONDecodeError
      end
  | None => Raise JSONDecodeError
  end.

Definition read_as_one_document (w : World) (path : string)
    : result (list Document) :=
  match fs w !! path with
  | Some data => Ok [mkDocument data]
  | None => Raise (FileNotFoundError path)
  end.

Definition record_name (data : json) : string :=
  match data with
  | JObject members =>
      match List.find (fun kv => String.eqb (fst kv) "name") members with
      | Some (_, JString s) => s
      | _ => EmptyString
      end
  | _ => EmptyString
  end.

Definition externals : Externals := {|
  can_write := fun _ _ => true;
  PyPDFLoader_load := read_as_one_document;
  Docx2txtLoader_load := read_as_one_document;
  chain_invoke := fun _ resume_text => Ok resume_text;
  json_loads := loads;
  template_render := fun _ name contact data =>
    Ok ("<h1>" +:+ name +:+ "</h1><p>" +:+ contact +:+ "</p><p>"
        +:+ record_name data +:+ "</p>");
  write_pdf_bytes := fun _ html => Ok ("%PDF-1.7 " +:+ html)
|}.

Definition w0 : World := {| fs := ∅; trace := [] |}.

(** Some model responses. *)
Definition ada_json : string :=
  "{" +:+ DQ +:+ "name" +:+ DQ +:+ ": " +:+ DQ +:+ "Ada" +:+ DQ +:+ "}".
Definition bob_json : string :=
  "{" +:+ DQ +:+ "name" +:+ DQ +:+ ": " +:+ DQ +:+ "Bob" +:+ DQ +:+ "}".
Definition fenced_ada : string :=
  "```json" +:+ NL +:+ ada_json +:+ NL +:+ "```" +:+ NL.
Definition error_json : string :=
  "{" +:+ DQ +:+ "error" +:+ DQ +:+ ": " +:+ DQ +:+ "no resume found" +:+ DQ +:+ "}".
Definition not_json : string := "Sorry, I cannot read this resume.".

Definition upload (fname data : string) : string * FileStorage :=
  ("resume", mkFile fname data).

(** Some requests, without [name] and [contact] fields. *)
Definition garbled_then_good : Request :=
  mkRequest [upload "cv.pdf" not_json; upload "cv2.pdf" ada_json] [].
Definition refusal_then_good : Request :=
  mkRequest [upload "cv.pdf" error_json; upload "cv2.pdf" ada_json] [].
Definition good_between : Request :=
  mkRequest [upload "a.pdf" not_json; upload "cv.docx" fenced_ada;
             upload "b.pdf" bob_json] [].

End Sample.

(** A second instance, whose loaders return one document per page: the
    pages of a saved file are separated by form feeds (code point 12). *)
Module Paged.

Fixpoint split_pages (s : string) : list string :=
  match s with
  | EmptyString => [EmptyString]
  | String c s' =>
      if Ascii.eqb c "012"%char then EmptyString :: split_pages s'
      else match split_pages s' with
           | page :: pages => String c page :: pages
           | [] => [String c EmptyString]
           end
  end.

Definition read_pages (w : World) (path : string) : result (list Document) :=
  match fs w !! path with
  | Some data => Ok (map mkDocument (split_pages data))
  | None => Raise (FileNotFoundError path)
  end.

Definition externals : Externals := {|
  can_write := can_write Sample.externals;
  PyPDFLoader_load := read_pages;
  Docx2txtLoader_load := read_pages;
  chain_invoke := chain_invoke Sample.externals;
  json_loads := json_loads Sample.externals;
  template_render := template_render Sample.externals;
  write_pdf_bytes := write_pdf_bytes Sample.externals
|}.

Definition FF : string := String "012"%char EmptyString.

Definition three_pages : string := "p1" +:+ FF +:+ "p2" +:+ FF +:+ "p3".

End Paged.


(* ===================================================================== *)
(** ** Notions used to state the properties *)
(* ===================================================================== *)

(** The extensions [load_resume] knows. *)
Definition SUPPORTED : list string := [".pdf"; ".docx"; ".doc"].

(** The text of a path from its last dot on (empty when there is no dot):
    the extension as a reader of the path sees it. *)
Definition ext_after_last_dot (p : string) : string :=
  let dotIndex := PyStr.rfind posixpath.extsep p in
  if dotIndex <? 0 then EmptyString else PyStr.drop (Z.to_nat dotIndex) p.

(** The loader class [load_resume] builds for a path, or the exception it
    raises instead. *)
Definition selected_class (p : string) : result LoaderClass :=
  match select_loader p with
  | Ok loader => Ok (loader_class loader)
  | Raise e => Raise e
  end.

(** The loader class of a supported lower-case extension. *)
Definition class_of_ext (ext : string) : LoaderClass :=
  if String.eqb ext ".pdf" then PyPDFLoader else Docx2txtLoader.

(** A string without the path separator. *)
Definition no_sep (s : string) : Prop := PyStr.rfind posixpath.sep s = -1.

(** All pages' texts in order, each one after the first preceded by one
    line feed (code point 10). *)
Definition pages_in_order (docs : list Document) : string :=
  match docs with
  | [] => EmptyString
  | d :: rest =>
      fold_left (fun text d' => text +:+ String "010"%char (page_content d'))
                rest (page_content d)
  end.

(** The model's response for an uploaded file: the file is saved, its text
    loaded, and the chain invoked on the text. *)
Definition response_for (X : Externals) (file : FileStorage) : M string :=
  do file_save X file (posixpath.join UPLOAD_FOLDER (filename file)) then
  let* text := load_resume X (posixpath.join UPLOAD_FOLDER (filename file)) in
  invoke_chain X text.

(** What [convert_to_json] does with the response once it has it. *)
Definition parse_response (X : Externals) (response : string) : M json :=
  do emit (EvJsonLoads (PyStr.strip (re_sub_fences response))) then
  match json_loads X (PyStr.strip (re_sub_fences response)) with
  | Ok v => ret v
  | Raise JSONDecodeError =>
      do emit (EvPrint "Failed JSON parse. Returning fallback.") then
      ret (fallback response)
  | Raise e => raise e
  end.

(** The [name] and [contact] the handler works with. *)
Definition req_name (request : Request) : string :=
  form_get "name" "Candidate" (req_form request).
Definition req_contact (request : Request) : string :=
  form_get "contact" "example@email.com" (req_form request).

(** The name a file's PDF has in the archive. *)
Definition entry_name (file : FileStorage) : string :=
  posixpath.basename (pdf_path_of (filename file)).

(** The number of backticks a string starts with. *)
Fixpoint leading_backticks (s : string) : nat :=
  match s with
  | String c s' => if Ascii.eqb c "`"%char then S (leading_backticks s') else O
  | EmptyString => O
  end.

(** The events a computation added to the trace. *)
Definition added (w w' : World) (evs : list Event) : Prop :=
  trace w' = evs ++ trace w.

(** A render event, if it is one, was made with the given name and
    contact. *)
Definition render_args_are (name contact : string) (e : Event) : Prop :=
  match e with
  | EvRender n c _ => n = name /\ c = contact
  | _ => True
  end.

(** From [w] to [w']: no file disappeared, and the trace was extended by
    events whose renders, if any, used [name] and [contact]. *)
Definition evolves (name contact : string) (w w' : World) : Prop :=
  (forall q, is_Some (fs w !! q) -> is_Some (fs w' !! q))
  /\ exists evs, added w w' evs /\ Forall (render_args_are name contact) evs.

Definition preserves {A} (name contact : string) (m : M A) : Prop :=
  forall w r w', m w = (r, w') -> evolves name contact w w'.

(** The archive entry written for a path: its base name and the bytes the
    file system holds at the path. *)
Definition entry_of (w : World) (pdf : string) (entry : string * string) : Prop :=
  fst entry = posixpath.basename pdf /\ fs w !! pdf = Some (snd entry).
Definition is_json_loads (e : Event) : bool :=
  match e with EvJsonLoads _ => true | _ => false end.
Definition is_invoke (e : Event) : bool :=
  match e with EvInvoke _ => true | _ => false end.

Definition is_save (e : Event) : bool :=
  match e with EvSave _ => true | _ => false end.
Definition is_render (e : Event) : bool :=
  match e with EvRender _ _ _ => true | _ => false end.
Definition is_write_pdf (e : Event) : bool :=
  match e with EvWritePdf _ => true | _ => false end.

(** How many events of a kind a list holds. *)
Definition count (kind : Event -> bool) (evs : list Event) : nat :=
  length (List.filter kind evs).

(** Where the handler saves an uploaded file. *)
Definition upload_path (file : FileStorage) : string :=
  posixpath.join UPLOAD_FOLDER (filename file).

(** The text [convert_to_json] hands to [json.loads]. *)
Definition clean (response : string) : string :=
  PyStr.strip (re_sub_fences response).

(** The parsed values that are not containers. *)
Definition is_scalar (v : json) : bool :=
  match v with
  | JNull | JBool _ | JInt _ | JFloat _ => true
  | JString _ | JArray _ | JObject _ => false
  end.

(** The paths a request may write: the upload path and the output path of
    each of its files. *)
Definition touched (files : list FileStorage) (q : string) : Prop :=
  exists f, In f files /\ (q = upload_path f \/ q = pdf_path_of (filename f)).

(** A computation that changes the file system only at paths of [S]. *)
Definition writes_only {A} (S : string -> Prop) (m : M A) : Prop :=
  forall w r w' q, m w = (r, w') -> ~ S q -> fs w' !! q = fs w !! q.

(** A render event, if it is one, was given a value that [json.loads]
    returned and that does not contain ["error"]. *)
Definition parsed_without_error (X : Externals) (e : Event) : Prop :=
  match e with
  | EvRender _ _ d =>
      py_in "error" d = Ok false /\ exists text, json_loads X text = Ok d
  | _ => True
  end.

(** A computation that only adds events of [P] to the trace. *)
Definition adds_only {A} (P : Event -> Prop) (m : M A) : Prop :=
  forall w r w', m w = (r, w') ->
                 exists evs, trace w' = evs ++ trace w /\ Forall P evs.

(** The components of a path, cut at the separators. *)
Fixpoint components (q : string) : list string :=
  match q with
  | EmptyString => [EmptyString]
  | String c q' =>
      if Ascii.eqb c posixpath.sep then EmptyString :: components q'
      else match components q' with
           | part :: parts => String c part :: parts
           | [] => [String c EmptyString]
           end
  end.

(** A plain path: relative and in normal form, that is without an empty
    component (no leading, trailing or doubled separator) and without the
    components [.] and [..].  Two plain paths that differ as strings are
    two different directory entries. *)
Definition plain (q : string) : bool :=
  forallb (fun part => negb (String.eqb part EmptyString)
                       && negb (String.eqb part ".")
                       && negb (String.eqb part ".."))
          (components q).

(** [n] dots. *)
Fixpoint dots (n : nat) : string :=
  match n with
  | O => EmptyString
  | S k => String posixpath.extsep (dots k)
  end.

(* ===================================================================== *)
(** ** Facts about strings and paths *)
(* ===================================================================== *)

Section StringFacts.

Import PyStr.

#[local] Arguments String.append !s1 s2 : simpl nomatch.

Lemma append_nil_r (s : string) : s +:+ EmptyString = s.
Proof. induction s as [|c s IH]; simpl; [reflexivity | now rewrite IH]. Qed.

Lemma append_assoc (a b c : string) : (a +:+ b) +:+ c = a +:+ (b +:+ c).
Proof. induction a as [|x a IH]; simpl; [reflexivity | now rewrite IH]. Qed.

Lemma length_append (a b : string) :
  String.length (a +:+ b) = (String.length a + String.length b)%nat.
Proof. induction a as [|x a IH]; simpl; [reflexivity | now rewrite IH]. Qed.

Lemma append_inj_r (a b c : string) : a +:+ b = a +:+ c -> b = c.
Proof.
  induction a as [|x a IH]; simpl; intros H; [exact H|].
  injection H as H. auto.
Qed.

Lemma append_inj_l (a b c : string) : a +:+ c = b +:+ c -> a = b.
Proof.
  revert b. induction a as [|x a IH]; intros [|y b] H; simpl in H.
  - reflexivity.
  - exfalso. apply (f_equal String.length) in H.
    simpl in H. rewrite length_append in H. lia.
  - exfalso. apply (f_equal String.length) in H.
    simpl in H. rewrite length_append in H. lia.
  - injection H as -> H. f_equal. auto.
Qed.

Lemma take_drop (n : nat) (s : string) : take n s +:+ drop n s = s.
Proof.
  revert s. induction n as [|n IH]; intros [|c s]; simpl; try reflexivity.
  now rewrite IH.
Qed.

Lemma drop_app_length (a b : string) : drop (String.length a) (a +:+ b) = b.
Proof. induction a as [|c a IH]; simpl; [now destruct b | exact IH]. Qed.

Lemma rfind_ge (c : ascii) (s : string) : -1 <= rfind c s.
Proof.
  induction s as [|a s IH]; simpl; [lia|].
  destruct (0 <=? rfind c s) eqn:E; [apply Z.leb_le in E; lia|].
  destruct (Ascii.eqb a c); lia.
Qed.

Lemma rfind_lt (c : ascii) (s : string) : rfind c s < Z.of_nat (String.length s).
Proof.
  induction s as [|a s IH]; simpl String.length; simpl rfind; [lia|].
  destruct (0 <=? rfind c s) eqn:E; [lia|].
  destruct (Ascii.eqb a c); lia.
Qed.

(** [rfind] answers [-1] exactly on strings without the character. *)
Lemma rfind_none_cons (c a : ascii) (s : string) :
  rfind c (String a s) = -1 <-> a <> c /\ rfind c s = -1.
Proof.
  simpl. pose proof (rfind_ge c s) as Hge.
  destruct (0 <=? rfind c s) eqn:E.
  - apply Z.leb_le in E. split; [lia | intros [_ H]; lia].
  - apply Z.leb_gt in E. destruct (Ascii.eqb a c) eqn:Ea.
    + apply Ascii.eqb_eq in Ea. split; [lia | intros [H _]; contradiction].
    + apply Ascii.eqb_neq in Ea. split; [intros _; split; [exact Ea | lia] | reflexivity].
Qed.

Lemma rfind_app_none (c : ascii) (a b : string) :
  rfind c b = -1 -> rfind c (a +:+ b) = rfind c a.
Proof.
  intros Hb. induction a as [|x a IH]; simpl; [exact Hb | now rewrite IH].
Qed.

Lemma rfind_app_char (c : ascii) (a b : string) :
  rfind c b = -1 -> rfind c (a +:+ String c b) = Z.of_nat (String.length a).
Proof.
  intros Hb. induction a as [|x a IH].
  - simpl. rewrite Hb. simpl. now rewrite Ascii.eqb_refl.
  - simpl String.append. simpl String.length. simpl rfind. rewrite IH.
    destruct (0 <=? Z.of_nat (String.length a)) eqn:E; [lia|].
    apply Z.leb_gt in E. lia.
Qed.

Lemma rfind_app_other (c : ascii) (a b : string) :
  0 <= rfind c b ->
  rfind c (a +:+ b) = Z.of_nat (String.length a) + rfind c b.
Proof.
  intros Hb. induction a as [|x a IH].
  - simpl. lia.
  - simpl String.append. simpl String.length. simpl rfind. rewrite IH.
    destruct (0 <=? Z.of_nat (String.length a) + rfind c b) eqn:E; [lia|].
    apply Z.leb_gt in E. lia.
Qed.

Lemma rfind_none_app (c : ascii) (a b : string) :
  rfind c a = -1 -> rfind c b = -1 -> rfind c (a +:+ b) = -1.
Proof. intros Ha Hb. now rewrite rfind_app_none. Qed.

Lemma rfind_none_take (c : ascii) (n : nat) (s : string) :
  rfind c s = -1 -> rfind c (take n s) = -1.
Proof.
  revert s. induction n as [|n IH]; intros [|a s] H; try reflexivity.
  apply rfind_none_cons in H as [Hne H]. simpl take.
  apply rfind_none_cons. split; [exact Hne | now apply IH].
Qed.

Lemma startswith_none (c : ascii) (s : string) :
  rfind c s = -1 -> startswith c s = false.
Proof.
  destruct s as [|a s]; [reflexivity|]. intros H.
  apply rfind_none_cons in H as [Hne _]. simpl. now apply Ascii.eqb_neq.
Qed.

End StringFacts.

Section PathFacts.

Import PyStr posixpath.

#[local] Arguments String.append !s1 s2 : simpl nomatch.

Lemma splitext_app (p : string) : fst (splitext p) +:+ snd (splitext p) = p.
Proof.
  unfold splitext.
  destruct (_ && _); simpl; [apply take_drop | apply append_nil_r].
Qed.

(** [splitext] either finds no extension or cuts at the last dot. *)
Lemma splitext_ext_cases (p : string) :
  snd (splitext p) = EmptyString \/ snd (splitext p) = ext_after_last_dot p.
Proof.
  unfold splitext, ext_after_last_dot.
  destruct (rfind sep p <? rfind extsep p) eqn:E; simpl; [|now left].
  destruct (skip_leading_dots _ _ _); simpl; [|now left].
  right. apply Z.ltb_lt in E. pose proof (rfind_ge sep p).
  destruct (rfind extsep p <? 0) eqn:E0; [apply Z.ltb_lt in E0; lia | reflexivity].
Qed.

Lemma splitext_root_no_sep (p : string) : no_sep p -> no_sep (fst (splitext p)).
Proof.
  unfold no_sep, splitext. intros H.
  destruct (_ && _); simpl; [now apply rfind_none_take | exact H].
Qed.

Lemma join_output (b : string) :
  join OUTPUT_FOLDER b =
  if startswith sep b then b else "output/" +:+ b.
Proof. unfold join. destruct (startswith sep b); reflexivity. Qed.

Lemma join_uploads (b : string) :
  join UPLOAD_FOLDER b =
  if startswith sep b then b else "uploads/" +:+ b.
Proof. unfold join. destruct (startswith sep b); reflexivity. Qed.

Lemma join_output_inj (b1 b2 : string) :
  join OUTPUT_FOLDER b1 = join OUTPUT_FOLDER b2 -> b1 = b2.
Proof.
  rewrite !join_output.
  destruct (startswith sep b1) eqn:E1, (startswith sep b2) eqn:E2; intros H.
  - exact H.
  - subst b1. discriminate E1.
  - subst b2. discriminate E2.
  - now apply append_inj_r in H.
Qed.

Lemma basename_join_output (b : string) :
  no_sep b -> basename (join OUTPUT_FOLDER b) = b.
Proof.
  intros H. rewrite join_output, (startswith_none _ _ H).
  unfold basename.
  change ("output/" +:+ b) with ("output" +:+ String sep b).
  rewrite (rfind_app_char sep "output" b H).
  change (Z.to_nat (Z.of_nat (String.length "output") + 1)) with 7%nat.
  reflexivity.
Qed.

Lemma pdf_path_of_inj (f g : string) :
  pdf_path_of f = pdf_path_of g -> fst (splitext f) = fst (splitext g).
Proof.
  unfold pdf_path_of. intros H. apply join_output_inj in H.
  now apply append_inj_l in H.
Qed.

(** The output path is [output/<stem>_formatted.pdf] unless the stem is an
    absolute path. *)
Lemma pdf_path_of_relative (f : string) :
  startswith sep (fst (splitext f)) = false ->
  pdf_path_of f = "output/" +:+ fst (splitext f) +:+ "_formatted.pdf".
Proof.
  intros H. unfold pdf_path_of. rewrite join_output.
  destruct (fst (splitext f)) as [|c s]; [reflexivity|].
  simpl in H |- *. now rewrite H.
Qed.

(** For a file name without directories the archive entry is
    [<stem>_formatted.pdf]. *)
Lemma entry_name_stem (file : FileStorage) :
  no_sep (filename file) ->
  entry_name file = fst (splitext (filename file)) +:+ "_formatted.pdf".
Proof.
  intros H. unfold entry_name, pdf_path_of.
  apply basename_join_output. unfold no_sep.
  apply rfind_none_app; [now apply splitext_root_no_sep | reflexivity].
Qed.

End PathFacts.

(* ===================================================================== *)
(** ** Facts about computations *)
(* ===================================================================== *)

Section MonadFacts.

Context {A B : Type}.

Lemma bind_ok (m : M A) (k : A -> M B) (w w' : World) (a : A) :
  m w = (Ok a, w') -> bind m k w = k a w'.
Proof. unfold bind. now intros ->. Qed.

Lemma bind_raise (m : M A) (k : A -> M B) (w w' : World) (e : exn) :
  m w = (Raise e, w') -> bind m k w = (Raise e, w').
Proof. unfold bind. now intros ->. Qed.

Lemma bind_inv_ok (m : M A) (k : A -> M B) (w w'' : World) (b : B) :
  bind m k w = (Ok b, w'') ->
  exists a w', m w = (Ok a, w') /\ k a w' = (Ok b, w'').
Proof.
  unfold bind. destruct (m w) as [[a|e] w'] eqn:E; [eauto | discriminate].
Qed.

End MonadFacts.

Lemma bind_assoc {A B C} (m : M A) (k : A -> M B) (h : B -> M C) (w : World) :
  bind (bind m k) h w = bind m (fun a => bind (k a) h) w.
Proof. unfold bind. destruct (m w) as [[a|e] w']; reflexivity. Qed.

Section StageFacts.

Variable X : Externals.

Lemma upload_resume_nonempty (request : Request) (pre post : list FileStorage)
    (file : FileStorage) (w : World) :
  getlist "resume" (req_files request) = pre ++ file :: post ->
  upload_resume X request w =
  bind (for_files X (req_name request) (req_contact request)
          (pre ++ file :: post) [])
       create_zip w.
Proof.
  intros H. unfold upload_resume. fold (req_name request) (req_contact request).
  rewrite H. now destruct pre.
Qed.

Lemma convert_to_json_unfold (text : string) (w : World) :
  convert_to_json X text w =
  bind (invoke_chain X text) (parse_response X) w.
Proof. reflexivity. Qed.

(** The loop body, cut after the model's response. *)
Lemma loop_body_unfold (name contact : string) (file : FileStorage) (w : World) :
  loop_body X name contact file w =
  bind (response_for X file)
       (fun response =>
          let* resume_json := parse_response X response in
          let* has_error := lift (py_in "error" resume_json) in
          if has_error : bool then ret None
          else
            let* pdf_path :=
              generate_company_resume X resume_json name contact (filename file) in
            ret (Some pdf_path)) w.
Proof.
  unfold loop_body, response_for, convert_to_json, parse_response, bind.
  destruct (file_save X file _ w) as [[[]|e] w1]; [|reflexivity].
  destruct (load_resume X _ w1) as [[text|e] w2]; [|reflexivity].
  destruct (invoke_chain X text w2) as [[response|e] w3]; reflexivity.
Qed.

Lemma write_file_inv (path data : string) (ev : Event) (w w' : World) (u : unit) :
  write_file X path data ev w = (Ok u, w') ->
  can_write X w path = true
  /\ w' = {| fs := <[path := data]> (fs w); trace := ev :: trace w |}.
Proof.
  unfold write_file. destruct (can_write X w path); [|discriminate].
  intros H. injection H as _ <-. auto.
Qed.

(** [load_resume] leaves the world as it is. *)
Lemma load_resume_world (path : string) (w w' : World) (r : result string) :
  load_resume X path w = (r, w') -> w' = w.
Proof.
  unfold load_resume, bind, lift, loader_load, ret.
  destruct (select_loader path) as [l|e]; [|now intros [= _ <-]].
  destruct (loader_class l).
  - destruct (PyPDFLoader_load X w _); now intros [= _ <-].
  - destruct (Docx2txtLoader_load X w _); now intros [= _ <-].
Qed.

Lemma for_files_app (name contact : string) (l1 l2 : list FileStorage)
    (acc : list string) (w : World) :
  for_files X name contact (l1 ++ l2) acc w =
  bind (for_files X name contact l1 acc)
       (fun acc' => for_files X name contact l2 acc') w.
Proof.
  revert acc w. induction l1 as [|f l1 IH]; intros acc w; [reflexivity|].
  simpl. rewrite bind_assoc.
  destruct (loop_body X name contact f w) as [[[p|]|e] w1] eqn:E.
  - rewrite !(bind_ok _ _ _ _ _ E). apply IH.
  - rewrite !(bind_ok _ _ _ _ _ E). apply IH.
  - now rewrite !(bind_raise _ _ _ _ _ E).
Qed.

Lemma for_files_skip (name contact : string) (f : FileStorage)
    (rest : list FileStorage) (acc : list string) (w w' : World) :
  loop_body X name contact f w = (Ok None, w') ->
  for_files X name contact (f :: rest) acc w = for_files X name contact rest acc w'.
Proof. intros H. simpl. now rewrite (bind_ok _ _ _ _ _ H). Qed.

Lemma for_files_keep (name contact : string) (f : FileStorage)
    (rest : list FileStorage) (acc : list string) (w w' : World) (p : string) :
  loop_body X name contact f w = (Ok (Some p), w') ->
  for_files X name contact (f :: rest) acc w =
  for_files X name contact rest (acc ++ [p]) w'.
Proof. intros H. simpl. now rewrite (bind_ok _ _ _ _ _ H). Qed.

End StageFacts.

(* ===================================================================== *)
(** ** The script on concrete inputs *)
(* ===================================================================== *)

Example splitext_plain :
  posixpath.splitext "uploads/cv.pdf" = ("uploads/cv", ".pdf").
Proof. reflexivity. Qed.
Example splitext_hidden :
  posixpath.splitext "uploads/.pdf" = ("uploads/.pdf", "").
Proof. reflexivity. Qed.
Example splitext_two_dots : posixpath.splitext "a.tar.gz" = ("a.tar", ".gz").
Proof. reflexivity. Qed.
Example splitext_dir_dot : posixpath.splitext "up.d/cv" = ("up.d/cv", "").
Proof. reflexivity. Qed.
Example splitext_dots : posixpath.splitext "..pdf" = ("..pdf", "").
Proof. reflexivity. Qed.
Example join_rel :
  posixpath.join "output" "cv_formatted.pdf" = "output/cv_formatted.pdf".
Proof. reflexivity. Qed.
Example join_abs :
  posixpath.join "output" "/tmp/cv_formatted.pdf" = "/tmp/cv_formatted.pdf".
Proof. reflexivity. Qed.
Example basename_ex :
  posixpath.basename "output/cv_formatted.pdf" = "cv_formatted.pdf".
Proof. reflexivity. Qed.
Example lower_ex : PyStr.lower ".PdF" = ".pdf".
Proof. reflexivity. Qed.
Example strip_ex :
  PyStr.strip (" " +:+ NL +:+ "{x} " +:+ NL) = "{x}".
Proof. reflexivity. Qed.
Example re_sub_ex :
  re_sub_fences Sample.fenced_ada = NL +:+ Sample.ada_json +:+ NL +:+ NL
  /\ re_sub_fences "`````" = "``"
  /\ re_sub_fences "```JSON{}" = "JSON{}"
  /\ re_sub_fences "a```json```jsonb" = "ab".
Proof. repeat split. Qed.
Example py_in_ex :
  py_in "error" (JObject [("raw", JString "error")]) = Ok false
  /\ py_in "error" (JObject [("error", JNull)]) = Ok true
  /\ py_in "error" (JString "an error occurred") = Ok true
  /\ py_in "error" (JArray [JString "error"]) = Ok true
  /\ py_in "error" (JArray [JString "errors"]) = Ok false
  /\ py_in "error" (JInt 7) = Raise (TypeError "argument is not iterable").
Proof. repeat split. Qed.
Example loads_ada :
  Sample.loads Sample.ada_json = Ok (JObject [("name", JString "Ada")]).
Proof. vm_compute. reflexivity. Qed.
Example loads_fragment :
  Sample.loads "{ }" = Ok (JObject [])
  /\ Sample.loads " [1, -20, [true, null], {}] " =
       Ok (JArray [JInt 1; JInt (-20); JArray [JBool true; JNull]; JObject []])
  /\ Sample.loads "01" = Raise JSONDecodeError
  /\ Sample.loads "[1,]" = Raise JSONDecodeError
  /\ Sample.loads "" = Raise JSONDecodeError
  /\ Sample.loads Sample.not_json = Raise JSONDecodeError.
Proof. vm_compute. repeat split. Qed.
Example run_one :
  fst (upload_resume Sample.externals
         (mkRequest [Sample.upload "cv.pdf" Sample.fenced_ada] []) Sample.w0)
  = Ok (SendFile [("cv_formatted.pdf",
                   "%PDF-1.7 <h1>Candidate</h1><p>example@email.com</p><p>Ada</p>")]
                 true "Formatted_Resumes.zip" "application/zip").
Proof. vm_compute. reflexivity. Qed.

(* ===================================================================== *)
(** ** The request handler with no files *)
(* ===================================================================== *)

Lemma create_zip_not_json (paths : list string) (w w' : World)
    (body : json) (status : nat) :
  create_zip paths w <> (Ok (JsonResponse body status), w').
Proof.
  unfold create_zip, bind, ret.
  destruct (zip_write_all paths [] w) as [[z|e] w1]; discriminate.
Qed.

(** C3: an empty file list is answered with status 400 and the JSON body
    [{"error": "No files uploaded"}], leaving the world untouched; with a
    non-empty file list the handler never answers with a JSON response, so
    in particular not with this 400. *)
Theorem C3_empty_file_list_is_400 (X : Externals) (request : Request) (w : World) :
  (getlist "resume" (req_files request) = [] ->
   upload_resume X request w =
   (Ok (JsonResponse (JObject [("error", JString "No files uploaded")]) 400), w))
  /\ (getlist "resume" (req_files request) <> [] ->
      forall body status w',
        upload_resume X request w <> (Ok (JsonResponse body status), w')).
Proof.
  unfold upload_resume. split.
  - intros ->. reflexivity.
  - intros Hne body status w'.
    destruct (getlist "resume" (req_files request)) as [|f files]; [contradiction|].
    unfold bind.
    destruct (for_files X _ _ (f :: files) [] w) as [[paths|e] w1]; [|discriminate].
    apply create_zip_not_json.
Qed.

Lemma C3_witness :
  (upload_resume Sample.externals (mkRequest [] [("name", "Ada")]) Sample.w0 =
   (Ok (JsonResponse (JObject [("error", JString "No files uploaded")]) 400),
    Sample.w0))
  /\ (forall body status w',
        upload_resume Sample.externals
          (mkRequest [Sample.upload "cv.pdf" Sample.ada_json] []) Sample.w0
        <> (Ok (JsonResponse body status), w')).
Proof.
  split.
  - apply (C3_empty_file_list_is_400 Sample.externals
             (mkRequest [] [("name", "Ada")]) Sample.w0).
    reflexivity.
  - apply (C3_empty_file_list_is_400 Sample.externals
             (mkRequest [Sample.upload "cv.pdf" Sample.ada_json] []) Sample.w0).
    discriminate.
Defined.

(* ===================================================================== *)
(** ** The document loader *)
(* ===================================================================== *)

Section LoaderFacts.

Variable X : Externals.

#[local] Arguments String.append !s1 s2 : simpl nomatch.

(** [select_loader] as a function of the lowercased extension. *)
Lemma select_loader_spec (path : string) :
  select_loader path =
  let ext := PyStr.lower (snd (posixpath.splitext path)) in
  if String.eqb ext ".pdf" then Ok (mkLoader PyPDFLoader path)
  else if String.eqb ext ".docx" || String.eqb ext ".doc"
  then Ok (mkLoader Docx2txtLoader path)
  else Raise (ValueError "Unsupported file type.").
Proof.
  unfold select_loader. simpl existsb. now rewrite orb_false_r.
Qed.

Lemma select_loader_unsupported (path : string) :
  ~ In (PyStr.lower (snd (posixpath.splitext path))) SUPPORTED ->
  select_loader path = Raise (ValueError "Unsupported file type.").
Proof.
  intros Hn. rewrite select_loader_spec. cbv zeta.
  destruct (String.eqb _ ".pdf") eqn:E1.
  { apply String.eqb_eq in E1. exfalso. apply Hn. rewrite E1. now left. }
  destruct (String.eqb _ ".docx") eqn:E2.
  { apply String.eqb_eq in E2. exfalso. apply Hn. rewrite E2. right; now left. }
  destruct (String.eqb _ ".doc") eqn:E3.
  { apply String.eqb_eq in E3. exfalso. apply Hn. rewrite E3. right; right; now left. }
  reflexivity.
Qed.

Lemma select_loader_supported (path : string) :
  In (PyStr.lower (snd (posixpath.splitext path))) SUPPORTED ->
  select_loader path =
  Ok (mkLoader
        (if String.eqb (PyStr.lower (snd (posixpath.splitext path))) ".pdf"
         then PyPDFLoader else Docx2txtLoader) path).
Proof.
  intros Hin. rewrite select_loader_spec. cbv zeta.
  destruct (String.eqb _ ".pdf") eqn:E1; [reflexivity|].
  destruct Hin as [H|[H|[H|[]]]]; rewrite <- H in *; try discriminate E1;
    reflexivity.
Qed.

(** Python's [join] puts the separator between consecutive parts. *)
Lemma fold_left_pages (rest : list Document) (text : string) :
  fold_left (fun t d' => t +:+ String "010"%char (page_content d')) rest text =
  text +:+ fold_right (fun d' t => String "010"%char (page_content d' +:+ t))
                      EmptyString rest.
Proof.
  revert text. induction rest as [|d rest IH]; intros text; simpl.
  - now rewrite append_nil_r.
  - rewrite IH. now rewrite !append_assoc.
Qed.

Lemma join_pages_in_order (docs : list Document) :
  PyStr.join NL (map page_content docs) = pages_in_order docs.
Proof.
  unfold PyStr.join, pages_in_order.
  destruct docs as [|d rest]; [reflexivity|].
  rewrite fold_left_pages. revert d.
  induction rest as [|d' rest IH]; intros d.
  - simpl. now rewrite append_nil_r.
  - change (String.concat NL (map page_content (d :: d' :: rest)))
      with (page_content d +:+ NL
            +:+ String.concat NL (map page_content (d' :: rest))).
    rewrite IH. reflexivity.
Qed.

(** C6, as amended: on a path whose extension as [os.path.splitext] finds
    it, lowercased, is [.pdf], [.docx] or [.doc], once the loader chosen
    for the extension has loaded its documents, [load_resume] returns their
    texts in order with exactly one line feed between consecutive ones, and
    nothing else; the world is unchanged. *)
Theorem C6_load_resume_joins_pages (path : string) (w : World)
    (docs : list Document) :
  In (PyStr.lower (snd (posixpath.splitext path))) SUPPORTED ->
  (if String.eqb (PyStr.lower (snd (posixpath.splitext path))) ".pdf"
   then PyPDFLoader_load X w path
   else Docx2txtLoader_load X w path) = Ok docs ->
  load_resume X path w = (Ok (pages_in_order docs), w).
Proof.
  intros Hext Hload. unfold load_resume, bind, lift, loader_load, ret.
  rewrite (select_loader_supported _ Hext). simpl loader_class. simpl loader_path.
  destruct (String.eqb _ ".pdf"); rewrite Hload; now rewrite join_pages_in_order.
Qed.

(** The extension as [splitext] sees it is unsupported whenever the text
    after the last dot is. *)
Lemma unsupported_after_last_dot (path : string) :
  ~ In (PyStr.lower (ext_after_last_dot path)) SUPPORTED ->
  ~ In (PyStr.lower (snd (posixpath.splitext path))) SUPPORTED.
Proof.
  intros Hn. destruct (splitext_ext_cases path) as [-> | ->]; [|exact Hn].
  simpl. intros [H|[H|[H|[]]]]; discriminate H.
Qed.

Lemma load_resume_unsupported (path : string) (w : World) :
  ~ In (PyStr.lower (snd (posixpath.splitext path))) SUPPORTED ->
  load_resume X path w = (Raise (ValueError "Unsupported file type."), w).
Proof.
  intros Hn. unfold load_resume, bind, lift.
  now rewrite (select_loader_unsupported _ Hn).
Qed.

End LoaderFacts.

Lemma C6_witness :
  load_resume Paged.externals "uploads/cv.pdf"
    {| fs := {["uploads/cv.pdf" := Paged.three_pages]}; trace := [] |}
  = (Ok ("p1" +:+ String "010"%char ("p2" +:+ String "010"%char "p3")),
     {| fs := {["uploads/cv.pdf" := Paged.three_pages]}; trace := [] |}).
Proof.
  apply (C6_load_resume_joins_pages Paged.externals "uploads/cv.pdf"
           {| fs := {["uploads/cv.pdf" := Paged.three_pages]}; trace := [] |}
           [mkDocument "p1"; mkDocument "p2"; mkDocument "p3"]).
  - simpl. left. reflexivity.
  - vm_compute. reflexivity.
Defined.

(** C6 as stated fails on a name that is all leading dot and extension:
    [uploads/.pdf] ends in [.pdf], the file is there, and [load_resume]
    raises instead of returning its text, because [os.path.splitext] finds
    no extension in such a name. *)
Lemma C6_counterexample :
  In (ext_after_last_dot "uploads/.pdf") SUPPORTED
  /\ load_resume Sample.externals "uploads/.pdf"
       {| fs := {["uploads/.pdf" := "Ada Lovelace"]}; trace := [] |}
     = (Raise (ValueError "Unsupported file type."),
        {| fs := {["uploads/.pdf" := "Ada Lovelace"]}; trace := [] |}).
Proof.
  split; [left; reflexivity | vm_compute; reflexivity].
Qed.

Example load_resume_one_document :
  load_resume Sample.externals "uploads/cv.docx"
    {| fs := {["uploads/cv.docx" := "Ada Lovelace"]}; trace := [] |}
  = (Ok "Ada Lovelace",
     {| fs := {["uploads/cv.docx" := "Ada Lovelace"]}; trace := [] |}).
Proof. vm_compute. reflexivity. Qed.

Example pages_in_order_three :
  pages_in_order [mkDocument "p1"; mkDocument "p2"; mkDocument "p3"]
  = "p1" +:+ String "010"%char ("p2" +:+ String "010"%char "p3").
Proof. reflexivity. Qed.

(* ===================================================================== *)
(** ** Unsupported extensions *)
(* ===================================================================== *)

(** C4, as amended: on every path whose extension (the text from the last
    dot on), lowercased, is none of [.pdf], [.docx], [.doc], [load_resume]
    raises [ValueError("Unsupported file type.")] and returns no text.  When
    such a path is the upload path of a file of a request (the files before
    it were processed and the upload itself was saved), the handler ends
    with that same exception: it is not caught, the files after it are not
    processed, and the file system holds the saved upload and no PDF for
    the file. *)
Theorem C4_unsupported_extension_raises (X : Externals) (path : string) :
  ~ In (PyStr.lower (ext_after_last_dot path)) SUPPORTED ->
  (forall w,
     load_resume X path w = (Raise (ValueError "Unsupported file type."), w))
  /\ (forall request pre file post w acc1 w1,
        path = posixpath.join UPLOAD_FOLDER (filename file) ->
        getlist "resume" (req_files request) = pre ++ file :: post ->
        for_files X (req_name request) (req_contact request) pre [] w
        = (Ok acc1, w1) ->
        can_write X w1 path = true ->
        upload_resume X request w =
        (Raise (ValueError "Unsupported file type."),
         {| fs := <[path := stream file]> (fs w1);
            trace := EvSave path :: trace w1 |})).
Proof.
  intros Hn. apply unsupported_after_last_dot in Hn.
  split; [intros w; now apply load_resume_unsupported|].
  intros request pre file post w acc1 w1 -> Hfiles Hpre Hsave.
  rewrite (upload_resume_nonempty _ _ _ _ _ _ Hfiles).
  apply bind_raise. rewrite for_files_app. rewrite (bind_ok _ _ _ _ _ Hpre).
  simpl for_files. apply bind_raise.
  unfold loop_body. unfold bind at 1. unfold file_save, write_file.
  rewrite Hsave. apply bind_raise.
  now apply load_resume_unsupported.
Qed.

Lemma C4_witness :
  load_resume Sample.externals "uploads/notes.txt" Sample.w0
  = (Raise (ValueError "Unsupported file type."), Sample.w0)
  /\ upload_resume Sample.externals
       (mkRequest [Sample.upload "cv.pdf" Sample.not_json;
                   Sample.upload "notes.txt" Sample.ada_json;
                   Sample.upload "cv2.pdf" Sample.ada_json] [])
       Sample.w0
     = (Raise (ValueError "Unsupported file type."),
        {| fs := <["uploads/notes.txt" := Sample.ada_json]>
                   (fs (snd (for_files Sample.externals "Candidate"
                               "example@email.com"
                               [mkFile "cv.pdf" Sample.not_json] [] Sample.w0)));
           trace := EvSave "uploads/notes.txt"
                    :: trace (snd (for_files Sample.externals "Candidate"
                                     "example@email.com"
                                     [mkFile "cv.pdf" Sample.not_json] []
                                     Sample.w0)) |}).
Proof.
  assert (Hn : ~ In (PyStr.lower (ext_after_last_dot "uploads/notes.txt")) SUPPORTED).
  { simpl. intros [H|[H|[H|[]]]]; discriminate H. }
  destruct (C4_unsupported_extension_raises Sample.externals
              "uploads/notes.txt" Hn) as [Hload Hhandler].
  split; [apply Hload|].
  apply (Hhandler _ [mkFile "cv.pdf" Sample.not_json]
           (mkFile "notes.txt" Sample.ada_json)
           [mkFile "cv2.pdf" Sample.ada_json] Sample.w0 []).
  - reflexivity.
  - reflexivity.
  - vm_compute. reflexivity.
  - reflexivity.
Defined.

(** C4 as stated fails on an upper-case extension: the text after the last
    dot of [uploads/CV.PDF] is [.PDF], which is none of [.pdf], [.docx],
    [.doc], and [load_resume] returns the text of the file. *)
Lemma C4_counterexample :
  ~ In (ext_after_last_dot "uploads/CV.PDF") SUPPORTED
  /\ load_resume Sample.externals "uploads/CV.PDF"
       {| fs := {["uploads/CV.PDF" := "Ada Lovelace"]}; trace := [] |}
     = (Ok "Ada Lovelace",
        {| fs := {["uploads/CV.PDF" := "Ada Lovelace"]}; trace := [] |}).
Proof.
  split.
  - simpl. intros [H|[H|[H|[]]]]; discriminate H.
  - vm_compute. reflexivity.
Qed.

(* ===================================================================== *)
(** ** The response sanitizer *)
(* ===================================================================== *)

Section FenceFacts.

Import PyStr.

#[local] Arguments String.append !s1 s2 : simpl nomatch.

Lemma prefix_cons (a b : ascii) (s t : string) :
  String.prefix (String a s) (String b t) = Ascii.eqb b a && String.prefix s t.
Proof.
  simpl. destruct (ascii_dec a b) as [->|Hne].
  - now rewrite Ascii.eqb_refl.
  - destruct (Ascii.eqb b a) eqn:E; [|reflexivity].
    apply Ascii.eqb_eq in E. congruence.
Qed.

Lemma prefix_nil (s : string) : String.prefix EmptyString s = true.
Proof. now destruct s. Qed.

Lemma prefix_fence (s : string) :
  String.prefix "```" s = true <-> (3 <= leading_backticks s)%nat.
Proof.
  destruct s as [|c1 [|c2 [|c3 s]]];
    rewrite ?prefix_cons, ?prefix_nil; simpl leading_backticks;
    simpl String.prefix;
    repeat match goal with
           | |- context [Ascii.eqb ?a ?b] => destruct (Ascii.eqb a b)
           end;
    simpl; split; intros H; try lia; try discriminate; reflexivity.
Qed.

Lemma prefix_json_fence (s : string) :
  String.prefix "```json" s = true -> String.prefix "```" s = true.
Proof.
  destruct s as [|c1 [|c2 [|c3 s]]];
    rewrite ?prefix_cons, ?prefix_nil; simpl String.prefix;
    try discriminate;
    repeat match goal with
           | |- context [Ascii.eqb ?a ?b] => destruct (Ascii.eqb a b)
           end;
    simpl; auto.
Qed.

Lemma contains_cons (needle : string) (c : ascii) (s : string) :
  contains needle (String c s) =
  String.prefix needle (String c s) || contains needle s.
Proof. reflexivity. Qed.

Lemma re_sub_fences_from_skip (k : nat) (s : string) :
  re_sub_fences_from k s = re_sub_fences_from 0 (drop k s).
Proof.
  revert s. induction k as [|k IH]; intros [|c s]; try reflexivity.
  simpl drop. rewrite <- IH. reflexivity.
Qed.

Lemma drop_length_le (k : nat) (s : string) :
  (String.length (drop k s) <= String.length s)%nat.
Proof.
  revert s. induction k as [|k IH]; intros [|c s]; simpl; try lia.
  specialize (IH s). lia.
Qed.

(** After the substitution no fence is left, and where the text does not
    start with a fence the result starts with no more backticks than the
    text does. *)
Lemma re_sub_fences_sound (n : nat) (s : string) :
  (String.length s <= n)%nat ->
  contains "```" (re_sub_fences_from 0 s) = false
  /\ (String.prefix "```" s = false ->
      (leading_backticks (re_sub_fences_from 0 s) <= leading_backticks s)%nat).
Proof.
  revert s. induction n as [|n IH]; intros [|c s] Hlen;
    try (simpl in Hlen; lia); try (split; [reflexivity | intros _; simpl; lia]).
  simpl in Hlen.
  change (re_sub_fences_from 0 (String c s)) with
    (if String.prefix "```json" (String c s) then re_sub_fences_from 6 s
     else if String.prefix "```" (String c s) then re_sub_fences_from 2 s
          else String c (re_sub_fences_from 0 s)).
  destruct (String.prefix "```json" (String c s)) eqn:Ej.
  { rewrite re_sub_fences_from_skip.
    pose proof (drop_length_le 6 s).
    destruct (IH (drop 6 s)) as [Hd _]; [lia|].
    split; [exact Hd|]. rewrite (prefix_json_fence _ Ej). discriminate. }
  destruct (String.prefix "```" (String c s)) eqn:Ef.
  { rewrite re_sub_fences_from_skip.
    pose proof (drop_length_le 2 s).
    destruct (IH (drop 2 s)) as [Hd _]; [lia|].
    split; [exact Hd | discriminate]. }
  destruct (IH s) as [Hc Hl]; [lia|].
  assert (Hlt : ~ (3 <= leading_backticks (String c s))%nat).
  { intros H3. apply prefix_fence in H3. congruence. }
  assert (Hout : (leading_backticks (String c (re_sub_fences_from 0 s))
                  <= leading_backticks (String c s))%nat).
  { simpl. simpl in Hlt. destruct (Ascii.eqb c "`"); [|lia].
    assert (Hs : String.prefix "```" s = false).
    { destruct (String.prefix "```" s) eqn:E; [|reflexivity].
      apply prefix_fence in E. lia. }
    specialize (Hl Hs). lia. }
  split; [|intros _; exact Hout].
  rewrite contains_cons, Hc, orb_false_r.
  destruct (String.prefix "```" (String c (re_sub_fences_from 0 s))) eqn:E;
    [|reflexivity].
  apply prefix_fence in E. lia.
Qed.

Lemma re_sub_fences_no_fence (s : string) :
  contains "```" (re_sub_fences s) = false.
Proof. apply (re_sub_fences_sound (String.length s) s). lia. Qed.

(** Text without a fence is left as it is. *)
Lemma re_sub_fences_id (s : string) :
  contains "```" s = false -> re_sub_fences s = s.
Proof.
  unfold re_sub_fences. induction s as [|c s IH]; [reflexivity|].
  rewrite contains_cons. intros H. apply orb_false_iff in H as [Hp Hc].
  change (re_sub_fences_from 0 (String c s)) with
    (if String.prefix "```json" (String c s) then re_sub_fences_from 6 s
     else if String.prefix "```" (String c s) then re_sub_fences_from 2 s
          else String c (re_sub_fences_from 0 s)).
  rewrite Hp.
  destruct (String.prefix "```json" (String c s)) eqn:Ej.
  - apply prefix_json_fence in Ej. congruence.
  - now rewrite IH.
Qed.

Lemma prefix_app (needle a b : string) :
  String.prefix needle a = true -> String.prefix needle (a +:+ b) = true.
Proof.
  revert a. induction needle as [|x needle IH]; intros a H; [apply prefix_nil|].
  destruct a as [|y a]; [discriminate|].
  change (String y a +:+ b) with (String y (a +:+ b)).
  rewrite prefix_cons in *. apply andb_true_iff in H as [H1 H2].
  rewrite H1. simpl. now apply IH.
Qed.

Lemma contains_app_l (needle a b : string) :
  contains needle a = true -> contains needle (a +:+ b) = true.
Proof.
  induction a as [|c a IH]; intros H.
  - simpl in H. destruct needle; [|discriminate].
    destruct b as [|y b]; [reflexivity|].
    change (EmptyString +:+ String y b) with (String y b).
    rewrite contains_cons. now rewrite prefix_nil.
  - change (String c a +:+ b) with (String c (a +:+ b)).
    rewrite contains_cons in *. apply orb_true_iff in H as [H|H].
    + apply (prefix_app _ _ b) in H.
      change (String c a +:+ b) with (String c (a +:+ b)) in H. now rewrite H.
    + rewrite (IH H). apply orb_true_r.
Qed.

Lemma contains_lstrip (needle s : string) :
  contains needle s = false -> contains needle (lstrip s) = false.
Proof.
  induction s as [|c s IH]; intros H; [exact H|]. simpl lstrip.
  destruct (is_space c); [|exact H].
  rewrite contains_cons in H. apply orb_false_iff in H as [_ H]. auto.
Qed.

Lemma rstrip_prefix (s : string) : exists t, s = rstrip s +:+ t.
Proof.
  induction s as [|c s [t IH]]; [now exists EmptyString|].
  simpl rstrip. destruct (rstrip s) as [|r0 r] eqn:E.
  - destruct (is_space c).
    + now exists (String c s).
    + exists t. simpl. now rewrite IH at 1.
  - exists t. simpl. now rewrite IH at 1.
Qed.

Lemma contains_rstrip (needle s : string) :
  contains needle s = false -> contains needle (rstrip s) = false.
Proof.
  intros H. destruct (contains needle (rstrip s)) eqn:E; [|reflexivity].
  destruct (rstrip_prefix s) as [t Ht].
  apply (contains_app_l _ _ t) in E. rewrite <- Ht in E. congruence.
Qed.

(** The text handed to [json.loads] holds no code fence. *)
Lemma cleaned_no_fence (response : string) :
  contains "```" (strip (re_sub_fences response)) = false.
Proof.
  unfold strip. apply contains_rstrip, contains_lstrip, re_sub_fences_no_fence.
Qed.

End FenceFacts.



(* ===================================================================== *)
(** ** What a run leaves behind *)
(* ===================================================================== *)

Section Evolution.

Variable X : Externals.
Variables name contact : string.

Lemma evolves_refl (w : World) : evolves name contact w w.
Proof. split; [auto|]. exists []. split; [reflexivity | constructor]. Qed.

Lemma evolves_trans (w1 w2 w3 : World) :
  evolves name contact w1 w2 -> evolves name contact w2 w3 ->
  evolves name contact w1 w3.
Proof.
  intros [F1 (e1 & A1 & P1)] [F2 (e2 & A2 & P2)]. split; [auto|].
  exists (e2 ++ e1). unfold added in *. split.
  - rewrite A2, A1. apply app_assoc.
  - apply Forall_app. auto.
Qed.

Lemma evolves_event (w : World) (e : Event) :
  render_args_are name contact e ->
  evolves name contact w {| fs := fs w; trace := e :: trace w |}.
Proof.
  intros He. split; [auto|]. exists [e]. split; [reflexivity|].
  constructor; [exact He | constructor].
Qed.

Lemma evolves_write (w : World) (path data : string) (e : Event) :
  render_args_are name contact e ->
  evolves name contact w
    {| fs := <[path := data]> (fs w); trace := e :: trace w |}.
Proof.
  intros He. split.
  - intros q Hq. simpl. destruct (decide (path = q)) as [->|Hne].
    + rewrite lookup_insert_eq. eauto.
    + now rewrite lookup_insert_ne.
  - exists [e]. split; [reflexivity|]. constructor; [exact He | constructor].
Qed.

Lemma preserves_bind {A B} (m : M A) (k : A -> M B) :
  preserves name contact m -> (forall a, preserves name contact (k a)) ->
  preserves name contact (bind m k).
Proof.
  intros Hm Hk w r w'. unfold bind.
  destruct (m w) as [[a|e] w1] eqn:E.
  - intros H. eapply evolves_trans; [eapply Hm, E | eapply Hk, H].
  - intros [= _ <-]. eapply Hm, E.
Qed.

Lemma preserves_ret {A} (a : A) : preserves name contact (ret a).
Proof. intros w r w' [= _ <-]. apply evolves_refl. Qed.

Lemma preserves_raise {A} (e : exn) : preserves name contact (@raise A e).
Proof. intros w r w' [= _ <-]. apply evolves_refl. Qed.

Lemma preserves_lift {A} (r : result A) : preserves name contact (lift r).
Proof. intros w r' w' [= _ <-]. apply evolves_refl. Qed.

Lemma preserves_emit (e : Event) :
  render_args_are name contact e -> preserves name contact (emit e).
Proof. intros He w r w' [= _ <-]. now apply evolves_event. Qed.

Lemma preserves_write_file (path data : string) (e : Event) :
  render_args_are name contact e ->
  preserves name contact (write_file X path data e).
Proof.
  intros He w r w'. unfold write_file.
  destruct (can_write X w path); intros [= _ <-];
    [now apply evolves_write | apply evolves_refl].
Qed.

Lemma preserves_load_resume (path : string) :
  preserves name contact (load_resume X path).
Proof.
  intros w r w' H. apply load_resume_world in H as ->. apply evolves_refl.
Qed.

Lemma preserves_convert_to_json (text : string) :
  preserves name contact (convert_to_json X text).
Proof.
  unfold convert_to_json. apply preserves_bind.
  - intros w r w'. unfold invoke_chain.
    destruct (chain_invoke X w text); intros [= _ <-];
      [now apply evolves_event | apply evolves_refl].
  - intros response. apply preserves_bind; [now apply preserves_emit|].
    intros _. destruct (json_loads X _) as [v|e]; [apply preserves_ret|].
    destruct e; try apply preserves_raise.
    apply preserves_bind; [now apply preserves_emit | intros; apply preserves_ret].
Qed.

Lemma preserves_generate (data : json) (fname : string) :
  preserves name contact (generate_company_resume X data name contact fname).
Proof.
  unfold generate_company_resume. apply preserves_bind.
  - intros w r w'. unfold render.
    destruct (template_render X w name contact data); intros [= _ <-];
      [apply evolves_event; now split | apply evolves_refl].
  - intros html. apply preserves_bind; [|intros; apply preserves_ret].
    intros w r w'. unfold write_pdf.
    destruct (write_pdf_bytes X w html); [|intros [= _ <-]; apply evolves_refl].
    now apply preserves_write_file.
Qed.

Lemma preserves_loop_body (file : FileStorage) :
  preserves name contact (loop_body X name contact file).
Proof.
  unfold loop_body.
  apply preserves_bind; [now apply preserves_write_file|]. intros _.
  apply preserves_bind; [apply preserves_load_resume|]. intros text.
  apply preserves_bind; [apply preserves_convert_to_json|]. intros v.
  apply preserves_bind; [apply preserves_lift|]. intros [|].
  - apply preserves_ret.
  - apply preserves_bind; [apply preserves_generate | intros; apply preserves_ret].
Qed.

Lemma preserves_for_files (files : list FileStorage) (acc : list string) :
  preserves name contact (for_files X name contact files acc).
Proof.
  revert acc. induction files as [|f files IH]; intros acc; simpl.
  - apply preserves_ret.
  - apply preserves_bind; [apply preserves_loop_body|]. intros [p|]; apply IH.
Qed.

Lemma zip_write_all_world (paths : list string) (z : list (string * string))
    (w w' : World) (r : result (list (string * string))) :
  zip_write_all paths z w = (r, w') -> w' = w.
Proof.
  revert z. induction paths as [|p paths IH]; intros z; simpl.
  - now intros [= _ <-].
  - destruct (fs w !! p); [apply IH | now intros [= _ <-]].
Qed.

Lemma create_zip_world (paths : list string) (w w' : World) (r : result Response) :
  create_zip paths w = (r, w') -> w' = w.
Proof.
  unfold create_zip, bind, ret.
  destruct (zip_write_all paths [] w) as [[z|e] w1] eqn:E;
    apply zip_write_all_world in E as ->; now intros [= _ <-].
Qed.

(** The archive has one entry per path, in order, each with the base name
    of its path and the bytes found there. *)
Lemma zip_write_all_entries (paths : list string) (z : list (string * string))
    (w : World) :
  (forall q, In q paths -> is_Some (fs w !! q)) ->
  exists entries,
    zip_write_all paths z w = (Ok (z ++ entries), w)
    /\ Forall2 (entry_of w) paths entries.
Proof.
  revert z. induction paths as [|p paths IH]; intros z Hex.
  - exists []. split; [simpl; now rewrite app_nil_r | constructor].
  - destruct (Hex p (or_introl eq_refl)) as [data Hd].
    destruct (IH (z ++ [(posixpath.basename p, data)])) as (entries & Hz & Hall).
    { intros q Hq. apply Hex. now right. }
    exists ((posixpath.basename p, data) :: entries). split.
    + simpl. rewrite Hd, Hz. now rewrite <- app_assoc.
    + constructor; [now split | exact Hall].
Qed.

End Evolution.

Section LoopFacts.

Variable X : Externals.
Variables name contact : string.

Lemma zip_write_all_inv (paths : list string) (z zip : list (string * string))
    (w w' : World) :
  zip_write_all paths z w = (Ok zip, w') ->
  exists entries, zip = z ++ entries /\ Forall2 (entry_of w) paths entries.
Proof.
  revert z. induction paths as [|p paths IH]; intros z; simpl.
  - intros [= <- _]. exists []. split; [now rewrite app_nil_r | constructor].
  - destruct (fs w !! p) as [data|] eqn:Hd; [|discriminate].
    intros H. apply IH in H as (entries & -> & Hall).
    exists ((posixpath.basename p, data) :: entries). split.
    + now rewrite <- app_assoc.
    + constructor; [now split | exact Hall].
Qed.

Lemma create_zip_inv (paths : list string) (w w' : World)
    (zip : list (string * string)) (a : bool) (dn mt : string) :
  create_zip paths w = (Ok (SendFile zip a dn mt), w') ->
  Forall2 (entry_of w) paths zip.
Proof.
  unfold create_zip, bind, ret.
  destruct (zip_write_all paths [] w) as [[z|e] w1] eqn:E; [|discriminate].
  intros [= <- _ _ _ _]. now apply zip_write_all_inv in E as (entries & -> & H).
Qed.

Lemma entry_names (w : World) (paths : list string)
    (zip : list (string * string)) :
  Forall2 (entry_of w) paths zip -> map fst zip = map posixpath.basename paths.
Proof.
  induction 1 as [|p e paths zip [Hn _] _ IH]; [reflexivity|].
  simpl. now rewrite Hn, IH.
Qed.

Lemma generate_inv (data : json) (fname : string) (w w' : World) (p : string) :
  generate_company_resume X data name contact fname w = (Ok p, w') ->
  p = pdf_path_of fname
  /\ exists html bytes,
       template_render X w name contact data = Ok html
       /\ write_pdf_bytes X
            {| fs := fs w; trace := EvRender name contact data :: trace w |}
            html = Ok bytes
       /\ w' = {| fs := <[pdf_path_of fname := bytes]> (fs w);
                  trace := EvWritePdf (pdf_path_of fname)
                           :: EvRender name contact data :: trace w |}.
Proof.
  unfold generate_company_resume, bind, render, write_pdf, ret.
  destruct (template_render X w name contact data) as [html|e]; [|discriminate].
  destruct (write_pdf_bytes X _ html) as [bytes|e] eqn:Eb; [|discriminate].
  destruct (write_file X _ bytes _ _) as [[[]|e] w1] eqn:Ew; [|discriminate].
  intros [= <- <-]. apply write_file_inv in Ew as [_ ->].
  split; [reflexivity|]. exists html, bytes. auto.
Qed.

(** A file that is kept leaves its PDF on disk at [pdf_path_of]. *)
Lemma loop_body_some_inv (file : FileStorage) (w w' : World) (p : string) :
  loop_body X name contact file w = (Ok (Some p), w') ->
  p = pdf_path_of (filename file) /\ is_Some (fs w' !! p).
Proof.
  unfold loop_body. intros H.
  apply bind_inv_ok in H as ([] & w1 & _ & H).
  apply bind_inv_ok in H as (text & w2 & _ & H).
  apply bind_inv_ok in H as (v & w3 & _ & H).
  apply bind_inv_ok in H as (b & w4 & _ & H).
  destruct b; [discriminate|].
  apply bind_inv_ok in H as (p' & w5 & Hg & H).
  injection H as -> ->.
  apply generate_inv in Hg as (-> & html & bytes & _ & _ & ->).
  split; [reflexivity|]. simpl. rewrite lookup_insert_eq. eauto.
Qed.

(** The paths collected by the loop are those of a sub-list of the files,
    in order. *)
Lemma for_files_kept (files : list FileStorage) (acc acc' : list string)
    (w w' : World) :
  for_files X name contact files acc w = (Ok acc', w') ->
  exists kept, sublist kept files
               /\ acc' = acc ++ map (fun f => pdf_path_of (filename f)) kept.
Proof.
  revert acc w. induction files as [|f files IH]; intros acc w; simpl.
  - intros [= <- <-]. exists []. split; [constructor | now rewrite app_nil_r].
  - intros H. apply bind_inv_ok in H as (r & w1 & Hb & H). destruct r as [p|].
    + apply loop_body_some_inv in Hb as [-> _].
      apply IH in H as (kept & Hs & ->). exists (f :: kept).
      split; [now apply sublist_skip | simpl; now rewrite <- app_assoc].
    + apply IH in H as (kept & Hs & ->). exists kept.
      split; [now apply sublist_cons | reflexivity].
Qed.

(** All of them exist when the loop ends. *)
Lemma for_files_exist (files : list FileStorage) (acc acc' : list string)
    (w w' : World) :
  for_files X name contact files acc w = (Ok acc', w') ->
  (forall q, In q acc -> is_Some (fs w !! q)) ->
  forall q, In q acc' -> is_Some (fs w' !! q).
Proof.
  revert acc w. induction files as [|f files IH]; intros acc w; simpl.
  - now intros [= <- <-].
  - intros H Hex. apply bind_inv_ok in H as (r & w1 & Hb & H).
    pose proof (preserves_loop_body X name contact f _ _ _ Hb) as [Hmono _].
    destruct r as [p|]; [|eapply IH; eauto].
    apply loop_body_some_inv in Hb as [-> Hp].
    eapply IH; [exact H|].
    intros q Hq. apply in_app_or in Hq as [Hq|[<-|[]]]; auto.
Qed.

Lemma for_files_paths (files : list FileStorage) (acc acc' : list string)
    (w w' : World) :
  for_files X name contact files acc w = (Ok acc', w') ->
  (forall q, In q acc -> is_Some (fs w !! q)) ->
  (exists kept, sublist kept files
                /\ acc' = acc ++ map (fun f => pdf_path_of (filename f)) kept)
  /\ (forall q, In q acc' -> is_Some (fs w' !! q)).
Proof.
  intros H Hex. split; [now apply for_files_kept in H|].
  now apply (for_files_exist _ _ _ _ _ H).
Qed.

End LoopFacts.

(** When the loop ends without an exception the handler returns the
    archive of the collected paths. *)
Lemma upload_resume_archive (X : Externals) (request : Request)
    (pre post : list FileStorage) (file : FileStorage) (paths : list string)
    (w w' : World) :
  getlist "resume" (req_files request) = pre ++ file :: post ->
  for_files X (req_name request) (req_contact request)
    (pre ++ file :: post) [] w = (Ok paths, w') ->
  exists zip,
    upload_resume X request w =
    (Ok (SendFile zip true "Formatted_Resumes.zip" "application/zip"), w')
    /\ Forall2 (entry_of w') paths zip.
Proof.
  intros Hfiles Hloop.
  rewrite (upload_resume_nonempty _ _ _ _ _ _ Hfiles).
  rewrite (bind_ok _ _ _ _ _ Hloop).
  apply for_files_paths in Hloop as [_ Hex]; [|intros q []].
  destruct (zip_write_all_entries paths [] w' Hex) as (zip & Hz & Hall).
  exists zip. split; [|exact Hall].
  unfold create_zip. now rewrite (bind_ok _ _ _ _ _ Hz).
Qed.

(* ===================================================================== *)
(** ** Skipped files *)
(* ===================================================================== *)

Section Skipping.

Variable X : Externals.

Lemma response_for_inv (file : FileStorage) (w1 w2 : World) (response : string) :
  response_for X file w1 = (Ok response, w2) ->
  exists text,
    fs w2 = <[posixpath.join UPLOAD_FOLDER (filename file) := stream file]> (fs w1)
    /\ trace w2 =
       EvInvoke text
       :: EvSave (posixpath.join UPLOAD_FOLDER (filename file)) :: trace w1.
Proof.
  unfold response_for. intros H.
  apply bind_inv_ok in H as ([] & wa & Hs & H).
  apply bind_inv_ok in H as (text & wb & Hl & H).
  apply write_file_inv in Hs as [_ ->].
  apply load_resume_world in Hl as ->.
  unfold invoke_chain in H. destruct (chain_invoke X _ text); [|discriminate].
  injection H as _ <-. exists text. split; reflexivity.
Qed.

Lemma entry_names_of_paths (kept : list FileStorage) :
  map posixpath.basename (map (fun f => pdf_path_of (filename f)) kept)
  = map entry_name kept.
Proof. now rewrite map_map. Qed.

(** A file whose parsed result contains ["error"] is passed over: the loop
    goes on with the next file, nothing but the upload is written, and the
    handler answers as it does for the remaining files. *)
Lemma skipped_file (request : Request) (pre post : list FileStorage)
    (file : FileStorage) (w w1 w2 w3 : World) (acc1 : list string)
    (response : string) (v : json) :
  getlist "resume" (req_files request) = pre ++ file :: post ->
  for_files X (req_name request) (req_contact request) pre [] w = (Ok acc1, w1) ->
  response_for X file w1 = (Ok response, w2) ->
  parse_response X response w2 = (Ok v, w3) ->
  fs w3 = fs w2 ->
  py_in "error" v = Ok true ->
  loop_body X (req_name request) (req_contact request) file w1 = (Ok None, w3)
  /\ fs w3 =
     <[posixpath.join UPLOAD_FOLDER (filename file) := stream file]> (fs w1)
  /\ upload_resume X request w =
     bind (for_files X (req_name request) (req_contact request) post acc1)
          create_zip w3
  /\ (forall zip a dn mt w',
        upload_resume X request w = (Ok (SendFile zip a dn mt), w') ->
        exists kept, sublist kept (pre ++ post)
                     /\ map fst zip = map entry_name kept).
Proof.
  intros Hfiles Hpre Hresp Hparse Hfs Herr.
  assert (Hbody : loop_body X (req_name request) (req_contact request) file w1
                  = (Ok None, w3)).
  { rewrite loop_body_unfold, (bind_ok _ _ _ _ _ Hresp).
    rewrite (bind_ok _ _ _ _ _ Hparse). unfold bind, lift. now rewrite Herr. }
  assert (Hup : upload_resume X request w =
                bind (for_files X (req_name request) (req_contact request)
                        post acc1) create_zip w3).
  { rewrite (upload_resume_nonempty _ _ _ _ _ _ Hfiles).
    unfold bind at 1. rewrite for_files_app, (bind_ok _ _ _ _ _ Hpre).
    rewrite (for_files_skip _ _ _ _ _ _ _ _ Hbody). reflexivity. }
  split; [exact Hbody|]. split.
  { rewrite Hfs. now destruct (response_for_inv _ _ _ _ Hresp) as (text & -> & _). }
  split; [exact Hup|].
  intros zip a dn mt w' Hzip. rewrite Hup in Hzip.
  apply bind_inv_ok in Hzip as (paths & w4 & Hpost & Hzip).
  apply for_files_paths in Hpre as [(kept1 & Hs1 & ->) Hex1]; [|intros q []].
  apply for_files_paths in Hpost as [(kept2 & Hs2 & ->) _].
  - apply create_zip_inv, entry_names in Hzip.
    exists (kept1 ++ kept2). split; [now apply sublist_app|].
    rewrite Hzip. simpl app. now rewrite !map_app, !entry_names_of_paths.
  - intros q Hq.
    now apply (preserves_loop_body X _ _ file _ _ _ Hbody), Hex1.
Qed.

End Skipping.




Lemma existsb_key (key : string) (members : list (string * json)) :
  In key (map fst members) ->
  existsb (fun kv => String.eqb (fst kv) key) members = true.
Proof.
  intros H. apply in_map_iff in H as (kv & <- & Hin).
  apply existsb_exists. exists kv. split; [exact Hin | apply String.eqb_refl].
Qed.

(** C8: the test that skips a file is ["error" in resume_json].  When the
    response parses to an object that has the key ["error"], the file is
    skipped exactly as after a failed parse: [continue] without an
    exception, nothing written but the upload, the handler's answer that of
    the remaining files, no entry for the file in a returned archive. *)
Theorem C8_error_key_is_skipped (X : Externals) (request : Request)
    (pre post : list FileStorage) (file : FileStorage) (w w1 w2 : World)
    (acc1 : list string) (response : string) (members : list (string * json)) :
  getlist "resume" (req_files request) = pre ++ file :: post ->
  for_files X (req_name request) (req_contact request) pre [] w = (Ok acc1, w1) ->
  response_for X file w1 = (Ok response, w2) ->
  json_loads X (PyStr.strip (re_sub_fences response)) = Ok (JObject members) ->
  In "error" (map fst members) ->
  let w3 := {| fs := fs w2;
               trace := EvJsonLoads (PyStr.strip (re_sub_fences response))
                        :: trace w2 |} in
  loop_body X (req_name request) (req_contact request) file w1 = (Ok None, w3)
  /\ fs w3 =
     <[posixpath.join UPLOAD_FOLDER (filename file) := stream file]> (fs w1)
  /\ upload_resume X request w =
     bind (for_files X (req_name request) (req_contact request) post acc1)
          create_zip w3
  /\ (forall zip a dn mt w',
        upload_resume X request w = (Ok (SendFile zip a dn mt), w') ->
        exists kept, sublist kept (pre ++ post)
                     /\ map fst zip = map entry_name kept).
Proof.
  intros Hfiles Hpre Hresp Hok Hkey w3.
  apply (skipped_file X request pre post file w w1 w2 w3 acc1 response
           (JObject members)); auto.
  - unfold parse_response, bind, emit, ret. now rewrite Hok.
  - simpl. now rewrite existsb_key.
Qed.

Lemma C8_witness :
  Sample.loads Sample.error_json
  = Ok (JObject [("error", JString "no resume found")])
  /\ fst (loop_body Sample.externals "Candidate" "example@email.com"
            (mkFile "cv.pdf" Sample.error_json) Sample.w0) = Ok None
  /\ fst (upload_resume Sample.externals Sample.refusal_then_good Sample.w0)
     = Ok (SendFile
             [("cv2_formatted.pdf",
               "%PDF-1.7 <h1>Candidate</h1><p>example@email.com</p><p>Ada</p>")]
             true "Formatted_Resumes.zip" "application/zip").
Proof.
  destruct (C8_error_key_is_skipped Sample.externals
              Sample.refusal_then_good []
              [mkFile "cv2.pdf" Sample.ada_json]
              (mkFile "cv.pdf" Sample.error_json) Sample.w0 Sample.w0
              (snd (response_for Sample.externals
                      (mkFile "cv.pdf" Sample.error_json) Sample.w0))
              [] Sample.error_json
              [("error", JString "no resume found")])
    as (Hbody & _ & Hup & _).
  - reflexivity.
  - reflexivity.
  - vm_compute. reflexivity.
  - vm_compute. reflexivity.
  - simpl. now left.
  - split; [vm_compute; reflexivity|]. split.
    + change (req_name Sample.refusal_then_good) with "Candidate" in Hbody.
      change (req_contact Sample.refusal_then_good) with "example@email.com"
        in Hbody.
      now rewrite Hbody.
    + rewrite Hup. vm_compute. reflexivity.
Defined.

(* ===================================================================== *)
(** ** Kept files and the archive *)
(* ===================================================================== *)

Section Keeping.

Variable X : Externals.

(** After a response that parses to a value without ["error"], what is left
    of the loop body is the rendering. *)
Lemma kept_file_body (name contact : string) (file : FileStorage)
    (w1 w2 : World) (response : string) (v : json) :
  response_for X file w1 = (Ok response, w2) ->
  json_loads X (PyStr.strip (re_sub_fences response)) = Ok v ->
  py_in "error" v = Ok false ->
  loop_body X name contact file w1 =
  bind (generate_company_resume X v name contact (filename file))
       (fun pdf_path => ret (Some pdf_path))
       {| fs := fs w2;
          trace := EvJsonLoads (PyStr.strip (re_sub_fences response))
                   :: trace w2 |}.
Proof.
  intros Hresp Hok Hin.
  rewrite loop_body_unfold, (bind_ok _ _ _ _ _ Hresp).
  unfold parse_response. unfold bind at 1 2. unfold emit. simpl.
  rewrite Hok. unfold ret at 1. unfold bind at 1. unfold lift. now rewrite Hin.
Qed.

Lemma entry_has_path (w : World) (paths : list string)
    (zip : list (string * string)) (e : string * string) :
  Forall2 (entry_of w) paths zip -> In e zip ->
  exists q, In q paths /\ fst e = posixpath.basename q.
Proof.
  induction 1 as [|q e' paths zip [Hn _] _ IH]; intros Hin; [destruct Hin|].
  destruct Hin as [<-|Hin].
  - exists q. split; [now left | exact Hn].
  - destruct (IH Hin) as (q' & Hq & He). exists q'. split; [now right | exact He].
Qed.

Lemma entry_has_file (w : World) (kept files : list FileStorage)
    (zip : list (string * string)) (e : string * string) :
  sublist kept files ->
  Forall2 (entry_of w) (map (fun f => pdf_path_of (filename f)) kept) zip ->
  In e zip ->
  exists g, In g files /\ fst e = entry_name g.
Proof.
  intros Hsub Hall Hin.
  destruct (entry_has_path _ _ _ _ Hall Hin) as (q & Hq & He).
  apply in_map_iff in Hq as (g & <- & Hg).
  exists g. split; [|exact He].
  apply list_elem_of_In. eapply elem_of_sublist; [|exact Hsub].
  now apply list_elem_of_In.
Qed.

End Keeping.

(** C1, as amended: take a request whose loop ends without an exception
    and one of its files, with a supported extension, whose model response
    parses as JSON to a value that does not contain ["error"].  Then the
    handler returns the archive, and the archive has an entry for the file:
    it comes right after the entries of the files before it, holds the bytes
    found at the file's output path, and is named after the file; for a file
    name without directories the name is [<stem>_formatted.pdf].  When no
    other file of the request has the same entry name, no other entry of
    the archive has that name. *)
Theorem C1_archive_entry_of_kept_file (X : Externals) (request : Request)
    (pre post : list FileStorage) (file : FileStorage) (w w1 w2 w' : World)
    (acc1 paths : list string) (response : string) (v : json) :
  getlist "resume" (req_files request) = pre ++ file :: post ->
  for_files X (req_name request) (req_contact request)
    (pre ++ file :: post) [] w = (Ok paths, w') ->
  for_files X (req_name request) (req_contact request) pre [] w = (Ok acc1, w1) ->
  In (PyStr.lower
        (snd (posixpath.splitext
                (posixpath.join UPLOAD_FOLDER (filename file))))) SUPPORTED ->
  response_for X file w1 = (Ok response, w2) ->
  json_loads X (PyStr.strip (re_sub_fences response)) = Ok v ->
  py_in "error" v = Ok false ->
  exists zip E1 data E2,
    upload_resume X request w =
    (Ok (SendFile zip true "Formatted_Resumes.zip" "application/zip"), w')
    /\ zip = E1 ++ (entry_name file, data) :: E2
    /\ length E1 = length acc1
    /\ fs w' !! pdf_path_of (filename file) = Some data
    /\ (no_sep (filename file) ->
        entry_name file =
        fst (posixpath.splitext (filename file)) +:+ "_formatted.pdf")
    /\ ((forall g, In g (pre ++ post) -> entry_name g <> entry_name file) ->
        forall e, In e (E1 ++ E2) -> fst e <> entry_name file).
Proof.
  intros Hfiles Hall Hpre _ Hresp Hok Hin.
  destruct (upload_resume_archive X request pre post file paths w w' Hfiles Hall)
    as (zip & Hup & Hzip).
  rewrite for_files_app, (bind_ok _ _ _ _ _ Hpre) in Hall. simpl in Hall.
  apply bind_inv_ok in Hall as (r & wb & Hbody & Hpost).
  pose proof Hbody as Hbody'.
  rewrite (kept_file_body X _ _ _ _ _ _ _ Hresp Hok Hin) in Hbody'.
  apply bind_inv_ok in Hbody' as (p & wc & _ & Hr). injection Hr as <- _.
  apply loop_body_some_inv in Hbody as [-> _].
  apply for_files_kept in Hpre as (kept1 & Hs1 & ->). simpl app in *.
  apply for_files_kept in Hpost as (kept2 & Hs2 & ->).
  rewrite <- app_assoc in Hzip. simpl app in Hzip.
  apply Forall2_app_inv_l in Hzip as (E1 & Z & HE1 & HZ & ->).
  apply Forall2_cons_inv_l in HZ as ([ename data] & E2 & [Hn Hd] & HE2 & ->).
  simpl in Hn, Hd. subst ename.
  exists (E1 ++ (entry_name file, data) :: E2), E1, data, E2.
  split; [exact Hup|]. split; [reflexivity|].
  split; [symmetry; apply (Forall2_length _ _ _ HE1)|].
  split; [exact Hd|]. split; [apply entry_name_stem|].
  intros Hother e He Heq. apply in_app_or in He as [He|He].
  - destruct (entry_has_file _ _ _ _ _ Hs1 HE1 He) as (g & Hg & Hname).
    apply (Hother g); [apply in_or_app; now left | congruence].
  - destruct (entry_has_file _ _ _ _ _ Hs2 HE2 He) as (g & Hg & Hname).
    apply (Hother g); [apply in_or_app; now right | congruence].
Qed.

Lemma C1_witness :
  exists zip E1 data E2,
    upload_resume Sample.externals Sample.good_between Sample.w0 =
    (Ok (SendFile zip true "Formatted_Resumes.zip" "application/zip"),
     snd (upload_resume Sample.externals Sample.good_between Sample.w0))
    /\ zip = E1 ++ (entry_name (mkFile "cv.docx" Sample.fenced_ada), data) :: E2
    /\ length E1 = length (@nil string)
    /\ fs (snd (upload_resume Sample.externals Sample.good_between Sample.w0))
         !! pdf_path_of "cv.docx" = Some data
    /\ (no_sep "cv.docx" ->
        entry_name (mkFile "cv.docx" Sample.fenced_ada) =
        fst (posixpath.splitext "cv.docx") +:+ "_formatted.pdf")
    /\ ((forall g, In g ([mkFile "a.pdf" Sample.not_json]
                         ++ [mkFile "b.pdf" Sample.bob_json]) ->
                   entry_name g <> entry_name (mkFile "cv.docx" Sample.fenced_ada)) ->
        forall e, In e (E1 ++ E2) ->
                  fst e <> entry_name (mkFile "cv.docx" Sample.fenced_ada)).
Proof.
  apply (C1_archive_entry_of_kept_file Sample.externals Sample.good_between
           [mkFile "a.pdf" Sample.not_json] [mkFile "b.pdf" Sample.bob_json]
           (mkFile "cv.docx" Sample.fenced_ada) Sample.w0
           (snd (for_files Sample.externals "Candidate" "example@email.com"
                   [mkFile "a.pdf" Sample.not_json] [] Sample.w0))
           (snd (response_for Sample.externals
                   (mkFile "cv.docx" Sample.fenced_ada)
                   (snd (for_files Sample.externals "Candidate"
                           "example@email.com"
                           [mkFile "a.pdf" Sample.not_json] [] Sample.w0))))
           (snd (upload_resume Sample.externals Sample.good_between Sample.w0))
           [] ["output/cv_formatted.pdf"; "output/b_formatted.pdf"]
           Sample.fenced_ada (JObject [("name", JString "Ada")])).
  - reflexivity.
  - vm_compute. reflexivity.
  - vm_compute. reflexivity.
  - simpl. right. left. reflexivity.
  - vm_compute. reflexivity.
  - vm_compute. reflexivity.
  - reflexivity.
Defined.

(** C1 as stated fails when the response is valid JSON with an ["error"]
    key: the extension of [cv.pdf] is supported, the response parses, and
    the returned archive is empty. *)
Lemma C1_counterexample :
  In (PyStr.lower (snd (posixpath.splitext "uploads/cv.pdf"))) SUPPORTED
  /\ fst (response_for Sample.externals (mkFile "cv.pdf" Sample.error_json)
            Sample.w0) = Ok Sample.error_json
  /\ json_loads Sample.externals
       (PyStr.strip (re_sub_fences Sample.error_json))
     = Ok (JObject [("error", JString "no resume found")])
  /\ fst (upload_resume Sample.externals
            (mkRequest [Sample.upload "cv.pdf" Sample.error_json] [])
            Sample.w0)
     = Ok (SendFile [] true "Formatted_Resumes.zip" "application/zip").
Proof.
  split; [simpl; now left|]. repeat split; vm_compute; reflexivity.
Qed.

Example run_good_between :
  fst (upload_resume Sample.externals Sample.good_between Sample.w0)
  = Ok (SendFile
          [("cv_formatted.pdf",
            "%PDF-1.7 <h1>Candidate</h1><p>example@email.com</p><p>Ada</p>");
           ("b_formatted.pdf",
            "%PDF-1.7 <h1>Candidate</h1><p>example@email.com</p><p>Bob</p>")]
          true "Formatted_Resumes.zip" "application/zip").
Proof. vm_compute. reflexivity. Qed.

(** Two kept files with the same name give two entries with the same name
    and, the second PDF having replaced the first on disk, the same bytes. *)
Example run_same_name_twice :
  fst (upload_resume Sample.externals
         (mkRequest [Sample.upload "cv.pdf" Sample.ada_json;
                     Sample.upload "cv.pdf" Sample.bob_json] []) Sample.w0)
  = Ok (SendFile
          [("cv_formatted.pdf",
            "%PDF-1.7 <h1>Candidate</h1><p>example@email.com</p><p>Bob</p>");
           ("cv_formatted.pdf",
            "%PDF-1.7 <h1>Candidate</h1><p>example@email.com</p><p>Bob</p>")]
          true "Formatted_Resumes.zip" "application/zip").
Proof. vm_compute. reflexivity. Qed.

(** A response that is valid JSON but no container makes the membership
    test itself fail. *)
Example run_number_response :
  fst (upload_resume Sample.externals
         (mkRequest [Sample.upload "cv.pdf" "42"] []) Sample.w0)
  = Raise (TypeError "argument is not iterable").
Proof. vm_compute. reflexivity. Qed.

(* ===================================================================== *)
(** ** Output files *)
(* ===================================================================== *)

(** C7, as amended: two PDFs generated for the same file name are written
    to the same path, [os.path.join("output", "<stem>_formatted.pdf")],
    which is [output/<stem>_formatted.pdf] unless the stem starts with the
    separator.  After the second generation the path holds the second PDF,
    whatever it held before.  When the file name has no directory
    separator, the output file of every other separator-free file name
    with a different stem is a different entry of [output/] and holds what
    it held when the second generation began. *)
Theorem C7_same_name_overwrites (X : Externals) (data1 data2 : json)
    (name1 contact1 name2 contact2 fname : string) (w w1 wm w2 : World)
    (p1 p2 : string) :
  generate_company_resume X data1 name1 contact1 fname w = (Ok p1, w1) ->
  generate_company_resume X data2 name2 contact2 fname wm = (Ok p2, w2) ->
  p2 = p1
  /\ p1 = posixpath.join OUTPUT_FOLDER
            (fst (posixpath.splitext fname) +:+ "_formatted.pdf")
  /\ (PyStr.startswith posixpath.sep (fst (posixpath.splitext fname)) = false ->
      p1 = "output/" +:+ fst (posixpath.splitext fname) +:+ "_formatted.pdf")
  /\ is_Some (fs w1 !! p1)
  /\ (exists html bytes,
        template_render X wm name2 contact2 data2 = Ok html
        /\ write_pdf_bytes X
             {| fs := fs wm; trace := EvRender name2 contact2 data2 :: trace wm |}
             html = Ok bytes
        /\ fs w2 !! p1 = Some bytes)
  /\ (no_sep fname ->
      forall other,
        no_sep other ->
        fst (posixpath.splitext other) <> fst (posixpath.splitext fname) ->
        p1 = "output/" +:+ fst (posixpath.splitext fname) +:+ "_formatted.pdf"
        /\ pdf_path_of other =
           "output/" +:+ fst (posixpath.splitext other) +:+ "_formatted.pdf"
        /\ no_sep (fst (posixpath.splitext fname) +:+ "_formatted.pdf")
        /\ no_sep (fst (posixpath.splitext other) +:+ "_formatted.pdf")
        /\ fs w2 !! pdf_path_of other = fs wm !! pdf_path_of other).
Proof.
  intros H1 H2.
  apply generate_inv in H1 as (-> & html1 & bytes1 & _ & _ & ->).
  apply generate_inv in H2 as (-> & html2 & bytes2 & Hh & Hb & ->).
  split; [reflexivity|]. split; [reflexivity|].
  split; [apply pdf_path_of_relative|].
  split; [simpl; rewrite lookup_insert_eq; eauto|].
  split; [exists html2, bytes2; simpl; now rewrite lookup_insert_eq|].
  intros Hf other Ho Hne.
  assert (Hrel : forall f, no_sep f ->
            pdf_path_of f =
            "output/" +:+ fst (posixpath.splitext f) +:+ "_formatted.pdf").
  { intros f Hn. apply pdf_path_of_relative, startswith_none.
    now apply splitext_root_no_sep. }
  assert (Hflat : forall f, no_sep f ->
            no_sep (fst (posixpath.splitext f) +:+ "_formatted.pdf")).
  { intros f Hn. apply rfind_none_app;
      [now apply splitext_root_no_sep | reflexivity]. }
  split; [now apply Hrel|]. split; [now apply Hrel|].
  split; [now apply Hflat|]. split; [now apply Hflat|].
  simpl. rewrite lookup_insert_ne; [reflexivity|].
  intros Heq. apply Hne. symmetry. now apply pdf_path_of_inj.
Qed.

Lemma C7_witness :
  fs (snd (generate_company_resume Sample.externals
             (JObject [("name", JString "Eve")]) "E" "e@x.org" "cv.pdf"
             (snd (generate_company_resume Sample.externals
                     (JObject [("name", JString "Bob")]) "B" "b@x.org" "cv.pdf"
                     (snd (generate_company_resume Sample.externals
                             (JObject [("name", JString "Ada")]) "A" "a@x.org"
                             "ada.pdf" Sample.w0))))))
    !! "output/cv_formatted.pdf"
  = Some "%PDF-1.7 <h1>E</h1><p>e@x.org</p><p>Eve</p>"
  /\ fs (snd (generate_company_resume Sample.externals
                (JObject [("name", JString "Eve")]) "E" "e@x.org" "cv.pdf"
                (snd (generate_company_resume Sample.externals
                        (JObject [("name", JString "Bob")]) "B" "b@x.org"
                        "cv.pdf"
                        (snd (generate_company_resume Sample.externals
                                (JObject [("name", JString "Ada")]) "A"
                                "a@x.org" "ada.pdf" Sample.w0))))))
       !! pdf_path_of "ada.pdf"
     = Some "%PDF-1.7 <h1>A</h1><p>a@x.org</p><p>Ada</p>".
Proof.
  set (wA := snd (generate_company_resume Sample.externals
                    (JObject [("name", JString "Ada")]) "A" "a@x.org"
                    "ada.pdf" Sample.w0)).
  set (wB := snd (generate_company_resume Sample.externals
                    (JObject [("name", JString "Bob")]) "B" "b@x.org"
                    "cv.pdf" wA)).
  set (wC := snd (generate_company_resume Sample.externals
                    (JObject [("name", JString "Eve")]) "E" "e@x.org"
                    "cv.pdf" wB)).
  destruct (C7_same_name_overwrites Sample.externals
              (JObject [("name", JString "Bob")])
              (JObject [("name", JString "Eve")])
              "B" "b@x.org" "E" "e@x.org" "cv.pdf" wA wB wB wC
              "output/cv_formatted.pdf" "output/cv_formatted.pdf")
    as (_ & _ & _ & _ & (html & bytes & Hh & Hb & Hfs) & Hframe).
  - vm_compute. reflexivity.
  - vm_compute. reflexivity.
  - split.
    + rewrite Hfs. f_equal. vm_compute in Hh, Hb. congruence.
    + destruct (Hframe eq_refl "ada.pdf" eq_refl) as (_ & _ & _ & _ & Hsame).
      * discriminate.
      * rewrite Hsame. vm_compute. reflexivity.
Defined.

(** C7 as stated fails when another file name has the same stem.  [cv.docx]
    is uploaded twice; generating its second PDF changes the output file of
    [cv.pdf], a different file name, from the first PDF of [cv.docx] to the
    second. *)
Lemma C7_counterexample :
  "cv.pdf" <> "cv.docx"
  /\ fs (snd (generate_company_resume Sample.externals
                (JObject [("name", JString "Bob")]) "B" "b@x.org" "cv.docx"
                (snd (generate_company_resume Sample.externals
                        (JObject [("name", JString "Ada")]) "A" "a@x.org"
                        "cv.pdf" Sample.w0))))
       !! pdf_path_of "cv.pdf"
     = Some "%PDF-1.7 <h1>B</h1><p>b@x.org</p><p>Bob</p>"
  /\ fs (snd (generate_company_resume Sample.externals
                (JObject [("name", JString "Eve")]) "E" "e@x.org" "cv.docx"
                (snd (generate_company_resume Sample.externals
                        (JObject [("name", JString "Bob")]) "B" "b@x.org"
                        "cv.docx"
                        (snd (generate_company_resume Sample.externals
                                (JObject [("name", JString "Ada")]) "A"
                                "a@x.org" "cv.pdf" Sample.w0))))))
       !! pdf_path_of "cv.pdf"
     = Some "%PDF-1.7 <h1>E</h1><p>e@x.org</p><p>Eve</p>".
Proof.
  split; [discriminate|]. split; vm_compute; reflexivity.
Qed.

Example run_same_stem :
  fst (upload_resume Sample.externals
         (mkRequest [Sample.upload "cv.pdf" Sample.ada_json;
                     Sample.upload "cv.docx" Sample.bob_json] []) Sample.w0)
  = Ok (SendFile
          [("cv_formatted.pdf",
            "%PDF-1.7 <h1>Candidate</h1><p>example@email.com</p><p>Bob</p>");
           ("cv_formatted.pdf",
            "%PDF-1.7 <h1>Candidate</h1><p>example@email.com</p><p>Bob</p>")]
          true "Formatted_Resumes.zip" "application/zip").
Proof. vm_compute. reflexivity. Qed.

(* ===================================================================== *)
(** ** Name and contact *)
(* ===================================================================== *)

Lemma getlist_absent {V} (key : string) (md : list (string * V)) :
  ~ In key (map fst md) -> getlist key md = [].
Proof.
  unfold getlist. induction md as [|[k v] md IH]; intros Hn; [reflexivity|].
  simpl in *. destruct (String.eqb k key) eqn:E.
  - apply String.eqb_eq in E. exfalso. apply Hn. now left.
  - apply IH. intros H. apply Hn. now right.
Qed.

Lemma form_get_absent (key default : string) (md : list (string * string)) :
  ~ In key (map fst md) -> form_get key default md = default.
Proof. intros H. unfold form_get. now rewrite getlist_absent. Qed.

(** A field that is present is used as sent, the first value winning. *)
Lemma form_get_first (key default v : string) (md : list (string * string)) :
  form_get key default ((key, v) :: md) = v.
Proof. unfold form_get, getlist. simpl. now rewrite String.eqb_refl. Qed.

(** Every render of a request uses the request's name and contact. *)
Lemma preserves_upload_resume (X : Externals) (request : Request) :
  preserves (req_name request) (req_contact request) (upload_resume X request).
Proof.
  unfold upload_resume. fold (req_name request) (req_contact request).
  destruct (getlist "resume" (req_files request)) as [|f files];
    [apply preserves_ret|].
  apply preserves_bind; [apply preserves_for_files|].
  intros paths w r w' H. apply create_zip_world in H as ->. apply evolves_refl.
Qed.

(** C9: however a request ends, the template is rendered only with the
    request's name and contact: when the form has no [name] field every
    render made for the request receives ["Candidate"], and when it has no
    [contact] field every render receives ["example@email.com"]. *)
Theorem C9_defaults_reach_renderer (X : Externals) (request : Request)
    (w w' : World) (r : result Response) :
  upload_resume X request w = (r, w') ->
  exists evs,
    added w w' evs
    /\ (~ In "name" (map fst (req_form request)) ->
        forall n c d, In (EvRender n c d) evs -> n = "Candidate")
    /\ (~ In "contact" (map fst (req_form request)) ->
        forall n c d, In (EvRender n c d) evs -> c = "example@email.com").
Proof.
  intros H. apply preserves_upload_resume in H as [_ (evs & Ha & Hall)].
  exists evs. split; [exact Ha|].
  rewrite List.Forall_forall in Hall.
  split; intros Habs n c d Hin; apply Hall in Hin as [Hn Hc]; simpl in *.
  - rewrite Hn. unfold req_name. now apply form_get_absent.
  - rewrite Hc. unfold req_contact. now apply form_get_absent.
Qed.

Lemma C9_witness :
  exists evs,
    added Sample.w0
      (snd (upload_resume Sample.externals
              (mkRequest [Sample.upload "cv.pdf" Sample.ada_json]
                         [("contact", "ada@x.org")]) Sample.w0)) evs
    /\ In (EvRender "Candidate" "ada@x.org" (JObject [("name", JString "Ada")])) evs
    /\ (forall n c d, In (EvRender n c d) evs -> n = "Candidate").
Proof.
  destruct (C9_defaults_reach_renderer Sample.externals
              (mkRequest [Sample.upload "cv.pdf" Sample.ada_json]
                         [("contact", "ada@x.org")]) Sample.w0
              (snd (upload_resume Sample.externals
                      (mkRequest [Sample.upload "cv.pdf" Sample.ada_json]
                                 [("contact", "ada@x.org")]) Sample.w0))
              (fst (upload_resume Sample.externals
                      (mkRequest [Sample.upload "cv.pdf" Sample.ada_json]
                                 [("contact", "ada@x.org")]) Sample.w0)))
    as (evs & Ha & Hname & _).
  - now destruct (upload_resume _ _ _).
  - exists evs. split; [exact Ha|]. split.
    + unfold added in Ha.
      change (trace Sample.w0) with (@nil Event) in Ha.
      rewrite app_nil_r in Ha. rewrite <- Ha.
      vm_compute. right. left. reflexivity.
    + apply Hname. simpl. intros [H|[]]. discriminate H.
Defined.

(* ===================================================================== *)
(** ** Letter case of the extension *)
(* ===================================================================== *)

Section CaseFacts.

Import PyStr posixpath.

#[local] Arguments String.append !s1 s2 : simpl nomatch.

Lemma lower_char_eqb_dot (c : ascii) :
  Ascii.eqb (lower_char c) extsep = Ascii.eqb c extsep.
Proof. destruct c as [[] [] [] [] [] [] [] []]; reflexivity. Qed.

Lemma lower_char_eqb_sep (c : ascii) :
  Ascii.eqb (lower_char c) sep = Ascii.eqb c sep.
Proof. destruct c as [[] [] [] [] [] [] [] []]; reflexivity. Qed.

Lemma lower_char_idem (c : ascii) : lower_char (lower_char c) = lower_char c.
Proof. destruct c as [[] [] [] [] [] [] [] []]; reflexivity. Qed.

Lemma lower_idem (s : string) : lower (lower s) = lower s.
Proof.
  induction s as [|c s IH]; [reflexivity|].
  simpl. now rewrite lower_char_idem, IH.
Qed.

Lemma lower_app (a b : string) : lower (a +:+ b) = lower a +:+ lower b.
Proof. induction a as [|c a IH]; [reflexivity | simpl; now rewrite IH]. Qed.

Lemma lower_take (n : nat) (s : string) : lower (take n s) = take n (lower s).
Proof.
  revert s. induction n as [|n IH]; intros [|c s]; try reflexivity.
  simpl. now rewrite IH.
Qed.

Lemma lower_drop (n : nat) (s : string) : lower (drop n s) = drop n (lower s).
Proof.
  revert s. induction n as [|n IH]; intros [|c s]; try reflexivity.
  simpl. now rewrite IH.
Qed.

Lemma rfind_lower (c : ascii) (s : string) :
  (forall a, Ascii.eqb (lower_char a) c = Ascii.eqb a c) ->
  rfind c (lower s) = rfind c s.
Proof.
  intros Hc. induction s as [|a s IH]; [reflexivity|].
  simpl. now rewrite IH, Hc.
Qed.

Lemma substring_lower (n m : nat) (s : string) :
  String.substring n m (lower s) = lower (String.substring n m s).
Proof.
  revert n m. induction s as [|c s IH]; intros [|n] [|m]; try reflexivity.
  - simpl. now rewrite IH.
  - simpl. apply IH.
  - simpl. apply IH.
Qed.

Lemma eqb_dot_lower (t : string) :
  String.eqb (lower t) (String extsep EmptyString)
  = String.eqb t (String extsep EmptyString).
Proof.
  destruct t as [|c [|c' t]]; try reflexivity.
  - simpl. now rewrite lower_char_eqb_dot.
  - simpl. now rewrite lower_char_eqb_dot.
Qed.

Lemma skip_leading_dots_lower (p : string) (i n : nat) :
  skip_leading_dots (lower p) i n = skip_leading_dots p i n.
Proof.
  revert i. induction n as [|n IH]; intros i; [reflexivity|].
  simpl. now rewrite substring_lower, eqb_dot_lower, IH.
Qed.

(** [splitext] cuts a path and its lower-case form at the same place. *)
Lemma splitext_lower (p : string) :
  splitext (lower p) = (lower (fst (splitext p)), lower (snd (splitext p))).
Proof.
  unfold splitext.
  rewrite (rfind_lower sep p lower_char_eqb_sep).
  rewrite (rfind_lower extsep p lower_char_eqb_dot).
  rewrite skip_leading_dots_lower.
  destruct (_ && _); simpl; [now rewrite lower_take, lower_drop | reflexivity].
Qed.

(** The choice of the loader only looks at the lower-case form of the
    path. *)
Lemma selected_class_lower (p : string) :
  selected_class (lower p) = selected_class p.
Proof.
  unfold selected_class, select_loader.
  rewrite splitext_lower. simpl snd. rewrite lower_idem.
  destruct (String.eqb _ ".pdf"); [reflexivity|].
  destruct (existsb _ _); reflexivity.
Qed.

End CaseFacts.

Section KnownExtension.

Import PyStr posixpath.

#[local] Arguments String.append !s1 s2 : simpl nomatch.

Lemma take_app_length (a b : string) : take (String.length a) (a +:+ b) = a.
Proof. induction a as [|c a IH]; simpl; [now destruct b | now rewrite IH]. Qed.

Lemma substring_at_length (a b : string) (c : ascii) :
  String.substring (String.length a) 1 (a +:+ String c b) = String c EmptyString.
Proof.
  induction a as [|x a IH]; simpl; [now destruct b | exact IH].
Qed.

(** The loop of [splitext] stops at a character that is not a dot. *)
Lemma skip_leading_dots_true (p : string) (i n j : nat) :
  (i <= j < i + n)%nat ->
  String.eqb (String.substring j 1 p) (String extsep EmptyString) = false ->
  skip_leading_dots p i n = true.
Proof.
  revert i. induction n as [|n IH]; intros i Hj Hc; [lia|].
  simpl. destruct (String.eqb (String.substring i 1 p) _) eqn:E; [|reflexivity].
  simpl. apply IH; [|exact Hc].
  destruct (Nat.eq_dec i j) as [->|Hne]; [congruence | lia].
Qed.

(** A path made of a directory part, a file name with a character that is
    not a dot, and an extension without further dots is cut before the
    extension. *)
Lemma splitext_known_ext (dir stem e : string) (c : ascii) :
  c <> extsep -> c <> sep -> rfind sep stem = -1 ->
  rfind extsep e = -1 -> rfind sep e = -1 ->
  splitext (dir +:+ String c stem +:+ String extsep e)
  = (dir +:+ String c stem, String extsep e).
Proof.
  intros Hdot Hsep Hstem He1 He2.
  assert (Hroot : rfind sep (String c stem) = -1)
    by (apply rfind_none_cons; auto).
  assert (Hext : rfind sep (String extsep e) = -1)
    by (apply rfind_none_cons; split; [discriminate | exact He2]).
  rewrite <- append_assoc. set (root := dir +:+ String c stem).
  unfold splitext.
  rewrite (rfind_app_char extsep root e He1).
  rewrite (rfind_app_none sep root _ Hext).
  assert (Hs : rfind sep root = rfind sep dir)
    by (unfold root; now apply rfind_app_none).
  pose proof (rfind_lt sep dir) as Hlt. pose proof (rfind_ge sep dir) as Hge.
  assert (Hlen : String.length root = (String.length dir + S (String.length stem))%nat)
    by (unfold root; now rewrite length_append).
  rewrite Hs.
  destruct (rfind sep dir <? Z.of_nat (String.length root)) eqn:E;
    [|apply Z.ltb_ge in E; lia].
  rewrite (skip_leading_dots_true _ _ _ (String.length dir)).
  - simpl. rewrite Nat2Z.id. now rewrite take_app_length, drop_app_length.
  - lia.
  - unfold root. rewrite append_assoc.
    change (String c stem +:+ String extsep e)
      with (String c (stem +:+ String extsep e)).
    rewrite substring_at_length. simpl.
    destruct (Ascii.eqb c extsep) eqn:Ec; [|reflexivity].
    apply Ascii.eqb_eq in Ec. contradiction.
Qed.

Lemma selected_class_app_lower (base ext : string) :
  selected_class (base +:+ ext) = selected_class (base +:+ lower ext).
Proof.
  rewrite <- (selected_class_lower (base +:+ ext)).
  rewrite <- (selected_class_lower (base +:+ lower ext)).
  now rewrite !lower_app, lower_idem.
Qed.

End KnownExtension.

(** C10, as amended: the choice of the loader is made on the lowercased
    extension, so it is the same for two paths that differ only in letter
    case, and in particular for a path and the path with its ending in
    lower case; a path whose file name has a character other than a dot
    before an ending that lowercases to [.pdf], [.docx] or [.doc] is
    accepted and gets the PDF loader for [.pdf] and the DOCX loader for the
    other two. *)
Theorem C10_extension_case_insensitive :
  (forall p,
     selected_class p =
     let ext := PyStr.lower (snd (posixpath.splitext p)) in
     if String.eqb ext ".pdf" then Ok PyPDFLoader
     else if String.eqb ext ".docx" || String.eqb ext ".doc"
          then Ok Docx2txtLoader
          else Raise (ValueError "Unsupported file type."))
  /\ (forall p q, PyStr.lower p = PyStr.lower q ->
                  selected_class p = selected_class q)
  /\ (forall base ending,
        selected_class (base +:+ ending)
        = selected_class (base +:+ PyStr.lower ending))
  /\ (forall dir c stem ending,
        c <> posixpath.extsep -> c <> posixpath.sep -> no_sep stem ->
        In (PyStr.lower ending) SUPPORTED ->
        selected_class (dir +:+ String c stem +:+ ending)
        = Ok (class_of_ext (PyStr.lower ending))).
Proof.
  split; [|split; [|split]].
  - intros p. unfold selected_class. rewrite select_loader_spec. cbv zeta.
    destruct (String.eqb _ ".pdf"); [reflexivity|].
    destruct (_ || _); reflexivity.
  - intros p q H.
    now rewrite <- (selected_class_lower p), <- (selected_class_lower q), H.
  - apply selected_class_app_lower.
  - intros dir c stem ending Hdot Hsep Hstem Hin.
    rewrite <- append_assoc, selected_class_app_lower, append_assoc.
    unfold selected_class, select_loader, class_of_ext.
    destruct Hin as [H|[H|[H|[]]]]; rewrite <- H;
      rewrite splitext_known_ext by (auto; reflexivity); reflexivity.
Qed.

Lemma C10_witness :
  selected_class "uploads/Resume.PDF" = selected_class "uploads/Resume.pdf"
  /\ selected_class "uploads/Resume.Docx" = Ok Docx2txtLoader
  /\ selected_class "uploads/.PDF" = selected_class "uploads/.pdf".
Proof.
  destruct C10_extension_case_insensitive as (_ & Hcase & Hend & Hacc).
  split; [|split].
  - apply (Hend "uploads/Resume" ".PDF").
  - apply (Hacc "uploads/" "R"%char "esume" ".Docx").
    + discriminate.
    + discriminate.
    + reflexivity.
    + simpl. right. left. reflexivity.
  - apply Hcase. reflexivity.
Defined.

(** C10 as stated fails on a name that is all leading dot and extension:
    [uploads/.PDF] ends in [.PDF] and is not accepted. *)
Lemma C10_counterexample :
  "uploads/.PDF" = "uploads/" +:+ ".PDF"
  /\ PyStr.lower ".PDF" = ".pdf"
  /\ selected_class "uploads/.PDF" = Raise (ValueError "Unsupported file type.")
  /\ load_resume Sample.externals "uploads/.PDF"
       {| fs := {["uploads/.PDF" := "Ada Lovelace"]}; trace := [] |}
     = (Raise (ValueError "Unsupported file type."),
        {| fs := {["uploads/.PDF" := "Ada Lovelace"]}; trace := [] |}).
Proof. repeat split; vm_compute; reflexivity. Qed.

(** A name that is all leading dots and extension has no extension for
    [splitext], in either case. *)
Example hidden_name_rejected :
  selected_class "uploads/.PDF" = Raise (ValueError "Unsupported file type.")
  /\ selected_class "uploads/.pdf" = Raise (ValueError "Unsupported file type.").
Proof. split; reflexivity. Qed.

(* ===================================================================== *)
(** ** Further properties of the request handler *)
(* ===================================================================== *)

(** X1: when every step made for a file succeeds (the upload can be saved,
    the loader returns text, the model answers, the cleaned answer parses to
    a value without ["error"], the template renders, the PDF bytes are
    produced and the output file can be written), the loop body returns the
    file's output path; the file system then holds the upload at its upload
    path and the PDF bytes at the output path, and the external calls were
    made in the order save, invoke, parse, render, write. *)
Theorem X1_kept_file_pipeline (X : Externals) (name contact : string)
    (file : FileStorage) (w : World) (text response html bytes : string)
    (v : json) :
  let path := upload_path file in
  let pdf := pdf_path_of (filename file) in
  let ws := {| fs := <[path := stream file]> (fs w);
               trace := EvSave path :: trace w |} in
  let wi := {| fs := fs ws; trace := EvInvoke text :: trace ws |} in
  let wj := {| fs := fs ws; trace := EvJsonLoads (clean response) :: trace wi |} in
  let wr := {| fs := fs ws; trace := EvRender name contact v :: trace wj |} in
  can_write X w path = true ->
  load_resume X path ws = (Ok text, ws) ->
  chain_invoke X ws text = Ok response ->
  json_loads X (clean response) = Ok v ->
  py_in "error" v = Ok false ->
  template_render X wj name contact v = Ok html ->
  write_pdf_bytes X wr html = Ok bytes ->
  can_write X wr pdf = true ->
  loop_body X name contact file w =
  (Ok (Some pdf),
   {| fs := <[pdf := bytes]> (<[path := stream file]> (fs w));
      trace := EvWritePdf pdf :: EvRender name contact v
               :: EvJsonLoads (clean response) :: EvInvoke text
               :: EvSave path :: trace w |}).
Proof.
  intros path pdf ws wi wj wr Hsave Hload Hresp Hok Hin Hhtml Hbytes Hout.
  assert (Hr : response_for X file w = (Ok response, wi)).
  { unfold response_for. fold (upload_path file). fold path.
    unfold bind, file_save, write_file. rewrite Hsave. fold ws. rewrite Hload.
    unfold invoke_chain. now rewrite Hresp. }
  rewrite (kept_file_body X name contact file w wi response v Hr Hok Hin).
  fold (clean response).
  change {| fs := fs wi; trace := EvJsonLoads (clean response) :: trace wi |}
    with wj.
  unfold generate_company_resume, bind, render. rewrite Hhtml.
  change {| fs := fs wj; trace := EvRender name contact v :: trace wj |}
    with wr.
  unfold write_pdf. rewrite Hbytes. fold pdf. unfold write_file.
  rewrite Hout. reflexivity.
Qed.

Lemma X1_witness :
  loop_body Sample.externals "Ada L." "ada@x.org"
    (mkFile "cv.pdf" Sample.fenced_ada) Sample.w0
  = (Ok (Some "output/cv_formatted.pdf"),
     {| fs := <["output/cv_formatted.pdf" :=
                 "%PDF-1.7 <h1>Ada L.</h1><p>ada@x.org</p><p>Ada</p>"]>
                (<["uploads/cv.pdf" := Sample.fenced_ada]> ∅);
        trace := [EvWritePdf "output/cv_formatted.pdf";
                  EvRender "Ada L." "ada@x.org" (JObject [("name", JString "Ada")]);
                  EvJsonLoads Sample.ada_json;
                  EvInvoke Sample.fenced_ada;
                  EvSave "uploads/cv.pdf"] |}).
Proof.
  apply (X1_kept_file_pipeline Sample.externals "Ada L." "ada@x.org"
           (mkFile "cv.pdf" Sample.fenced_ada) Sample.w0 Sample.fenced_ada
           Sample.fenced_ada
           "<h1>Ada L.</h1><p>ada@x.org</p><p>Ada</p>"
           "%PDF-1.7 <h1>Ada L.</h1><p>ada@x.org</p><p>Ada</p>"
           (JObject [("name", JString "Ada")]));
    vm_compute; reflexivity.
Defined.

(** X2: building the archive adds no failure of its own.  Every exception
    the handler ends with was raised inside the loop over the files, and
    the world is as the loop left it: every path the loop collected exists
    when the archive is written. *)
Theorem X2_packaging_never_fails (X : Externals) (request : Request)
    (w w' : World) (e : exn) :
  upload_resume X request w = (Raise e, w') ->
  for_files X (req_name request) (req_contact request)
    (getlist "resume" (req_files request)) [] w = (Raise e, w').
Proof.
  unfold upload_resume. fold (req_name request) (req_contact request).
  destruct (getlist "resume" (req_files request)) as [|f files] eqn:Hfiles;
    [discriminate|].
  unfold bind.
  destruct (for_files X _ _ (f :: files) [] w) as [[paths|e0] w1] eqn:Hloop.
  - assert (Hex : forall q, In q paths -> is_Some (fs w1 !! q)).
    { apply (for_files_exist X _ _ _ _ _ _ _ Hloop). intros q []. }
    destruct (zip_write_all_entries paths [] w1 Hex) as (zip & Hz & _).
    unfold create_zip, bind. rewrite Hz. discriminate.
  - intros [= -> ->]. reflexivity.
Qed.

Lemma X2_witness :
  for_files Sample.externals "Candidate" "example@email.com"
    [mkFile "cv.pdf" Sample.ada_json; mkFile "notes.txt" "hello"] []
    Sample.w0
  = (Raise (ValueError "Unsupported file type."),
     snd (upload_resume Sample.externals
            (mkRequest [Sample.upload "cv.pdf" Sample.ada_json;
                        Sample.upload "notes.txt" "hello"] []) Sample.w0)).
Proof.
  apply (X2_packaging_never_fails Sample.externals
           (mkRequest [Sample.upload "cv.pdf" Sample.ada_json;
                       Sample.upload "notes.txt" "hello"] []) Sample.w0).
  vm_compute. reflexivity.
Defined.

(** X3: a returned archive is an attachment named [Formatted_Resumes.zip]
    of type [application/zip]; its entries are those of a sub-list of the
    uploaded files, in upload order, so it never has more entries than
    there are files. *)
Theorem X3_archive_follows_upload_order (X : Externals) (request : Request)
    (w w' : World) (zip : list (string * string)) (a : bool) (dn mt : string) :
  upload_resume X request w = (Ok (SendFile zip a dn mt), w') ->
  a = true /\ dn = "Formatted_Resumes.zip" /\ mt = "application/zip"
  /\ exists kept,
       sublist kept (getlist "resume" (req_files request))
       /\ map fst zip = map entry_name kept
       /\ Forall2 (fun f e => fs w' !! pdf_path_of (filename f) = Some (snd e))
                  kept zip
       /\ (length zip <= length (getlist "resume" (req_files request)))%nat.
Proof.
  unfold upload_resume. fold (req_name request) (req_contact request).
  destruct (getlist "resume" (req_files request)) as [|f files];
    [discriminate|].
  intros H. apply bind_inv_ok in H as (paths & w1 & Hloop & Hzip).
  pose proof (create_zip_world _ _ _ _ Hzip) as ->.
  assert (Hattr : a = true /\ dn = "Formatted_Resumes.zip"
                  /\ mt = "application/zip").
  { unfold create_zip, bind, ret in Hzip.
    destruct (zip_write_all paths [] w1) as [[z|e] w2]; [|discriminate].
    now injection Hzip as _ <- <- <-. }
  destruct Hattr as (-> & -> & ->). repeat (split; [reflexivity|]).
  apply for_files_kept in Hloop as (kept & Hsub & ->). simpl app in Hzip.
  apply create_zip_inv in Hzip. exists kept.
  split; [exact Hsub|].
  split; [rewrite (entry_names _ _ _ Hzip); apply entry_names_of_paths|].
  split.
  - clear Hsub. revert zip Hzip.
    induction kept as [|g kept IH]; intros zip Hzip; inversion Hzip; subst;
      constructor; [|now apply IH].
    match goal with H : entry_of _ _ _ |- _ => now destruct H end.
  - apply sublist_length in Hsub.
    apply Forall2_length in Hzip. rewrite length_map in Hzip. lia.
Qed.

Lemma X3_witness :
  exists kept,
    sublist kept (getlist "resume" (req_files Sample.good_between))
    /\ map fst [("cv_formatted.pdf",
                 "%PDF-1.7 <h1>Candidate</h1><p>example@email.com</p><p>Ada</p>");
                ("b_formatted.pdf",
                 "%PDF-1.7 <h1>Candidate</h1><p>example@email.com</p><p>Bob</p>")]
       = map entry_name kept.
Proof.
  destruct (X3_archive_follows_upload_order Sample.externals
              Sample.good_between Sample.w0
              (snd (upload_resume Sample.externals Sample.good_between Sample.w0))
              [("cv_formatted.pdf",
                "%PDF-1.7 <h1>Candidate</h1><p>example@email.com</p><p>Ada</p>");
               ("b_formatted.pdf",
                "%PDF-1.7 <h1>Candidate</h1><p>example@email.com</p><p>Bob</p>")]
              true "Formatted_Resumes.zip" "application/zip")
    as (_ & _ & _ & kept & Hsub & Hnames & _).
  - vm_compute. reflexivity.
  - exists kept. split; [exact Hsub | exact Hnames].
Defined.

(** X4: an exception raised while a file is processed ends the request with
    that exception, whatever it is.  The world is the one at the point of
    the failure, so the files after it are neither saved nor sent to the
    model; the PDFs written for the files before it stay on disk, and no
    archive is returned for them. *)
Theorem X4_exception_aborts_request (X : Externals) (request : Request)
    (pre post : list FileStorage) (file : FileStorage) (w w1 w2 : World)
    (acc1 : list string) (e : exn) :
  getlist "resume" (req_files request) = pre ++ file :: post ->
  for_files X (req_name request) (req_contact request) pre [] w = (Ok acc1, w1) ->
  loop_body X (req_name request) (req_contact request) file w1 = (Raise e, w2) ->
  upload_resume X request w = (Raise e, w2)
  /\ (forall q, In q acc1 -> is_Some (fs w2 !! q)).
Proof.
  intros Hfiles Hpre Hbody. split.
  - rewrite (upload_resume_nonempty _ _ _ _ _ _ Hfiles).
    apply bind_raise. rewrite for_files_app, (bind_ok _ _ _ _ _ Hpre).
    simpl. now apply bind_raise.
  - intros q Hq.
    apply (preserves_loop_body X _ _ file _ _ _ Hbody).
    apply (for_files_exist X _ _ _ _ _ _ _ Hpre); [intros q' []|exact Hq].
Qed.

Lemma X4_witness :
  upload_resume Sample.externals
    (mkRequest [Sample.upload "cv.pdf" Sample.ada_json;
                Sample.upload "n.pdf" "42";
                Sample.upload "b.pdf" Sample.bob_json] []) Sample.w0
  = (Raise (TypeError "argument is not iterable"),
     snd (loop_body Sample.externals "Candidate" "example@email.com"
            (mkFile "n.pdf" "42")
            (snd (loop_body Sample.externals "Candidate" "example@email.com"
                    (mkFile "cv.pdf" Sample.ada_json) Sample.w0))))
  /\ (forall q, In q ["output/cv_formatted.pdf"] ->
        is_Some (fs (snd (loop_body Sample.externals "Candidate"
                            "example@email.com" (mkFile "n.pdf" "42")
                            (snd (loop_body Sample.externals "Candidate"
                                    "example@email.com"
                                    (mkFile "cv.pdf" Sample.ada_json)
                                    Sample.w0)))) !! q)).
Proof.
  apply (X4_exception_aborts_request Sample.externals
           (mkRequest [Sample.upload "cv.pdf" Sample.ada_json;
                       Sample.upload "n.pdf" "42";
                       Sample.upload "b.pdf" Sample.bob_json] [])
           [mkFile "cv.pdf" Sample.ada_json] [mkFile "b.pdf" Sample.bob_json]
           (mkFile "n.pdf" "42") Sample.w0
           (snd (loop_body Sample.externals "Candidate" "example@email.com"
                   (mkFile "cv.pdf" Sample.ada_json) Sample.w0))).
  - reflexivity.
  - vm_compute. reflexivity.
  - vm_compute. reflexivity.
Defined.

Lemma request_aborts (X : Externals) (request : Request)
    (pre post : list FileStorage) (file : FileStorage) (w w1 w2 : World)
    (acc1 : list string) (e : exn) :
  getlist "resume" (req_files request) = pre ++ file :: post ->
  for_files X (req_name request) (req_contact request) pre [] w = (Ok acc1, w1) ->
  loop_body X (req_name request) (req_contact request) file w1 = (Raise e, w2) ->
  upload_resume X request w = (Raise e, w2).
Proof.
  intros Hfiles Hpre Hbody.
  rewrite (upload_resume_nonempty _ _ _ _ _ _ Hfiles).
  apply bind_raise. rewrite for_files_app, (bind_ok _ _ _ _ _ Hpre).
  simpl. now apply bind_raise.
Qed.

(** X5: a response that parses to a number, a boolean or [null] is valid
    JSON but no container, so the test ["error" in resume_json] itself
    raises [TypeError]; nothing catches it, and the request ends with it
    after the upload was saved and the model invoked, without a PDF for the
    file. *)
Theorem X5_scalar_json_raises_type_error (X : Externals) (request : Request)
    (pre post : list FileStorage) (file : FileStorage) (w w1 w2 : World)
    (acc1 : list string) (response : string) (v : json) :
  getlist "resume" (req_files request) = pre ++ file :: post ->
  for_files X (req_name request) (req_contact request) pre [] w = (Ok acc1, w1) ->
  response_for X file w1 = (Ok response, w2) ->
  json_loads X (clean response) = Ok v ->
  is_scalar v = true ->
  upload_resume X request w =
  (Raise (TypeError "argument is not iterable"),
   {| fs := <[upload_path file := stream file]> (fs w1);
      trace := EvJsonLoads (clean response) :: trace w2 |}).
Proof.
  intros Hfiles Hpre Hresp Hok Hv.
  destruct (response_for_inv X _ _ _ _ Hresp) as (text & Hfs & _).
  fold (upload_path file) in Hfs. rewrite <- Hfs.
  apply (request_aborts X request pre post file w w1 _ acc1 _ Hfiles Hpre).
  rewrite loop_body_unfold, (bind_ok _ _ _ _ _ Hresp).
  unfold parse_response, bind, emit, ret, lift. fold (clean response).
  rewrite Hok. destruct v; try discriminate Hv; reflexivity.
Qed.

Lemma X5_witness :
  upload_resume Sample.externals
    (mkRequest [Sample.upload "n.pdf" "null"] []) Sample.w0
  = (Raise (TypeError "argument is not iterable"),
     {| fs := <[upload_path (mkFile "n.pdf" "null") := "null"]> ∅;
        trace := [EvJsonLoads "null"; EvInvoke "null"; EvSave "uploads/n.pdf"] |}).
Proof.
  apply (X5_scalar_json_raises_type_error Sample.externals
           (mkRequest [Sample.upload "n.pdf" "null"] []) [] []
           (mkFile "n.pdf" "null") Sample.w0 Sample.w0
           {| fs := <["uploads/n.pdf" := "null"]> ∅;
              trace := [EvInvoke "null"; EvSave "uploads/n.pdf"] |}
           [] "null" JNull); vm_compute; reflexivity.
Defined.

Lemma existsb_is_str (key : string) (items : list json) :
  In (JString key) items -> existsb (is_str key) items = true.
Proof.
  intros H. apply existsb_exists. exists (JString key).
  split; [exact H | apply String.eqb_refl].
Qed.

(** X6: the test ["error" in resume_json] is Python's [in].  A response that
    parses to a string in which [error] occurs anywhere, or to a list that
    has the string ["error"] as an element, is skipped like an object with
    that key: [continue] without an exception, and the handler's answer is
    that of the remaining files. *)
Theorem X6_error_in_text_or_list_is_skipped (X : Externals) (request : Request)
    (pre post : list FileStorage) (file : FileStorage) (w w1 w2 : World)
    (acc1 : list string) (response : string) (v : json) :
  getlist "resume" (req_files request) = pre ++ file :: post ->
  for_files X (req_name request) (req_contact request) pre [] w = (Ok acc1, w1) ->
  response_for X file w1 = (Ok response, w2) ->
  json_loads X (clean response) = Ok v ->
  (exists s, v = JString s /\ PyStr.contains "error" s = true)
  \/ (exists items, v = JArray items /\ In (JString "error") items) ->
  let w3 := {| fs := fs w2;
               trace := EvJsonLoads (clean response) :: trace w2 |} in
  loop_body X (req_name request) (req_contact request) file w1 = (Ok None, w3)
  /\ upload_resume X request w =
     bind (for_files X (req_name request) (req_contact request) post acc1)
          create_zip w3.
Proof.
  intros Hfiles Hpre Hresp Hok Hv w3.
  destruct (skipped_file X request pre post file w w1 w2 w3 acc1 response v)
    as (Hbody & _ & Hup & _); auto.
  - unfold parse_response, bind, emit, ret. fold (clean response).
    now rewrite Hok.
  - destruct Hv as [(s & -> & Hs) | (items & -> & Hi)]; simpl.
    + now rewrite Hs.
    + now rewrite existsb_is_str.
Qed.

Lemma X6_witness :
  fst (upload_resume Sample.externals
         (mkRequest [Sample.upload "cv.pdf"
                       (Sample.DQ +:+ "no errors found" +:+ Sample.DQ);
                     Sample.upload "b.pdf" Sample.bob_json] []) Sample.w0)
  = Ok (SendFile
          [("b_formatted.pdf",
            "%PDF-1.7 <h1>Candidate</h1><p>example@email.com</p><p>Bob</p>")]
          true "Formatted_Resumes.zip" "application/zip").
Proof.
  destruct (X6_error_in_text_or_list_is_skipped Sample.externals
              (mkRequest [Sample.upload "cv.pdf"
                            (Sample.DQ +:+ "no errors found" +:+ Sample.DQ);
                          Sample.upload "b.pdf" Sample.bob_json] [])
              [] [mkFile "b.pdf" Sample.bob_json]
              (mkFile "cv.pdf" (Sample.DQ +:+ "no errors found" +:+ Sample.DQ))
              Sample.w0 Sample.w0
              (snd (response_for Sample.externals
                      (mkFile "cv.pdf"
                         (Sample.DQ +:+ "no errors found" +:+ Sample.DQ))
                      Sample.w0))
              [] (Sample.DQ +:+ "no errors found" +:+ Sample.DQ)
              (JString "no errors found")) as [_ Hup].
  - reflexivity.
  - reflexivity.
  - vm_compute. reflexivity.
  - vm_compute. reflexivity.
  - left. exists "no errors found". split; reflexivity.
  - rewrite Hup. vm_compute. reflexivity.
Defined.

(* ===================================================================== *)
(** ** Further properties of the paths *)
(* ===================================================================== *)

Section MorePathFacts.

Import PyStr posixpath.

#[local] Arguments String.append !s1 s2 : simpl nomatch.

Lemma rfind_startswith (c : ascii) (s : string) :
  startswith c s = true -> 0 <= rfind c s.
Proof.
  destruct s as [|a s]; [discriminate|]. simpl. intros ->.
  pose proof (rfind_ge c s). destruct (0 <=? rfind c s) eqn:E; lia.
Qed.

Lemma take_startswith (c : ascii) (n : nat) (s : string) :
  startswith c s = false -> startswith c (take n s) = false.
Proof. destruct n, s; simpl; auto. Qed.

(** The stem of a file name is absolute exactly when the name is. *)
Lemma stem_startswith (f : string) :
  startswith sep (fst (splitext f)) = startswith sep f.
Proof.
  unfold splitext.
  destruct (rfind sep f <? rfind extsep f) eqn:E; [|reflexivity].
  destruct (skip_leading_dots _ _ _); [|reflexivity]. simpl fst.
  apply Z.ltb_lt in E.
  destruct (startswith sep f) eqn:Es; [|now apply take_startswith].
  pose proof (rfind_startswith _ _ Es) as H0.
  destruct (Z.to_nat (rfind extsep f)) as [|k] eqn:Ek; [lia|].
  destruct f as [|a f]; [discriminate|]. exact Es.
Qed.

End MorePathFacts.

Section BasenameFacts.

Import PyStr posixpath.

#[local] Arguments String.append !s1 s2 : simpl nomatch.

(** What [basename] returns holds no separator. *)
Lemma rfind_drop_after (c : ascii) (s : string) :
  rfind c (drop (Z.to_nat (rfind c s + 1)) s) = -1.
Proof.
  induction s as [|a s IH]; [reflexivity|].
  pose proof (rfind_ge c s) as Hge. simpl rfind.
  destruct (0 <=? rfind c s) eqn:E.
  - apply Z.leb_le in E.
    replace (Z.to_nat (rfind c s + 1 + 1)) with (S (Z.to_nat (rfind c s + 1)))
      by lia.
    exact IH.
  - apply Z.leb_gt in E. assert (Hn : rfind c s = -1) by lia.
    destruct (Ascii.eqb a c) eqn:Ea; simpl; [exact Hn|].
    rewrite Hn. simpl. now rewrite Ea.
Qed.

Lemma drop_app_le (n : nat) (x y : string) :
  (n <= String.length x)%nat -> drop n (x +:+ y) = drop n x +:+ y.
Proof.
  revert x. induction n as [|n IH]; intros [|a x] H; simpl in *;
    try reflexivity; try lia.
  apply IH. lia.
Qed.

Lemma basename_app_suffix (x suffix : string) :
  no_sep suffix -> basename (x +:+ suffix) = basename x +:+ suffix.
Proof.
  intros H. unfold basename. rewrite (rfind_app_none sep x suffix H).
  apply drop_app_le. pose proof (rfind_lt sep x). pose proof (rfind_ge sep x).
  lia.
Qed.

Lemma basename_in_dir (d s : string) :
  basename (d +:+ String sep s) = basename s.
Proof.
  unfold basename. pose proof (rfind_ge sep s) as Hge.
  destruct (Z.eq_dec (rfind sep s) (-1)) as [Hn|Hn].
  - rewrite (rfind_app_char sep d s Hn), Hn. simpl drop.
    replace (Z.to_nat (Z.of_nat (String.length d) + 1))
      with (String.length (d +:+ String sep EmptyString))
      by (rewrite length_append; simpl; lia).
    change (d +:+ String sep s) with (d +:+ (String sep EmptyString +:+ s)).
    rewrite <- append_assoc. apply drop_app_length.
  - change (d +:+ String sep s) with (d +:+ (String sep EmptyString +:+ s)).
    rewrite <- append_assoc.
    rewrite (rfind_app_other sep (d +:+ String sep EmptyString) s) by lia.
    replace (Z.to_nat (Z.of_nat (String.length (d +:+ String sep EmptyString))
                       + rfind sep s + 1))
      with (String.length (d +:+ String sep EmptyString)
            + Z.to_nat (rfind sep s + 1))%nat by lia.
    generalize (Z.to_nat (rfind sep s + 1)) as n.
    generalize (d +:+ String sep EmptyString) as a. clear.
    induction a as [|x a IH]; intros n; [reflexivity | exact (IH n)].
Qed.

End BasenameFacts.

(** X7: the path a file is written to depends on whether the client's file
    name starts with [/].  For a name that does not, the upload is saved at
    [uploads/<name>] and the PDF is written at
    [output/<stem>_formatted.pdf]; for a name that does, [os.path.join]
    drops the folder: the upload is saved at the name as sent and the PDF
    is written at [<stem>_formatted.pdf], which starts with [/] as well, so
    the client's name alone decides the directory. *)
Theorem X7_absolute_names_drop_the_folder (file : FileStorage) :
  (PyStr.startswith posixpath.sep (filename file) = false ->
   upload_path file = "uploads/" +:+ filename file
   /\ pdf_path_of (filename file) =
      "output/" +:+ fst (posixpath.splitext (filename file)) +:+ "_formatted.pdf")
  /\ (PyStr.startswith posixpath.sep (filename file) = true ->
      upload_path file = filename file
      /\ pdf_path_of (filename file) =
         fst (posixpath.splitext (filename file)) +:+ "_formatted.pdf"
      /\ PyStr.startswith posixpath.sep (pdf_path_of (filename file)) = true).
Proof.
  split; intros H.
  - split.
    + unfold upload_path. now rewrite join_uploads, H.
    + apply pdf_path_of_relative. now rewrite stem_startswith.
  - assert (Hp : pdf_path_of (filename file) =
                 fst (posixpath.splitext (filename file)) +:+ "_formatted.pdf").
    { unfold pdf_path_of. rewrite join_output.
      pose proof (stem_startswith (filename file)) as Hs. rewrite H in Hs.
      destruct (fst (posixpath.splitext (filename file))) as [|a s];
        [discriminate|].
      simpl in Hs |- *. now rewrite Hs. }
    split; [unfold upload_path; now rewrite join_uploads, H|].
    split; [exact Hp|]. rewrite Hp.
    pose proof (stem_startswith (filename file)) as Hs. rewrite H in Hs.
    destruct (fst (posixpath.splitext (filename file))) as [|a s];
      [discriminate | exact Hs].
Qed.

Lemma X7_witness :
  (upload_path (mkFile "cv.pdf" "x") = "uploads/cv.pdf"
   /\ pdf_path_of "cv.pdf" = "output/cv_formatted.pdf")
  /\ (upload_path (mkFile "/srv/www/cv.pdf" "x") = "/srv/www/cv.pdf"
      /\ pdf_path_of "/srv/www/cv.pdf" = "/srv/www/cv_formatted.pdf"
      /\ PyStr.startswith posixpath.sep (pdf_path_of "/srv/www/cv.pdf") = true).
Proof.
  split.
  - apply (X7_absolute_names_drop_the_folder (mkFile "cv.pdf" "x")).
    reflexivity.
  - apply (X7_absolute_names_drop_the_folder (mkFile "/srv/www/cv.pdf" "x")).
    reflexivity.
Defined.

(** X8: whatever the uploaded file name, the name of its archive entry has
    no directory part: it holds no separator and is the base name of the
    stem followed by [_formatted.pdf]. *)
Theorem X8_entry_names_are_flat (file : FileStorage) :
  no_sep (entry_name file)
  /\ entry_name file =
     posixpath.basename (fst (posixpath.splitext (filename file)))
     +:+ "_formatted.pdf".
Proof.
  split; [apply rfind_drop_after|].
  unfold entry_name, pdf_path_of. rewrite join_output.
  destruct (PyStr.startswith _ _).
  - now apply basename_app_suffix.
  - change ("output/" +:+ fst (posixpath.splitext (filename file))
            +:+ "_formatted.pdf")
      with ("output" +:+ String posixpath.sep
              (fst (posixpath.splitext (filename file)) +:+ "_formatted.pdf")).
    rewrite basename_in_dir. now apply basename_app_suffix.
Qed.

Example entry_name_of_nested :
  entry_name (mkFile "../../etc/cv.v2.pdf" "x") = "cv.v2_formatted.pdf".
Proof. reflexivity. Qed.

(* ===================================================================== *)
(** ** Further properties of the response sanitizer *)
(* ===================================================================== *)

Section CleanFacts.

Import PyStr.

#[local] Arguments String.append !s1 s2 : simpl nomatch.

Lemma lstrip_head (s : string) :
  lstrip s = EmptyString
  \/ exists c r, lstrip s = String c r /\ is_space c = false.
Proof.
  induction s as [|c s IH]; [now left|]. simpl.
  destruct (is_space c) eqn:E; [exact IH|]. right. now exists c, s.
Qed.

Lemma rstrip_head (c : ascii) (s : string) :
  is_space c = false -> exists r, rstrip (String c s) = String c r.
Proof.
  intros H. simpl. destruct (rstrip s) as [|a r].
  - rewrite H. now exists EmptyString.
  - now exists (String a r).
Qed.

Lemma rstrip_idem (s : string) : rstrip (rstrip s) = rstrip s.
Proof.
  induction s as [|c s IH]; [reflexivity|]. simpl.
  destruct (rstrip s) as [|a r] eqn:E.
  - destruct (is_space c) eqn:Ec; [reflexivity|]. simpl. now rewrite Ec.
  - change (rstrip (String c (String a r)))
      with (match rstrip (String a r) with
            | EmptyString =>
                if is_space c then EmptyString else String c EmptyString
            | r' => String c r'
            end).
    now rewrite IH.
Qed.

Lemma strip_idem (s : string) : strip (strip s) = strip s.
Proof.
  unfold strip. destruct (lstrip_head s) as [-> | (c & r & -> & Hc)];
    [reflexivity|].
  destruct (rstrip_head c r Hc) as (r' & Hr). rewrite Hr.
  simpl lstrip. rewrite Hc. rewrite <- Hr. apply rstrip_idem.
Qed.

(** Text without a backtick, closed by a fence, loses just the fence. *)
Lemma re_sub_fences_closing (body : string) :
  rfind "`"%char body = -1 ->
  re_sub_fences_from 0 (body +:+ "```") = body.
Proof.
  induction body as [|c body IH]; intros H; [reflexivity|].
  apply rfind_none_cons in H as [Hc H].
  change (String c body +:+ "```") with (String c (body +:+ "```")).
  change (re_sub_fences_from 0 (String c (body +:+ "```"))) with
    (if String.prefix "```json" (String c (body +:+ "```"))
     then re_sub_fences_from 6 (body +:+ "```")
     else if String.prefix "```" (String c (body +:+ "```"))
          then re_sub_fences_from 2 (body +:+ "```")
          else String c (re_sub_fences_from 0 (body +:+ "```"))).
  rewrite !prefix_cons.
  assert (Ec : Ascii.eqb c "`" = false) by now apply Ascii.eqb_neq.
  rewrite Ec. simpl. now rewrite IH.
Qed.

Lemma prefix_json_app (body : string) :
  rfind "`"%char body = -1 ->
  String.prefix "json" body = false ->
  String.prefix "json" (body +:+ "```") = false.
Proof.
  intros Hb H.
  destruct body as [|a [|b [|c [|d body]]]];
    repeat match goal with
           | H : rfind _ (String _ _) = -1 |- _ =>
               apply rfind_none_cons in H as [? H]
           end;
    simpl String.append; rewrite ?prefix_cons, ?prefix_nil in *;
    try reflexivity; try exact H;
    repeat match goal with
           | |- context [Ascii.eqb ?x ?y] => destruct (Ascii.eqb x y)
           end; reflexivity.
Qed.

End CleanFacts.

(** X9: cleaning a response is idempotent: the cleaned text has no fence
    left to remove and no white space left at its ends, so cleaning it
    again changes nothing. *)
Theorem X9_clean_is_idempotent (response : string) :
  clean (clean response) = clean response.
Proof.
  unfold clean at 1.
  rewrite (re_sub_fences_id (clean response)) by apply cleaned_no_fence.
  unfold clean. apply strip_idem.
Qed.

Lemma re_sub_fences_from_cons (c : ascii) (s : string) :
  re_sub_fences_from 0 (String c s) =
  if String.prefix "```json" (String c s) then re_sub_fences_from 6 s
  else if String.prefix "```" (String c s) then re_sub_fences_from 2 s
       else String c (re_sub_fences_from 0 s).
Proof. reflexivity. Qed.

(** X10: a response wrapped in a code fence is unwrapped.  For a body
    without backticks, [```json body ```] is cleaned to the stripped body,
    and so is [``` body ```] when the body does not itself start with
    [json]. *)
Theorem X10_fenced_body_is_unwrapped (body : string) :
  PyStr.rfind "`"%char body = -1 ->
  clean ("```json" +:+ body +:+ "```") = PyStr.strip body
  /\ (String.prefix "json" body = false ->
      clean ("```" +:+ body +:+ "```") = PyStr.strip body).
Proof.
  intros Hb. unfold clean, re_sub_fences. split.
  - change ("```json" +:+ body +:+ "```")
      with (String "`" ("``json" +:+ body +:+ "```")).
    rewrite re_sub_fences_from_cons.
    change (String "`" ("``json" +:+ body +:+ "```"))
      with (String "`" (String "`" (String "`" (String "j" (String "s"
              (String "o" (String "n" (body +:+ "```")))))))).
    rewrite !prefix_cons, prefix_nil. simpl andb. cbv iota.
    change (re_sub_fences_from 6 ("``json" +:+ body +:+ "```"))
      with (re_sub_fences_from 0 (body +:+ "```")).
    now rewrite re_sub_fences_closing.
  - intros Hj.
    change ("```" +:+ body +:+ "```")
      with (String "`" (String "`" (String "`" (body +:+ "```")))).
    rewrite re_sub_fences_from_cons.
    rewrite !prefix_cons, prefix_nil. simpl andb.
    rewrite (prefix_json_app body Hb Hj). cbv iota.
    change (re_sub_fences_from 2 (String "`" (String "`" (body +:+ "```"))))
      with (re_sub_fences_from 0 (body +:+ "```")).
    now rewrite re_sub_fences_closing.
Qed.

Lemma X10_witness :
  clean ("```json" +:+ (NL +:+ Sample.ada_json +:+ NL) +:+ "```")
  = PyStr.strip (NL +:+ Sample.ada_json +:+ NL)
  /\ clean ("```" +:+ (NL +:+ Sample.ada_json +:+ NL) +:+ "```")
     = PyStr.strip (NL +:+ Sample.ada_json +:+ NL).
Proof.
  destruct (X10_fenced_body_is_unwrapped (NL +:+ Sample.ada_json +:+ NL))
    as [H1 H2].
  - reflexivity.
  - split; [exact H1 | apply H2; reflexivity].
Defined.

(* ===================================================================== *)
(** ** Further properties of the form fields and of the file system *)
(* ===================================================================== *)

(** X11: a [name] or [contact] field that was sent is used as sent, an
    empty value included: every render of the request receives the first
    value of the field, and the default is not substituted. *)
Theorem X11_sent_fields_are_used_as_sent (X : Externals) (request : Request)
    (w w' : World) (r : result Response) :
  upload_resume X request w = (r, w') ->
  exists evs,
    added w w' evs
    /\ (forall v rest, getlist "name" (req_form request) = v :: rest ->
        forall n c d, In (EvRender n c d) evs -> n = v)
    /\ (forall v rest, getlist "contact" (req_form request) = v :: rest ->
        forall n c d, In (EvRender n c d) evs -> c = v).
Proof.
  intros H. apply preserves_upload_resume in H as [_ (evs & Ha & Hall)].
  exists evs. split; [exact Ha|].
  rewrite List.Forall_forall in Hall.
  split; intros v rest Hv n c d Hin; apply Hall in Hin as [Hn Hc]; simpl in *.
  - rewrite Hn. unfold req_name, form_get. now rewrite Hv.
  - rewrite Hc. unfold req_contact, form_get. now rewrite Hv.
Qed.

Lemma X11_witness :
  exists evs,
    added Sample.w0
      (snd (upload_resume Sample.externals
              (mkRequest [Sample.upload "cv.pdf" Sample.ada_json]
                         [("name", ""); ("name", "Ada")]) Sample.w0)) evs
    /\ In (EvRender "" "example@email.com" (JObject [("name", JString "Ada")])) evs
    /\ (forall n c d, In (EvRender n c d) evs -> n = "").
Proof.
  destruct (X11_sent_fields_are_used_as_sent Sample.externals
              (mkRequest [Sample.upload "cv.pdf" Sample.ada_json]
                         [("name", ""); ("name", "Ada")]) Sample.w0
              (snd (upload_resume Sample.externals
                      (mkRequest [Sample.upload "cv.pdf" Sample.ada_json]
                                 [("name", ""); ("name", "Ada")]) Sample.w0))
              (fst (upload_resume Sample.externals
                      (mkRequest [Sample.upload "cv.pdf" Sample.ada_json]
                                 [("name", ""); ("name", "Ada")]) Sample.w0)))
    as (evs & Ha & Hname & _).
  - now destruct (upload_resume _ _ _).
  - exists evs. split; [exact Ha|]. split.
    + unfold added in Ha.
      change (trace Sample.w0) with (@nil Event) in Ha.
      rewrite app_nil_r in Ha. rewrite <- Ha.
      vm_compute. right. left. reflexivity.
    + apply (Hname "" ["Ada"]). reflexivity.
Defined.

Section DiskFacts.

Variable X : Externals.

Import PyStr posixpath.

#[local] Arguments String.append !s1 s2 : simpl nomatch.

Lemma drop_at_rfind (c : ascii) (s : string) :
  0 <= rfind c s -> startswith c (drop (Z.to_nat (rfind c s)) s) = true.
Proof.
  induction s as [|a s IH]; simpl rfind; [lia|].
  pose proof (rfind_ge c s) as Hge.
  destruct (0 <=? rfind c s) eqn:E.
  - apply Z.leb_le in E. intros _.
    replace (Z.to_nat (rfind c s + 1)) with (S (Z.to_nat (rfind c s))) by lia.
    simpl. now apply IH.
  - destruct (Ascii.eqb a c) eqn:Ea; [|lia]. intros _. simpl. exact Ea.
Qed.

(** An extension found by [splitext] starts with the dot. *)
Lemma splitext_ext_dot (p : string) :
  snd (splitext p) = EmptyString
  \/ startswith extsep (snd (splitext p)) = true.
Proof.
  unfold splitext.
  destruct (rfind sep p <? rfind extsep p) eqn:E; [|now left].
  destruct (skip_leading_dots _ _ _); [|now left].
  right. simpl. apply drop_at_rfind.
  apply Z.ltb_lt in E. pose proof (rfind_ge sep p). lia.
Qed.

Lemma pdf_path_of_absolute (f : string) :
  startswith sep f = true ->
  pdf_path_of f = fst (splitext f) +:+ "_formatted.pdf".
Proof.
  intros H. unfold pdf_path_of. rewrite join_output.
  pose proof (stem_startswith f) as Hs. rewrite H in Hs.
  destruct (fst (splitext f)) as [|a s]; [discriminate|].
  simpl in Hs |- *. now rewrite Hs.
Qed.

(** A file's upload path and its output path are never the same path. *)
Lemma upload_path_not_pdf_path (file : FileStorage) :
  upload_path file <> pdf_path_of (filename file).
Proof.
  unfold upload_path. rewrite join_uploads.
  destruct (startswith sep (filename file)) eqn:Ef.
  - rewrite (pdf_path_of_absolute _ Ef).
    rewrite <- (splitext_app (filename file)) at 1.
    intros H. apply append_inj_r in H.
    destruct (splitext_ext_dot (filename file)) as [He|He];
      rewrite H in He; discriminate He.
  - rewrite pdf_path_of_relative by (now rewrite stem_startswith).
    discriminate.
Qed.

End DiskFacts.

Section Frame.

Variable X : Externals.

Lemma writes_only_ret {A} (S : string -> Prop) (a : A) : writes_only S (ret a).
Proof. intros w r w' q [= _ <-] _. reflexivity. Qed.

Lemma writes_only_raise {A} (S : string -> Prop) (e : exn) :
  writes_only S (@raise A e).
Proof. intros w r w' q [= _ <-] _. reflexivity. Qed.

Lemma writes_only_lift {A} (S : string -> Prop) (r : result A) :
  writes_only S (lift r).
Proof. intros w r' w' q [= _ <-] _. reflexivity. Qed.

Lemma writes_only_emit (S : string -> Prop) (e : Event) :
  writes_only S (emit e).
Proof. intros w r w' q [= _ <-] _. reflexivity. Qed.

Lemma writes_only_bind {A B} (S : string -> Prop) (m : M A) (k : A -> M B) :
  writes_only S m -> (forall a, writes_only S (k a)) ->
  writes_only S (bind m k).
Proof.
  intros Hm Hk w r w' q. unfold bind.
  destruct (m w) as [[a|e] w1] eqn:E.
  - intros H Hq. rewrite (Hk a _ _ _ _ H Hq). now apply (Hm _ _ _ _ E).
  - intros [= _ <-] Hq. now apply (Hm _ _ _ _ E).
Qed.

Lemma writes_only_weaken {A} (S S' : string -> Prop) (m : M A) :
  (forall q, S q -> S' q) -> writes_only S m -> writes_only S' m.
Proof. intros Hs Hm w r w' q H Hq. apply (Hm _ _ _ _ H). auto. Qed.

Lemma writes_only_write_file (S : string -> Prop) (path data : string)
    (e : Event) :
  S path -> writes_only S (write_file X path data e).
Proof.
  intros Hp w r w' q. unfold write_file.
  destruct (can_write X w path); intros [= _ <-] Hq; [|reflexivity].
  simpl. apply lookup_insert_ne. intros ->. contradiction.
Qed.

Lemma writes_only_load_resume (S : string -> Prop) (path : string) :
  writes_only S (load_resume X path).
Proof. intros w r w' q H _. now apply load_resume_world in H as ->. Qed.

Lemma writes_only_convert_to_json (S : string -> Prop) (text : string) :
  writes_only S (convert_to_json X text).
Proof.
  unfold convert_to_json. apply writes_only_bind.
  - intros w r w' q. unfold invoke_chain.
    destruct (chain_invoke X w text); now intros [= _ <-] _.
  - intros response. apply writes_only_bind; [apply writes_only_emit|].
    intros _. destruct (json_loads X _) as [v|e]; [apply writes_only_ret|].
    destruct e; try apply writes_only_raise.
    apply writes_only_bind; [apply writes_only_emit|].
    intros; apply writes_only_ret.
Qed.

Lemma writes_only_generate (S : string -> Prop) (data : json)
    (name contact fname : string) :
  S (pdf_path_of fname) ->
  writes_only S (generate_company_resume X data name contact fname).
Proof.
  intros Hp. unfold generate_company_resume. apply writes_only_bind.
  - intros w r w' q. unfold render.
    destruct (template_render X w name contact data); now intros [= _ <-] _.
  - intros html. apply writes_only_bind; [|intros; apply writes_only_ret].
    intros w r w' q. unfold write_pdf.
    destruct (write_pdf_bytes X w html); [|now intros [= _ <-] _].
    now apply writes_only_write_file.
Qed.

Lemma writes_only_loop_body (S : string -> Prop) (name contact : string)
    (file : FileStorage) :
  S (upload_path file) -> S (pdf_path_of (filename file)) ->
  writes_only S (loop_body X name contact file).
Proof.
  intros Hu Hp. unfold loop_body.
  apply writes_only_bind; [now apply writes_only_write_file|]. intros _.
  apply writes_only_bind; [apply writes_only_load_resume|]. intros text.
  apply writes_only_bind; [apply writes_only_convert_to_json|]. intros v.
  apply writes_only_bind; [apply writes_only_lift|]. intros [|].
  - apply writes_only_ret.
  - apply writes_only_bind; [now apply writes_only_generate|].
    intros; apply writes_only_ret.
Qed.

Lemma writes_only_for_files (S : string -> Prop) (name contact : string)
    (files : list FileStorage) (acc : list string) :
  (forall q, touched files q -> S q) ->
  writes_only S (for_files X name contact files acc).
Proof.
  revert acc. induction files as [|f files IH]; intros acc Hs; simpl.
  - apply writes_only_ret.
  - apply writes_only_bind.
    + apply writes_only_loop_body; apply Hs; exists f;
        (split; [now left|]); [now left | now right].
    + intros r.
      assert (Hs' : forall q, touched files q -> S q).
      { intros q (g & Hg & Hq). apply Hs. exists g. split; [now right | exact Hq]. }
      destruct r; now apply IH.
Qed.

(** The upload of a file is on disk, byte for byte, once the loop body has
    processed the file. *)
Lemma loop_body_keeps_upload (name contact : string) (file : FileStorage)
    (w w' : World) (r : option string) :
  loop_body X name contact file w = (Ok r, w') ->
  fs w' !! upload_path file = Some (stream file).
Proof.
  unfold loop_body. fold (upload_path file). intros H.
  apply bind_inv_ok in H as ([] & w1 & Hs & H).
  apply write_file_inv in Hs as [_ ->].
  apply bind_inv_ok in H as (text & w2 & Hl & H).
  apply load_resume_world in Hl as ->.
  apply bind_inv_ok in H as (v & w3 & Hc & H).
  pose proof (writes_only_convert_to_json (fun _ => False) text _ _ _
                (upload_path file) Hc (fun F => F)) as Hfs3.
  apply bind_inv_ok in H as (b & w4 & Hb & H). injection Hb as _ <-.
  destruct b.
  - injection H as _ <-. rewrite Hfs3. simpl. apply lookup_insert_eq.
  - apply bind_inv_ok in H as (p & w5 & Hg & H). injection H as _ <-.
    apply generate_inv in Hg as (_ & html & bytes & _ & _ & ->). simpl.
    rewrite lookup_insert_ne by (apply not_eq_sym, upload_path_not_pdf_path).
    rewrite Hfs3. simpl. apply lookup_insert_eq.
Qed.

Lemma for_files_keeps_uploads (name contact : string)
    (files : list FileStorage) (acc acc' : list string) (w w' : World) :
  for_files X name contact files acc w = (Ok acc', w') ->
  forall f, In f files -> is_Some (fs w' !! upload_path f).
Proof.
  revert acc w. induction files as [|g files IH]; intros acc w H f Hf;
    [destruct Hf|].
  simpl in H. apply bind_inv_ok in H as (r & w1 & Hb & H).
  destruct Hf as [<-|Hf].
  - apply loop_body_keeps_upload in Hb.
    assert (Hm : evolves name contact w1 w')
      by (destruct r; exact (preserves_for_files X _ _ _ _ _ _ _ H)).
    apply Hm. rewrite Hb. eauto.
  - destruct r; eapply IH; eauto.
Qed.

End Frame.

(** X12: saving and reading back.  When the loop body ends normally for a
    file, kept or skipped, the file system holds at the file's upload path
    exactly the bytes that were uploaded: neither the later steps nor the
    file's own PDF, whose path is always a different one, touch them. *)
Theorem X12_upload_is_kept_byte_for_byte (X : Externals)
    (name contact : string) (file : FileStorage) (w w' : World)
    (r : option string) :
  loop_body X name contact file w = (Ok r, w') ->
  fs w' !! upload_path file = Some (stream file)
  /\ upload_path file <> pdf_path_of (filename file).
Proof.
  intros H. split; [now apply (loop_body_keeps_upload X _ _ _ _ _ _ H)|].
  apply upload_path_not_pdf_path.
Qed.

Lemma X12_witness :
  fs (snd (loop_body Sample.externals "Candidate" "example@email.com"
             (mkFile "/srv/cv.pdf" Sample.ada_json) Sample.w0))
    !! upload_path (mkFile "/srv/cv.pdf" Sample.ada_json)
  = Some Sample.ada_json
  /\ upload_path (mkFile "/srv/cv.pdf" Sample.ada_json)
     <> pdf_path_of "/srv/cv.pdf".
Proof.
  apply (X12_upload_is_kept_byte_for_byte Sample.externals "Candidate"
           "example@email.com" (mkFile "/srv/cv.pdf" Sample.ada_json)
           Sample.w0 _ (Some "/srv/cv_formatted.pdf")).
  vm_compute. reflexivity.
Defined.

(** X13: nothing is cleaned up.  However a request ends, every file that
    existed before it still exists after it and the trace has only grown;
    when the handler returns a response, every uploaded file of the request
    is still on disk at its upload path. *)
Theorem X13_nothing_is_cleaned_up (X : Externals) (request : Request)
    (w w' : World) (r : result Response) :
  upload_resume X request w = (r, w') ->
  (forall q, is_Some (fs w !! q) -> is_Some (fs w' !! q))
  /\ (exists evs, trace w' = evs ++ trace w)
  /\ (forall response, r = Ok response ->
      forall f, In f (getlist "resume" (req_files request)) ->
                is_Some (fs w' !! upload_path f)).
Proof.
  intros H.
  destruct (preserves_upload_resume X request _ _ _ H) as [Hm (evs & Ha & _)].
  split; [exact Hm|]. split; [now exists evs|].
  intros response -> f Hf. unfold upload_resume in H.
  fold (req_name request) (req_contact request) in H.
  destruct (getlist "resume" (req_files request)) as [|g files]; [destruct Hf|].
  apply bind_inv_ok in H as (paths & w1 & Hloop & Hzip).
  apply create_zip_world in Hzip as ->.
  now apply (for_files_keeps_uploads X _ _ _ _ _ _ _ Hloop).
Qed.

Lemma X13_witness :
  is_Some (fs (snd (upload_resume Sample.externals Sample.garbled_then_good
                      Sample.w0)) !! "uploads/cv.pdf")
  /\ is_Some (fs (snd (upload_resume Sample.externals Sample.garbled_then_good
                         Sample.w0)) !! "uploads/cv2.pdf").
Proof.
  destruct (X13_nothing_is_cleaned_up Sample.externals
              Sample.garbled_then_good Sample.w0
              (snd (upload_resume Sample.externals Sample.garbled_then_good
                      Sample.w0))
              (fst (upload_resume Sample.externals Sample.garbled_then_good
                      Sample.w0))) as (_ & _ & Hup).
  - now destruct (upload_resume _ _ _).
  - split.
    + apply (Hup _ ltac:(vm_compute; reflexivity)
               (mkFile "cv.pdf" Sample.not_json)).
      left. reflexivity.
    + apply (Hup _ ltac:(vm_compute; reflexivity)
               (mkFile "cv2.pdf" Sample.ada_json)).
      right. left. reflexivity.
Defined.

(** X14: when no uploaded file name has a directory separator, the paths a
    request writes are [uploads/<name>] and [output/<stem>_formatted.pdf]
    for its own files, the last component without a separator; every plain
    path (relative, without an empty component and without [.] or [..])
    that is none of these holds after the request, however it ends, what
    it held before. *)
Theorem X14_only_own_paths_change (X : Externals) (request : Request)
    (w w' : World) (r : result Response) :
  upload_resume X request w = (r, w') ->
  (forall f, In f (getlist "resume" (req_files request)) ->
             no_sep (filename f)) ->
  (forall f, In f (getlist "resume" (req_files request)) ->
     upload_path f = "uploads/" +:+ filename f
     /\ pdf_path_of (filename f) =
        "output/" +:+ fst (posixpath.splitext (filename f)) +:+ "_formatted.pdf"
     /\ no_sep (fst (posixpath.splitext (filename f)) +:+ "_formatted.pdf"))
  /\ (forall q,
        plain q = true ->
        ~ touched (getlist "resume" (req_files request)) q ->
        fs w' !! q = fs w !! q).
Proof.
  intros H Hflat. split.
  - intros f Hf. specialize (Hflat f Hf). split; [|split].
    + unfold upload_path. rewrite join_uploads.
      now rewrite (startswith_none _ _ Hflat).
    + apply pdf_path_of_relative, startswith_none.
      now apply splitext_root_no_sep.
    + apply rfind_none_app; [now apply splitext_root_no_sep | reflexivity].
  - intros q _ Hq. revert H.
    unfold upload_resume. fold (req_name request) (req_contact request).
    destruct (getlist "resume" (req_files request)) as [|f files] eqn:Hfiles.
    + now intros [= _ <-].
    + unfold bind.
      destruct (for_files X _ _ (f :: files) [] w) as [[paths|e] w1] eqn:Hloop.
      * intros H. apply create_zip_world in H as ->.
        now apply (writes_only_for_files X (touched (f :: files)) _ _ _ _
                     (fun _ H => H) _ _ _ _ Hloop).
      * intros [= _ <-].
        now apply (writes_only_for_files X (touched (f :: files)) _ _ _ _
                     (fun _ H => H) _ _ _ _ Hloop).
Qed.

Lemma X14_witness :
  fs (snd (upload_resume Sample.externals Sample.good_between
             {| fs := {["output/old_formatted.pdf" := "%PDF old"]};
                trace := [] |}))
    !! "output/old_formatted.pdf"
  = Some "%PDF old".
Proof.
  destruct (X14_only_own_paths_change Sample.externals Sample.good_between
              {| fs := {["output/old_formatted.pdf" := "%PDF old"]};
                 trace := [] |}
              (snd (upload_resume Sample.externals Sample.good_between
                      {| fs := {["output/old_formatted.pdf" := "%PDF old"]};
                         trace := [] |}))
              (fst (upload_resume Sample.externals Sample.good_between
                      {| fs := {["output/old_formatted.pdf" := "%PDF old"]};
                         trace := [] |}))) as [_ Hframe].
  - now destruct (upload_resume _ _ _).
  - intros f Hf. vm_compute in Hf.
    destruct Hf as [<-|[<-|[<-|[]]]]; reflexivity.
  - rewrite (Hframe "output/old_formatted.pdf").
    + reflexivity.
    + reflexivity.
    + intros (f & Hf & Hq). vm_compute in Hf.
      destruct Hf as [<-|[<-|[<-|[]]]]; destruct Hq as [Hq|Hq]; discriminate Hq.
Defined.

(* ===================================================================== *)
(** ** How many external calls a request makes *)
(* ===================================================================== *)

Section Counting.

Variable X : Externals.

Lemma count_app (kind : Event -> bool) (a b : list Event) :
  count kind (a ++ b) = (count kind a + count kind b)%nat.
Proof. unfold count. now rewrite List.filter_app, length_app. Qed.

(** The events of one pass of the loop body that ends normally: save,
    invoke and parse, then either nothing more or the printed warning (the
    file is skipped), or render and write (the file is kept). *)
Lemma loop_body_events (name contact : string) (file : FileStorage)
    (w w' : World) (r : option string) :
  loop_body X name contact file w = (Ok r, w') ->
  exists text cleaned,
    let common := [EvJsonLoads cleaned; EvInvoke text;
                   EvSave (upload_path file)] in
    match r with
    | None =>
        trace w' = common ++ trace w
        \/ exists msg, trace w' = EvPrint msg :: common ++ trace w
    | Some p =>
        exists v, trace w' = EvWritePdf p :: EvRender name contact v
                             :: common ++ trace w
    end.
Proof.
  unfold loop_body. fold (upload_path file). intros H.
  apply bind_inv_ok in H as ([] & w1 & Hs & H).
  apply write_file_inv in Hs as [_ ->].
  apply bind_inv_ok in H as (text & w2 & Hl & H).
  apply load_resume_world in Hl as ->.
  apply bind_inv_ok in H as (v & w3 & Hc & H).
  apply bind_inv_ok in H as (b & w4 & Hb & H). injection Hb as Hin <-.
  unfold convert_to_json in Hc.
  apply bind_inv_ok in Hc as (response & wi & Hi & Hc).
  unfold invoke_chain in Hi.
  destruct (chain_invoke X _ text) as [resp|e]; [|discriminate].
  injection Hi as -> <-.
  apply bind_inv_ok in Hc as ([] & wj & Hj & Hc). injection Hj as <-.
  exists text, (PyStr.strip (re_sub_fences response)).
  assert (Hshape :
    (v = fallback response
     /\ trace w3 = EvPrint "Failed JSON parse. Returning fallback."
                   :: [EvJsonLoads (PyStr.strip (re_sub_fences response));
                       EvInvoke text; EvSave (upload_path file)] ++ trace w)
    \/ trace w3 = [EvJsonLoads (PyStr.strip (re_sub_fences response));
                   EvInvoke text; EvSave (upload_path file)] ++ trace w).
  { destruct (json_loads X _) as [v0|e].
    - injection Hc as _ <-. now right.
    - destruct e; try discriminate Hc.
      unfold bind, emit, ret in Hc. injection Hc as <- <-. left. now split. }
  destruct b.
  - injection H as <- <-. destruct Hshape as [[_ Ht]|Ht]; [right | left].
    + eexists. exact Ht.
    + exact Ht.
  - apply bind_inv_ok in H as (p & w5 & Hg & H). injection H as <- <-.
    apply generate_inv in Hg as (-> & html & bytes & _ & _ & ->).
    destruct Hshape as [[-> _]|Ht]; [discriminate Hin|].
    exists v. simpl. now rewrite Ht.
Qed.

(** One save, one model call and one parse for each file the loop passes;
    one render and one written PDF for each path it collects. *)
Lemma for_files_counts (name contact : string) (files : list FileStorage)
    (acc acc' : list string) (w w' : World) :
  for_files X name contact files acc w = (Ok acc', w') ->
  exists evs,
    added w w' evs
    /\ count is_save evs = length files
    /\ count is_invoke evs = length files
    /\ count is_json_loads evs = length files
    /\ (count is_render evs + length acc = length acc')%nat
    /\ (count is_write_pdf evs + length acc = length acc')%nat.
Proof.
  revert acc w. induction files as [|f files IH]; intros acc w; simpl.
  - intros [= <- <-]. exists []. now repeat split.
  - intros H. apply bind_inv_ok in H as (r & w1 & Hb & H).
    apply loop_body_events in Hb as (text & cleaned & Hb).
    destruct r as [p|].
    + destruct Hb as (v & Ht).
      apply IH in H as (evs & Ha & H1 & H2 & H3 & H4 & H5).
      exists (evs ++ [EvWritePdf p; EvRender name contact v;
                      EvJsonLoads cleaned; EvInvoke text;
                      EvSave (upload_path f)]).
      unfold added in *. rewrite Ha, Ht, <- app_assoc.
      split; [reflexivity|]. rewrite !count_app, length_app in *.
      simpl length in H4, H5.
      unfold count at 2 4 6 8 10. simpl. repeat split; lia.
    + apply IH in H as (evs & Ha & H1 & H2 & H3 & H4 & H5).
      destruct Hb as [Ht | (msg & Ht)].
      * exists (evs ++ [EvJsonLoads cleaned; EvInvoke text;
                        EvSave (upload_path f)]).
        unfold added in *. rewrite Ha, Ht, <- app_assoc.
        split; [reflexivity|]. rewrite !count_app.
        unfold count at 2 4 6 8 10. simpl. repeat split; lia.
      * exists (evs ++ [EvPrint msg; EvJsonLoads cleaned; EvInvoke text;
                        EvSave (upload_path f)]).
        unfold added in *. rewrite Ha, Ht, <- app_assoc.
        split; [reflexivity|]. rewrite !count_app.
        unfold count at 2 4 6 8 10. simpl. repeat split; lia.
Qed.

End Counting.

(** X15: when the handler returns the archive it has made, for the request,
    exactly one save, one model call and one parse per uploaded file, and
    exactly one template render and one written PDF per archive entry. *)
Theorem X15_calls_per_file_and_per_entry (X : Externals) (request : Request)
    (w w' : World) (zip : list (string * string)) (a : bool) (dn mt : string) :
  upload_resume X request w = (Ok (SendFile zip a dn mt), w') ->
  exists evs,
    added w w' evs
    /\ count is_save evs = length (getlist "resume" (req_files request))
    /\ count is_invoke evs = length (getlist "resume" (req_files request))
    /\ count is_json_loads evs = length (getlist "resume" (req_files request))
    /\ count is_render evs = length zip
    /\ count is_write_pdf evs = length zip.
Proof.
  unfold upload_resume. fold (req_name request) (req_contact request).
  destruct (getlist "resume" (req_files request)) as [|f files];
    [discriminate|].
  intros H. apply bind_inv_ok in H as (paths & w1 & Hloop & Hzip).
  pose proof (create_zip_world _ _ _ _ Hzip) as ->.
  apply create_zip_inv, Forall2_length in Hzip.
  apply for_files_counts in Hloop as (evs & Ha & H1 & H2 & H3 & H4 & H5).
  exists evs. simpl length in H4, H5. repeat split; auto; lia.
Qed.

Lemma X15_witness :
  exists evs,
    added Sample.w0
      (snd (upload_resume Sample.externals Sample.good_between Sample.w0)) evs
    /\ count is_save evs = 3%nat
    /\ count is_invoke evs = 3%nat
    /\ count is_json_loads evs = 3%nat
    /\ count is_render evs = 2%nat
    /\ count is_write_pdf evs = 2%nat.
Proof.
  apply (X15_calls_per_file_and_per_entry Sample.externals Sample.good_between
           Sample.w0 _
           [("cv_formatted.pdf",
             "%PDF-1.7 <h1>Candidate</h1><p>example@email.com</p><p>Ada</p>");
            ("b_formatted.pdf",
             "%PDF-1.7 <h1>Candidate</h1><p>example@email.com</p><p>Bob</p>")]
           true "Formatted_Resumes.zip" "application/zip").
  vm_compute. reflexivity.
Defined.

(* ===================================================================== *)
(** ** Entries with the same name *)
(* ===================================================================== *)

Lemma entry_has_path_data (w : World) (paths : list string)
    (zip : list (string * string)) (e : string * string) :
  Forall2 (entry_of w) paths zip -> In e zip ->
  exists q, In q paths /\ fst e = posixpath.basename q
            /\ fs w !! q = Some (snd e).
Proof.
  induction 1 as [|q e' paths zip [Hn Hd] _ IH]; intros Hin; [destruct Hin|].
  destruct Hin as [<-|Hin].
  - exists q. split; [now left | now split].
  - destruct (IH Hin) as (q' & Hq & He). exists q'. split; [now right | exact He].
Qed.

(** For a file name without directories the output path is [output/]
    followed by the entry name. *)
Lemma pdf_path_of_entry_name (file : FileStorage) :
  no_sep (filename file) ->
  pdf_path_of (filename file) = "output/" +:+ entry_name file.
Proof.
  intros H. rewrite (entry_name_stem file H).
  apply pdf_path_of_relative. rewrite stem_startswith.
  now apply startswith_none.
Qed.

(** X17: when no uploaded file name contains a separator, two entries of
    the returned archive that have the same name hold the same bytes: of
    two kept files with the same stem only the PDF written last is in the
    archive, twice. *)
Theorem X17_equal_names_equal_bytes (X : Externals) (request : Request)
    (w w' : World) (zip : list (string * string)) (a : bool) (dn mt : string) :
  upload_resume X request w = (Ok (SendFile zip a dn mt), w') ->
  (forall f, In f (getlist "resume" (req_files request)) ->
             no_sep (filename f)) ->
  forall e1 e2, In e1 zip -> In e2 zip -> fst e1 = fst e2 -> snd e1 = snd e2.
Proof.
  unfold upload_resume. fold (req_name request) (req_contact request).
  destruct (getlist "resume" (req_files request)) as [|f files];
    [discriminate|].
  intros H Hflat e1 e2 H1 H2 Hname.
  apply bind_inv_ok in H as (paths & w1 & Hloop & Hzip).
  pose proof (create_zip_world _ _ _ _ Hzip) as ->.
  apply create_zip_inv in Hzip.
  apply for_files_kept in Hloop as (kept & Hsub & ->). simpl app in Hzip.
  assert (Hpath : forall e, In e zip ->
            fs w1 !! ("output/" +:+ fst e) = Some (snd e)).
  { intros e He.
    destruct (entry_has_path_data _ _ _ _ Hzip He) as (q & Hq & Hn & Hd).
    apply in_map_iff in Hq as (g & <- & Hg).
    assert (Hg' : In g (f :: files)).
    { apply list_elem_of_In. eapply elem_of_sublist; [|exact Hsub].
      now apply list_elem_of_In. }
    rewrite (pdf_path_of_entry_name g (Hflat g Hg')) in Hd.
    rewrite Hn. exact Hd. }
  pose proof (Hpath e1 H1) as P1. pose proof (Hpath e2 H2) as P2.
  rewrite Hname in P1. rewrite P1 in P2. now injection P2.
Qed.

Lemma X17_witness :
  snd ("cv_formatted.pdf",
       "%PDF-1.7 <h1>Candidate</h1><p>example@email.com</p><p>Bob</p>")
  = snd (nth 1
           match fst (upload_resume Sample.externals
                        (mkRequest [Sample.upload "cv.pdf" Sample.ada_json;
                                    Sample.upload "cv.docx" Sample.bob_json] [])
                        Sample.w0) with
           | Ok (SendFile zip _ _ _) => zip
           | _ => []
           end (EmptyString, EmptyString)).
Proof.
  apply (X17_equal_names_equal_bytes Sample.externals
           (mkRequest [Sample.upload "cv.pdf" Sample.ada_json;
                       Sample.upload "cv.docx" Sample.bob_json] [])
           Sample.w0
           (snd (upload_resume Sample.externals
                   (mkRequest [Sample.upload "cv.pdf" Sample.ada_json;
                               Sample.upload "cv.docx" Sample.bob_json] [])
                   Sample.w0))
           [("cv_formatted.pdf",
             "%PDF-1.7 <h1>Candidate</h1><p>example@email.com</p><p>Bob</p>");
            ("cv_formatted.pdf",
             "%PDF-1.7 <h1>Candidate</h1><p>example@email.com</p><p>Bob</p>")]
           true "Formatted_Resumes.zip" "application/zip").
  - vm_compute. reflexivity.
  - intros f Hf. vm_compute in Hf. destruct Hf as [<-|[<-|[]]]; reflexivity.
  - left. reflexivity.
  - right. left. vm_compute. reflexivity.
  - vm_compute. reflexivity.
Defined.

(* ===================================================================== *)
(** ** File names without an extension *)
(* ===================================================================== *)

Section NoExtension.

Import PyStr posixpath.

#[local] Arguments String.append !s1 s2 : simpl nomatch.

Lemma dots_length (n : nat) : String.length (dots n) = n.
Proof. induction n as [|n IH]; simpl; [reflexivity | now rewrite IH]. Qed.

Lemma dots_no_sep (n : nat) : rfind sep (dots n) = -1.
Proof.
  induction n as [|n IH]; [reflexivity|]. simpl dots.
  apply rfind_none_cons. split; [discriminate | exact IH].
Qed.

Lemma dots_snoc (n : nat) (e : string) :
  dots (S n) +:+ e = dots n +:+ String extsep e.
Proof.
  induction n as [|n IH]; [reflexivity|].
  change (dots (S (S n)) +:+ e) with (String extsep (dots (S n) +:+ e)).
  rewrite IH. reflexivity.
Qed.

(** Over a run of dots the loop of [splitext] finds nothing to stop at. *)
Lemma skip_leading_dots_dots (a rest : string) (k : nat) :
  skip_leading_dots (a +:+ dots k +:+ rest) (String.length a) k = false.
Proof.
  revert a. induction k as [|k IH]; intros a; [reflexivity|].
  simpl skip_leading_dots.
  change (a +:+ dots (S k) +:+ rest)
    with (a +:+ String extsep (dots k +:+ rest)).
  rewrite substring_at_length. simpl negb. cbv iota.
  change (a +:+ String extsep (dots k +:+ rest))
    with (a +:+ (String extsep EmptyString +:+ (dots k +:+ rest))).
  rewrite <- append_assoc.
  replace (S (String.length a))
    with (String.length (a +:+ String extsep EmptyString))
    by (rewrite length_append; simpl; lia).
  apply IH.
Qed.

(** A last component made of dots followed by text without a dot has no
    extension. *)
Lemma splitext_leading_dots (d e : string) (n : nat) :
  rfind extsep e = -1 -> rfind sep e = -1 ->
  snd (splitext (d +:+ String sep (dots n +:+ e))) = EmptyString.
Proof.
  intros He Hs. unfold splitext.
  assert (Hname : rfind sep (dots n +:+ e) = -1)
    by (apply rfind_none_app; [apply dots_no_sep | exact Hs]).
  rewrite (rfind_app_char sep d _ Hname).
  destruct n as [|k].
  - simpl dots. change (EmptyString +:+ e) with e.
    assert (Hd : rfind extsep (String sep e) = -1)
      by (apply rfind_none_cons; split; [discriminate | exact He]).
    rewrite (rfind_app_none extsep d _ Hd).
    pose proof (rfind_lt extsep d).
    destruct (Z.of_nat (String.length d) <? rfind extsep d) eqn:E;
      [apply Z.ltb_lt in E; lia | reflexivity].
  - rewrite dots_snoc.
    change (d +:+ String sep (dots k +:+ String extsep e))
      with (d +:+ (String sep EmptyString +:+ (dots k +:+ String extsep e))).
    rewrite <- append_assoc. set (a := d +:+ String sep EmptyString).
    assert (Hla : String.length a = S (String.length d))
      by (unfold a; rewrite length_append; simpl; lia).
    rewrite <- (append_assoc a (dots k) (String extsep e)).
    rewrite (rfind_app_char extsep (a +:+ dots k) e He).
    rewrite length_append, dots_length, Hla.
    replace (Z.to_nat (Z.of_nat (String.length d) + 1)) with (String.length a)
      by lia.
    replace (Z.to_nat (Z.of_nat (S (String.length d) + k)
                       - (Z.of_nat (String.length d) + 1))) with k by lia.
    rewrite (append_assoc a (dots k) (String extsep e)).
    rewrite skip_leading_dots_dots. now rewrite andb_false_r.
Qed.

End NoExtension.

(** X16: a file name that has no dot, or whose only dots are leading ones
    ([README], [.pdf], [..docx], the empty name), has no extension for
    [os.path.splitext]; its upload path is rejected by [load_resume] with
    the unsupported-file-type error, whatever follows the dots. *)
Theorem X16_names_without_extension_are_rejected (X : Externals)
    (file : FileStorage) (n : nat) (e : string) (w : World) :
  filename file = dots n +:+ e ->
  PyStr.rfind posixpath.extsep e = -1 ->
  PyStr.rfind posixpath.sep e = -1 ->
  load_resume X (upload_path file) w
  = (Raise (ValueError "Unsupported file type."), w).
Proof.
  intros Hname He Hs. apply load_resume_unsupported.
  unfold upload_path. rewrite join_uploads, Hname.
  assert (Hrel : PyStr.startswith posixpath.sep (dots n +:+ e) = false).
  { apply startswith_none, rfind_none_app; [apply dots_no_sep | exact Hs]. }
  rewrite Hrel.
  change ("uploads/" +:+ dots n +:+ e)
    with ("uploads" +:+ String posixpath.sep (dots n +:+ e)).
  rewrite (splitext_leading_dots "uploads" e n He Hs). simpl.
  intros [H|[H|[H|[]]]]; discriminate H.
Qed.

Lemma X16_witness :
  load_resume Sample.externals (upload_path (mkFile ".pdf" "x")) Sample.w0
  = (Raise (ValueError "Unsupported file type."), Sample.w0)
  /\ load_resume Sample.externals (upload_path (mkFile "README" "x")) Sample.w0
     = (Raise (ValueError "Unsupported file type."), Sample.w0).
Proof.
  split.
  - apply (X16_names_without_extension_are_rejected Sample.externals
             (mkFile ".pdf" "x") 1 "pdf" Sample.w0); reflexivity.
  - apply (X16_names_without_extension_are_rejected Sample.externals
             (mkFile "README" "x") 0 "README" Sample.w0); reflexivity.
Defined.

(* ===================================================================== *)
(** ** Stems, extensions and collisions *)
(* ===================================================================== *)

(** X18: two file names are given the same output file exactly when they
    have the same stem; the extension, its letter case included, plays no
    part. *)
Theorem X18_same_output_iff_same_stem (f g : string) :
  pdf_path_of f = pdf_path_of g
  <-> fst (posixpath.splitext f) = fst (posixpath.splitext g).
Proof.
  split; [apply pdf_path_of_inj|].
  intros H. unfold pdf_path_of. now rewrite H.
Qed.

Example same_stem_collides :
  pdf_path_of "cv.PDF" = pdf_path_of "cv.docx"
  /\ pdf_path_of "cv.v1.pdf" <> pdf_path_of "cv.v2.pdf".
Proof.
  split; [reflexivity|].
  intros H. apply pdf_path_of_inj in H. discriminate H.
Qed.

Section ExtensionOfUpload.

Import PyStr posixpath.

#[local] Arguments String.append !s1 s2 : simpl nomatch.

Lemma substring_shift (a f : string) (i m : nat) :
  String.substring (String.length a + i) m (a +:+ f) = String.substring i m f.
Proof. induction a as [|x a IH]; [reflexivity | exact IH]. Qed.

Lemma skip_leading_dots_shift (a f : string) (i n : nat) :
  skip_leading_dots (a +:+ f) (String.length a + i) n
  = skip_leading_dots f i n.
Proof.
  revert i. induction n as [|n IH]; intros i; [reflexivity|].
  simpl. rewrite substring_shift.
  replace (S (String.length a + i)) with (String.length a + S i)%nat by lia.
  now rewrite IH.
Qed.

Lemma take_shift (a f : string) (n : nat) :
  take (String.length a + n) (a +:+ f) = a +:+ take n f.
Proof. induction a as [|x a IH]; [reflexivity | simpl; now rewrite IH]. Qed.

Lemma drop_shift (a f : string) (n : nat) :
  drop (String.length a + n) (a +:+ f) = drop n f.
Proof. induction a as [|x a IH]; [reflexivity | exact IH]. Qed.

(** The last separator of a path that ends in a directory separator and a
    name. *)
Lemma rfind_sep_in_dir (a f : string) :
  endswith sep a = true ->
  rfind sep (a +:+ f) = Z.of_nat (String.length a) + rfind sep f.
Proof.
  intros Ha. pose proof (rfind_ge sep f) as Hge.
  destruct (Z.eq_dec (rfind sep f) (-1)) as [Hn|Hn].
  - rewrite (rfind_app_none sep a f Hn), Hn. clear -Ha.
    induction a as [|x a IH]; [discriminate|].
    destruct a as [|y a].
    + simpl in Ha. simpl. rewrite Ha. reflexivity.
    + specialize (IH Ha). simpl rfind in *. simpl String.length in *.
      rewrite IH.
      destruct (0 <=? Z.of_nat (S (String.length a)) + -1) eqn:E; [lia|].
      apply Z.leb_gt in E. lia.
  - apply rfind_app_other. lia.
Qed.

End ExtensionOfUpload.

Section ExtensionInDir.

Import PyStr posixpath.

#[local] Arguments String.append !s1 s2 : simpl nomatch.

(** Putting a directory in front of a name moves the cut of [splitext]
    without changing it. *)
Lemma splitext_in_dir (a f : string) :
  endswith sep a = true ->
  splitext (a +:+ f) = (a +:+ fst (splitext f), snd (splitext f)).
Proof.
  intros Ha. unfold splitext.
  rewrite (rfind_sep_in_dir a f Ha).
  pose proof (rfind_ge sep f) as Hsf. pose proof (rfind_ge extsep f) as Hdf.
  destruct (Z.eq_dec (rfind extsep f) (-1)) as [Hn|Hn].
  - assert (Hd : rfind extsep (a +:+ f) = rfind extsep a)
      by now apply rfind_app_none.
    pose proof (rfind_lt extsep a) as Hlt. rewrite Hd, Hn.
    destruct (Z.of_nat (String.length a) + rfind sep f <? rfind extsep a) eqn:E1;
      [apply Z.ltb_lt in E1; lia|].
    destruct (rfind sep f <? -1) eqn:E2; [apply Z.ltb_lt in E2; lia|].
    reflexivity.
  - rewrite (rfind_app_other extsep a f) by lia.
    replace (Z.of_nat (String.length a) + rfind sep f
             <? Z.of_nat (String.length a) + rfind extsep f)
      with (rfind sep f <? rfind extsep f)
      by (destruct (rfind sep f <? rfind extsep f) eqn:E; symmetry;
          [apply Z.ltb_lt; apply Z.ltb_lt in E | apply Z.ltb_ge;
           apply Z.ltb_ge in E]; lia).
    replace (Z.to_nat (Z.of_nat (String.length a) + rfind sep f + 1))
      with (String.length a + Z.to_nat (rfind sep f + 1))%nat by lia.
    replace (Z.to_nat (Z.of_nat (String.length a) + rfind extsep f
                       - (Z.of_nat (String.length a) + rfind sep f + 1)))
      with (Z.to_nat (rfind extsep f - (rfind sep f + 1))) by lia.
    rewrite skip_leading_dots_shift.
    replace (Z.to_nat (Z.of_nat (String.length a) + rfind extsep f))
      with (String.length a + Z.to_nat (rfind extsep f))%nat by lia.
    rewrite take_shift, drop_shift.
    destruct (_ && _); reflexivity.
Qed.

Lemma splitext_upload_path (file : FileStorage) :
  snd (splitext (upload_path file)) = snd (splitext (filename file)).
Proof.
  unfold upload_path. rewrite join_uploads.
  destruct (startswith sep (filename file)); [reflexivity|].
  now rewrite (splitext_in_dir "uploads/" (filename file)).
Qed.

End ExtensionInDir.

(** X19: the extension that [load_resume] looks at, taken from the upload
    path, is the extension of the uploaded file name itself, and the stem
    that names the PDF is that file name without this extension.  So when
    the loop body ends normally for a file, the file's own extension,
    lowercased, is [.pdf], [.docx] or [.doc]. *)
Theorem X19_loader_sees_the_names_extension (X : Externals)
    (name contact : string) (file : FileStorage) (w w' : World)
    (r : option string) :
  loop_body X name contact file w = (Ok r, w') ->
  snd (posixpath.splitext (upload_path file))
  = snd (posixpath.splitext (filename file))
  /\ fst (posixpath.splitext (filename file))
     +:+ snd (posixpath.splitext (filename file)) = filename file
  /\ In (PyStr.lower (snd (posixpath.splitext (filename file)))) SUPPORTED.
Proof.
  intros H. split; [apply splitext_upload_path|].
  split; [apply splitext_app|].
  rewrite <- splitext_upload_path.
  unfold loop_body in H. fold (upload_path file) in H.
  apply bind_inv_ok in H as ([] & w1 & _ & H).
  apply bind_inv_ok in H as (text & w2 & Hl & _).
  destruct (In_dec string_dec
              (PyStr.lower (snd (posixpath.splitext (upload_path file))))
              SUPPORTED) as [Hin|Hn]; [exact Hin|].
  rewrite (load_resume_unsupported X _ w1 Hn) in Hl. discriminate Hl.
Qed.

Lemma X19_witness :
  snd (posixpath.splitext (upload_path (mkFile "Ada.Lovelace.DOCX" Sample.ada_json)))
  = snd (posixpath.splitext "Ada.Lovelace.DOCX")
  /\ fst (posixpath.splitext "Ada.Lovelace.DOCX")
     +:+ snd (posixpath.splitext "Ada.Lovelace.DOCX") = "Ada.Lovelace.DOCX"
  /\ In (PyStr.lower (snd (posixpath.splitext "Ada.Lovelace.DOCX"))) SUPPORTED.
Proof.
  apply (X19_loader_sees_the_names_extension Sample.externals "Candidate"
           "example@email.com" (mkFile "Ada.Lovelace.DOCX" Sample.ada_json)
           Sample.w0
           (snd (loop_body Sample.externals "Candidate" "example@email.com"
                   (mkFile "Ada.Lovelace.DOCX" Sample.ada_json) Sample.w0))
           (Some "output/Ada.Lovelace_formatted.pdf")).
  vm_compute. reflexivity.
Defined.

(* ===================================================================== *)
(** ** What the renderer is given *)
(* ===================================================================== *)

Section RenderData.

Variable X : Externals.
Variable P : Event -> Prop.

Lemma adds_only_ret {A} (a : A) : adds_only P (ret a).
Proof. intros w r w' [= _ <-]. exists []. split; [reflexivity | constructor]. Qed.

Lemma adds_only_raise {A} (e : exn) : adds_only P (@raise A e).
Proof. intros w r w' [= _ <-]. exists []. split; [reflexivity | constructor]. Qed.

Lemma adds_only_lift {A} (r : result A) : adds_only P (lift r).
Proof. intros w r' w' [= _ <-]. exists []. split; [reflexivity | constructor]. Qed.

Lemma adds_only_emit (e : Event) : P e -> adds_only P (emit e).
Proof.
  intros He w r w' [= _ <-]. exists [e]. split; [reflexivity|].
  constructor; [exact He | constructor].
Qed.

(** Sequencing, with what is known of the value passed on. *)
Lemma adds_only_bind {A B} (Q : A -> Prop) (m : M A) (k : A -> M B) :
  adds_only P m ->
  (forall w a w', m w = (Ok a, w') -> Q a) ->
  (forall a, Q a -> adds_only P (k a)) ->
  adds_only P (bind m k).
Proof.
  intros Hm Hq Hk w r w'. unfold bind.
  destruct (m w) as [[a|e] w1] eqn:E.
  - intros H. destruct (Hm _ _ _ E) as (e1 & A1 & P1).
    destruct (Hk a (Hq _ _ _ E) _ _ _ H) as (e2 & A2 & P2).
    exists (e2 ++ e1). split; [rewrite A2, A1; apply app_assoc|].
    now apply Forall_app.
  - intros [= _ <-]. exact (Hm _ _ _ E).
Qed.

Lemma adds_only_write_file (path data : string) (e : Event) :
  P e -> adds_only P (write_file X path data e).
Proof.
  intros He w r w'. unfold write_file.
  destruct (can_write X w path); intros [= _ <-].
  - exists [e]. split; [reflexivity|]. constructor; [exact He | constructor].
  - exists []. split; [reflexivity | constructor].
Qed.

Lemma adds_only_load_resume (path : string) : adds_only P (load_resume X path).
Proof.
  intros w r w' H. apply load_resume_world in H as ->.
  exists []. split; [reflexivity | constructor].
Qed.

End RenderData.

Section RenderDataOfRequest.

Variable X : Externals.

Let P : Event -> Prop := parsed_without_error X.

(** What [convert_to_json] returns is a value that [json.loads] returned,
    or the fallback object. *)
Lemma convert_to_json_value (text : string) (w w' : World) (v : json) :
  convert_to_json X text w = (Ok v, w') ->
  (exists t, json_loads X t = Ok v) \/ (exists response, v = fallback response).
Proof.
  unfold convert_to_json. intros H.
  apply bind_inv_ok in H as (response & w1 & _ & H).
  apply bind_inv_ok in H as ([] & w2 & _ & H).
  destruct (json_loads X _) as [v0|e] eqn:E.
  - injection H as <- _. left. eauto.
  - destruct e; try discriminate H.
    unfold bind, emit, ret in H. injection H as <- _. right. eauto.
Qed.

Lemma adds_only_convert_to_json (text : string) :
  adds_only P (convert_to_json X text).
Proof.
  unfold convert_to_json.
  apply (adds_only_bind P (fun _ => True)); [|auto|].
  - intros w r w'. unfold invoke_chain.
    destruct (chain_invoke X w text); intros [= _ <-].
    + exists [EvInvoke text]. split; [reflexivity|].
      constructor; [exact I | constructor].
    + exists []. split; [reflexivity | constructor].
  - intros response _.
    apply (adds_only_bind P (fun _ => True)); [now apply adds_only_emit|auto|].
    intros _ _. destruct (json_loads X _) as [v|e]; [apply adds_only_ret|].
    destruct e; try apply adds_only_raise.
    apply (adds_only_bind P (fun _ => True)); [now apply adds_only_emit|auto|].
    intros; apply adds_only_ret.
Qed.

Lemma adds_only_generate (data : json) (name contact fname : string) :
  py_in "error" data = Ok false ->
  (exists t, json_loads X t = Ok data) ->
  adds_only P (generate_company_resume X data name contact fname).
Proof.
  intros Hin Hparsed. unfold generate_company_resume.
  apply (adds_only_bind P (fun _ => True)); [|auto|].
  - intros w r w'. unfold render.
    destruct (template_render X w name contact data); intros [= _ <-].
    + exists [EvRender name contact data]. split; [reflexivity|].
      constructor; [now split | constructor].
    + exists []. split; [reflexivity | constructor].
  - intros html _.
    apply (adds_only_bind P (fun _ => True)); [|auto|intros; apply adds_only_ret].
    intros w r w'. unfold write_pdf.
    destruct (write_pdf_bytes X w html).
    + now apply adds_only_write_file.
    + intros [= _ <-]. exists []. split; [reflexivity | constructor].
Qed.

Lemma adds_only_loop_body (name contact : string) (file : FileStorage) :
  adds_only P (loop_body X name contact file).
Proof.
  unfold loop_body.
  apply (adds_only_bind P (fun _ => True));
    [now apply adds_only_write_file | auto |]. intros _ _.
  apply (adds_only_bind P (fun _ => True));
    [apply adds_only_load_resume | auto |]. intros text _.
  apply (adds_only_bind P
           (fun v => (exists t, json_loads X t = Ok v)
                     \/ (exists response, v = fallback response)));
    [apply adds_only_convert_to_json
    | intros w0 v w1 H; exact (convert_to_json_value _ _ _ _ H) |].
  intros v Hv.
  apply (adds_only_bind P (fun b => py_in "error" v = Ok b));
    [apply adds_only_lift | now intros w b w' [= -> _] |].
  intros [|] Hb; [apply adds_only_ret|].
  apply (adds_only_bind P (fun _ => True)); [|auto|intros; apply adds_only_ret].
  apply adds_only_generate; [exact Hb|].
  destruct Hv as [Hv | (response & ->)]; [exact Hv | discriminate Hb].
Qed.

Lemma adds_only_for_files (name contact : string) (files : list FileStorage)
    (acc : list string) :
  adds_only P (for_files X name contact files acc).
Proof.
  revert acc. induction files as [|f files IH]; intros acc; simpl.
  - apply adds_only_ret.
  - apply (adds_only_bind P (fun _ => True));
      [apply adds_only_loop_body | auto |].
    intros [p|] _; apply IH.
Qed.

End RenderDataOfRequest.

(** X20: the renderer is only ever given parsed model output.  However a
    request ends, every template render made for it received a value that
    [json.loads] returned and in which the test for ["error"] is false; the
    fallback object built after a failed parse is never rendered. *)
Theorem X20_renderer_gets_parsed_values_only (X : Externals)
    (request : Request) (w w' : World) (r : result Response) :
  upload_resume X request w = (r, w') ->
  exists evs,
    added w w' evs
    /\ forall n c d, In (EvRender n c d) evs ->
         py_in "error" d = Ok false
         /\ (exists text, json_loads X text = Ok d)
         /\ (forall response, d <> fallback response).
Proof.
  unfold upload_resume. fold (req_name request) (req_contact request).
  intros H.
  assert (Hevs : exists evs, trace w' = evs ++ trace w
                             /\ Forall (parsed_without_error X) evs).
  { destruct (getlist "resume" (req_files request)) as [|f files].
    - injection H as _ <-. exists []. split; [reflexivity | constructor].
    - revert H. unfold bind.
      destruct (for_files X _ _ (f :: files) [] w) as [[paths|e] w1] eqn:Hloop.
      + intros H. apply create_zip_world in H as ->.
        exact (adds_only_for_files X _ _ _ _ _ _ _ Hloop).
      + intros [= _ <-]. exact (adds_only_for_files X _ _ _ _ _ _ _ Hloop). }
  destruct Hevs as (evs & Ha & Hall). exists evs. split; [exact Ha|].
  rewrite List.Forall_forall in Hall.
  intros n c d Hin. destruct (Hall _ Hin) as [Herr Hparsed].
  split; [exact Herr|]. split; [exact Hparsed|].
  intros response ->. discriminate Herr.
Qed.

Lemma X20_witness :
  exists evs,
    added Sample.w0
      (snd (upload_resume Sample.externals Sample.good_between Sample.w0)) evs
    /\ forall n c d, In (EvRender n c d) evs ->
         py_in "error" d = Ok false
         /\ (exists text, json_loads Sample.externals text = Ok d)
         /\ (forall response, d <> fallback response).
Proof.
  apply (X20_renderer_gets_parsed_values_only Sample.externals
           Sample.good_between Sample.w0 _
           (fst (upload_resume Sample.externals Sample.good_between Sample.w0))).
  now destruct (upload_resume _ _ _).
Defined.
